(** * Plate pickup demo (src/examples/demo_plate_pickup.py)

    A shallow embedding of the sequencing script and the properties its
    specification states about it.

    The script talks to two things it does not own: the operator's terminal
    ([input]) and the [XArmController] object.  Both are modelled as one
    deterministic environment ([world]) that answers every call, given the
    history of everything observable that happened before.  A call either
    returns or raises.  [print] and [time.sleep] are recorded in the same
    history and always complete. *)

From Stdlib Require Import ZArith List String Ascii Bool Floats Lia.
Import ListNotations.
Open Scope string_scope.
Open Scope list_scope.

(* ===================================================================== *)
(** * Python values and dictionaries *)
(* ===================================================================== *)

(** The values stored in the speed tables: ints (the defaults), floats
    (after scaling) and strings (the descriptions). *)
Inductive pyval :=
| VInt (n : Z)
| VFloat (f : float)
| VStr (s : string).

(** Python's int -> float conversion (exact on the integers the tables hold;
    correctly rounded up to 2^63 in magnitude). *)
Definition float_of_Z (n : Z) : float :=
  if (n <? 0)%Z
  then PrimFloat.opp (PrimFloat.of_uint63 (Uint63.of_Z (- n)))
  else PrimFloat.of_uint63 (Uint63.of_Z n).

(** [a != b] on floats: IEEE comparison, so [nan != x] is true. *)
Definition float_ne (a b : float) : bool := negb (PrimFloat.eqb a b).

(** [v * m] for a float [m]; [None] is Python's TypeError. *)
Definition py_mul_float (v : pyval) (m : float) : option pyval :=
  match v with
  | VInt n => Some (VFloat (PrimFloat.mul (float_of_Z n) m))
  | VFloat f => Some (VFloat (PrimFloat.mul f m))
  | VStr _ => None
  end.

(** The number a value denotes, as a float ([None] for a string). *)
Definition to_float (v : pyval) : option float :=
  match v with
  | VInt n => Some (float_of_Z n)
  | VFloat f => Some f
  | VStr _ => None
  end.

(** A dict with string keys, in insertion order. *)
Definition dict (V : Type) := list (string * V).

Fixpoint dict_get {V} (k : string) (d : dict V) : option V :=
  match d with
  | [] => None
  | (k', v) :: d' => if String.eqb k k' then Some v else dict_get k d'
  end.

(** [k in d] *)
Definition dict_mem {V} (k : string) (d : dict V) : bool :=
  match dict_get k d with Some _ => true | None => false end.

(** [d[k] = v]: an existing key keeps its place, a new one goes last. *)
Fixpoint dict_set {V} (k : string) (v : V) (d : dict V) : dict V :=
  match d with
  | [] => [(k, v)]
  | (k', v') :: d' =>
      if String.eqb k k' then (k', v) :: d' else (k', v') :: dict_set k v d'
  end.

(** [d.update(d')] *)
Definition dict_update {V} (d d' : dict V) : dict V :=
  fold_left (fun acc kv => dict_set (fst kv) (snd kv) acc) d' d.

(** Truthiness of a dict: non-empty. *)
Definition dict_truthy {V} (d : dict V) : bool :=
  match d with [] => false | _ :: _ => true end.

Definition dict_keys {V} (d : dict V) : list string := map fst d.

(* ===================================================================== *)
(** * Speed configuration *)
(* ===================================================================== *)

Definition config := dict pyval.

Definition get_speed_config : dict config :=
  [ ("robot_home",
      [ ("joint_speed", VInt 20);
        ("description", VStr "Robot joint homing speed with gripper open") ]);
    ("move_to_local_1",
      [ ("track_speed", VInt 150);
        ("description", VStr "Linear track movement to Local_1 position") ]);
    ("deck_high",
      [ ("joint_speed", VInt 15);
        ("description", VStr "Joint movement to deck high position") ]);
    ("deck_low",
      [ ("joint_speed", VInt 8);
        ("description", VStr "Slow descent to plate pickup level") ]);
    ("plate_pickup",
      [ ("description", VStr "Close gripper to pick up well plate") ]);
    ("deck_high_return",
      [ ("joint_speed", VInt 10);
        ("description", VStr "Slow lift to safe height with plate") ]);
    ("final_home",
      [ ("joint_speed", VInt 15);
        ("description", VStr "Return to home position with plate") ]) ].

(** The parsed command line ([argparse.Namespace]). *)
Record Namespace := {
  simulate : bool;
  real : bool;
  auto : bool;
  slow : bool;
  fast : bool;
  speed_multiplier : float
}.

Inductive speed_description :=
| Default
| Slow
| Fast
| Custom (m : float).

(** main, lines 305-315: the multiplier and its label. *)
Definition resolve_speed (args : Namespace) : float * speed_description :=
  if slow args then (0.5%float, Slow)
  else if fast args then (2.0%float, Fast)
  else if float_ne (speed_multiplier args) 1.0%float
       then (speed_multiplier args, Custom (speed_multiplier args))
       else (1.0%float, Default).

(** main, lines 323-324 and 325-326: rescale one key of the copied entry. *)
Definition scale_key (key step : string) (cfg : config) (m : float)
    (custom_speeds : dict config) : option (dict config) :=
  if dict_mem key cfg then
    match dict_get key cfg with
    | None => None
    | Some v =>
        match py_mul_float v m with
        | None => None
        | Some p =>
            match dict_get step custom_speeds with
            | None => None
            | Some entry =>
                Some (dict_set step (dict_set key p entry) custom_speeds)
            end
        end
    end
  else Some custom_speeds.

(** main, lines 321-326: one iteration of the loop over the base table. *)
Definition scale_step (m : float) (acc : option (dict config))
    (item : string * config) : option (dict config) :=
  match acc with
  | None => None
  | Some custom_speeds =>
      let '(step, cfg) := item in
      let custom_speeds := dict_set step cfg custom_speeds in
      match scale_key "joint_speed" step cfg m custom_speeds with
      | None => None
      | Some custom_speeds => scale_key "track_speed" step cfg m custom_speeds
      end
  end.

(** main, lines 318-326.  The outer option is the TypeError channel, the
    inner one is Python's [None] for "no override". *)
Definition build_custom_speeds (m : float) : option (option (dict config)) :=
  if float_ne m 1.0%float then
    match fold_left (scale_step m) get_speed_config (Some []) with
    | None => None
    | Some custom_speeds => Some (Some custom_speeds)
    end
  else Some None.

(** demo_plate_pickup, lines 127-129. *)
Definition effective_speeds (custom_speeds : option (dict config)) : dict config :=
  let speeds := get_speed_config in
  match custom_speeds with
  | Some c => if dict_truthy c then dict_update speeds c else speeds
  | None => speeds
  end.

(* ===================================================================== *)
(** * The environment: operator, controller, terminal *)
(* ===================================================================== *)

(** The exceptions the script distinguishes.  [PyException] stands for every
    subclass of [Exception] (KeyError, EOFError, a controller fault, ...);
    [KeyboardInterrupt] and [SystemExit] are not caught by
    [except Exception]. *)
Inductive exn :=
| KeyboardInterrupt
| SystemExit (code : Z)
| PyException (kind : string).

(** The calls that leave the script. *)
Inductive call :=
| input (prompt : string)
| XArmController_new (profile_name : option string)
                     (simulation_mode auto_enable : bool)
| initialize
| disconnect
| stop_motion
| is_component_enabled (name : string)
| has_gripper
| move_to_named_location (name : string) (speed : pyval)
| move_track_to_named_location (name : string) (speed : pyval)
| open_gripper
| close_gripper.

(** What a call does: it returns (a truth value is all the script ever
    looks at) or it raises. *)
Inductive reply :=
| Returns (b : bool)
| Raises (e : exn).

(** What [print] writes.  Fixed texts are [Line]s; a formatted line is kept
    as its template with the values it interpolates. *)
Inductive output :=
| Line (s : string)
| JointSpeedLine (v : pyval)
| TcpSpeedLine (v : pyval)
| TrackSpeedLine (v : pyval)
| ConfigJointLine (step : string) (v : pyval)
| ConfigTrackLine (step : string) (v : pyval)
| ConfigDescriptionLine (step : string) (v : pyval)
| PositionNotFound (pos_name : string)
| SequenceFailedWith (e : exn)
| ModeLine (simulation : bool)
| ConfirmationLine (auto_confirm : bool)
| SpeedLine (d : speed_description)
| DemoFailedWith (e : exn)
| Traceback (e : exn).

Inductive event :=
| Called (c : call) (r : reply)
| Printed (o : output)
| Slept (seconds : Z).

(** The attributes of the controller object the script reads directly.
    [position_config] maps a section name to the names that section defines
    (the script only tests membership, never reads a pose). *)
Record XArmController := {
  position_config : dict (list string);
  truthy : bool
}.

Record world := {
  respond : list event -> call -> reply;
  the_controller : XArmController
}.

(** Machine state: everything observable so far, and the one local variable
    of [main] whose binding is inspected through [locals()]. *)
Record state := {
  trace : list event;
  controller_var : option XArmController
}.

Definition initial_state : state := {| trace := []; controller_var := None |}.

(* ===================================================================== *)
(** * Statements *)
(* ===================================================================== *)

(** A statement of a function whose return type is [R], computing an [A]:
    it completes, executes [return], or raises. *)
Inductive completion (R A : Type) :=
| Normal (a : A)
| Returned (r : R)
| Raised (e : exn).
Arguments Normal {R A} a.
Arguments Returned {R A} r.
Arguments Raised {R A} e.

Definition Stmt (R A : Type) := state -> completion R A * state.

Definition ret {R A} (a : A) : Stmt R A := fun s => (Normal a, s).

Definition bind {R A B} (m : Stmt R A) (k : A -> Stmt R B) : Stmt R B :=
  fun s =>
    match m s with
    | (Normal a, s') => k a s'
    | (Returned r, s') => (Returned r, s')
    | (Raised e, s') => (Raised e, s')
    end.

Declare Scope stmt_scope.
Delimit Scope stmt_scope with stmt.
Notation "x <- m ;; k" := (bind m (fun x => k))
  (at level 61, m at next level, right associativity) : stmt_scope.
Notation "m ;; k" := (bind m (fun _ => k))
  (at level 61, right associativity) : stmt_scope.
Open Scope stmt_scope.

(** [return r] *)
Definition return_ {R A} (r : R) : Stmt R A := fun s => (Returned r, s).

(** [raise e] *)
Definition raise {R A} (e : exn) : Stmt R A := fun s => (Raised e, s).

Definition pass {R} : Stmt R unit := ret tt.

Definition emit {R} (ev : event) : Stmt R unit :=
  fun s => (Normal tt, {| trace := trace s ++ [ev]; controller_var := controller_var s |}).

Definition print {R} (o : output) : Stmt R unit := emit (Printed o).

(** [time.sleep(n)] *)
Definition sleep {R} (seconds : Z) : Stmt R unit := emit (Slept seconds).

(** [sys.exit(code)] *)
Definition sys_exit {R A} (code : Z) : Stmt R A := raise (SystemExit code).

(** [try: body except ...: handler].  [handler e = None] when no clause
    matches [e]. *)
Definition try_except {R A} (body : Stmt R A)
    (handler : exn -> option (Stmt R A)) : Stmt R A :=
  fun s =>
    match body s with
    | (Raised e, s') =>
        match handler e with
        | Some h => h s'
        | None => (Raised e, s')
        end
    | other => other
    end.

(** [try: body finally: cleanup] *)
Definition try_finally {R A} (body : Stmt R A) (cleanup : Stmt R unit) : Stmt R A :=
  fun s =>
    match body s with
    | (c, s') =>
        match cleanup s' with
        | (Normal _, s'') => (c, s'')
        | (Returned r, s'') => (Returned r, s'')
        | (Raised e, s'') => (Raised e, s'')
        end
    end.

(** Calling a function: its body's [return] is the value of the call;
    falling off the end gives [dflt] (Python's [None]). *)
Definition call_function {R R' A} (dflt : R') (body : Stmt R' A) : Stmt R R' :=
  fun s =>
    match body s with
    | (Normal _, s') => (Normal dflt, s')
    | (Returned r, s') => (Normal r, s')
    | (Raised e, s') => (Raised e, s')
    end.

(** [for x in xs: body x] *)
Fixpoint for_each {R X} (xs : list X) (body : X -> Stmt R unit) : Stmt R unit :=
  match xs with
  | [] => pass
  | x :: xs' => body x ;; for_each xs' body
  end.

(** [d[k]], raising KeyError *)
Definition subscript {R V} (d : dict V) (k : string) : Stmt R V :=
  match dict_get k d with
  | Some v => ret v
  | None => raise (PyException "KeyError")
  end.

Definition nl : string := String (ascii_of_nat 10) EmptyString.

(** ["=" * n] *)
Definition rule (n : nat) : string := string_of_list_ascii (repeat "="%char n).

(* ===================================================================== *)
(** * The script *)
(* ===================================================================== *)

Section Script.

Variable w : world.

(** A call that leaves the script: the environment answers from the
    history, and the call with its answer joins the history. *)
Definition extern {R} (c : call) : Stmt R bool :=
  fun s =>
    let r := respond w (trace s) c in
    let s' := {| trace := trace s ++ [Called c r];
                 controller_var := controller_var s |} in
    match r with
    | Returns b => (Normal b, s')
    | Raises e => (Raised e, s')
    end.

(** [controller.m(...)]: there is one controller, the environment's. *)
Definition method {R} (controller : XArmController) (c : call) : Stmt R bool :=
  extern c.

(** [XArmController(...)] *)
Definition construct {R} (profile_name : option string)
    (simulation_mode auto_enable : bool) : Stmt R XArmController :=
  _ <- extern (XArmController_new profile_name simulation_mode auto_enable) ;;
  ret (the_controller w).

Definition is_KeyboardInterrupt (e : exn) : bool :=
  match e with KeyboardInterrupt => true | _ => false end.

(** [isinstance(e, Exception)] *)
Definition is_Exception (e : exn) : bool :=
  match e with PyException _ => true | _ => false end.

(** The speed annotations, lines 41-47. *)
Definition print_speed_info {R} (speed_info : option config) : Stmt R unit :=
  match speed_info with
  | None => pass
  | Some info =>
      if dict_truthy info then
        (if dict_mem "joint_speed" info
         then v <- subscript info "joint_speed" ;; print (JointSpeedLine v)
         else pass) ;;
        (if dict_mem "tcp_speed" info
         then v <- subscript info "tcp_speed" ;; print (TcpSpeedLine v)
         else pass) ;;
        (if dict_mem "track_speed" info
         then v <- subscript info "track_speed" ;; print (TrackSpeedLine v)
         else pass)
      else pass
  end.

(** Lines 49-55 and again lines 152-158: wait for the operator; Ctrl+C
    stops the robot and leaves the enclosing function with [False]. *)
Definition wait_for_operator (controller : XArmController)
    (prompt notice : string) : Stmt bool unit :=
  try_except
    (_ <- extern (input prompt) ;;
     pass)
    (fun e =>
       if is_KeyboardInterrupt e then
         Some (print (Line (nl ++ notice)) ;;
               _ <- method controller stop_motion ;;
               return_ false)
       else None).

(** Lines 58-71.  [movement_func] is the body of the callable. *)
Definition execute_movement (controller : XArmController)
    (movement_func : Stmt bool unit) : Stmt bool unit :=
  try_except
    (success <- call_function false movement_func ;;
     if success then
       print (Line "Movement completed successfully") ;;
       sleep 1 ;;
       return_ true
     else
       print (Line "Movement failed") ;;
       return_ false)
    (fun e =>
       if is_KeyboardInterrupt e then
         Some (print (Line (nl ++ "Movement interrupted - stopping robot immediately!")) ;;
               _ <- method controller stop_motion ;;
               return_ false)
       else None).

(** Lines 25-71. *)
Definition move_with_confirmation (controller : XArmController)
    (movement_func : Stmt bool unit) (description : string)
    (auto_confirm : bool) (speed_info : option config) : Stmt bool unit :=
  print (Line (nl ++ description)) ;;
  print_speed_info speed_info ;;
  (if negb auto_confirm then
     wait_for_operator controller
       "Press Enter to continue (Ctrl+C to abort)..."
       "Movement aborted by user"
   else pass) ;;
  print (Line "Executing movement...") ;;
  execute_movement controller movement_func.

(** Lines 180-184. *)
Definition move_home_and_open_gripper (controller : XArmController)
    (joint_speed : pyval) : Stmt bool unit :=
  success <- method controller (move_to_named_location "robot_home" joint_speed) ;;
  (if success then _ <- method controller open_gripper ;; pass else pass) ;;
  return_ success.

(** [lambda: e] *)
Definition lambda (e : Stmt bool bool) : Stmt bool unit :=
  v <- e ;; return_ v.

Definition required_positions : list string :=
  ["robot_home"; "deck_high"; "deck_low"].

(** Lines 131-150: the banner and the speed table. *)
Definition print_banner {R} (speeds : dict config) : Stmt R unit :=
  print (Line (nl ++ rule 60)) ;;
  print (Line "PLATE PICKUP DEMO") ;;
  print (Line (rule 60)) ;;
  print (Line "This demo will execute the following sequence:") ;;
  print (Line "1. Robot joints → Home position + Open gripper") ;;
  print (Line "2. Linear track → Local_1 position") ;;
  print (Line "3. Joint movement → deck_high position") ;;
  print (Line "4. Joint movement → deck_low position") ;;
  print (Line "5. Close gripper (grip well plate)") ;;
  print (Line "6. Joint movement → deck_high position (with plate)") ;;
  print (Line "7. Robot joints → Home position (with plate)") ;;
  print (Line (nl ++ "Speed Configuration:")) ;;
  for_each speeds (fun item =>
    let '(step, cfg) := item in
    if dict_mem "joint_speed" cfg then
      v <- subscript cfg "joint_speed" ;; print (ConfigJointLine step v)
    else if dict_mem "track_speed" cfg then
      v <- subscript cfg "track_speed" ;; print (ConfigTrackLine step v)
    else
      v <- subscript cfg "description" ;; print (ConfigDescriptionLine step v)) ;;
  print (Line (rule 60)).

(** One numbered step of the plan: run it through the step runner and
    leave the sequence when it reports failure
    ([if not move_with_confirmation(...): return False]). *)
Definition step (controller : XArmController) (movement_func : Stmt bool unit)
    (description : string) (auto_confirm : bool) (speed_info : config)
    : Stmt bool unit :=
  ok <- call_function false
          (move_with_confirmation controller movement_func description
             auto_confirm (Some speed_info)) ;;
  if negb ok then return_ false else pass.

(** Lines 178-262: the seven steps. *)
Definition run_steps (controller : XArmController) (auto_confirm : bool)
    (speeds : dict config) : Stmt bool unit :=
  (* Step 1 *)
  cfg <- subscript speeds "robot_home" ;;
  joint_speed <- subscript cfg "joint_speed" ;;
  info <- subscript speeds "robot_home" ;;
  step controller (move_home_and_open_gripper controller joint_speed)
    "Step 1: Moving robot joints to home position + opening gripper"
    auto_confirm info ;;
  (* Step 2 *)
  cfg <- subscript speeds "move_to_local_1" ;;
  track_speed <- subscript cfg "track_speed" ;;
  info <- subscript speeds "move_to_local_1" ;;
  step controller
    (lambda (method controller (move_track_to_named_location "Local_1" track_speed)))
    "Step 2: Moving linear track to Local_1 position"
    auto_confirm info ;;
  (* Step 3 *)
  cfg <- subscript speeds "deck_high" ;;
  joint_speed <- subscript cfg "joint_speed" ;;
  info <- subscript speeds "deck_high" ;;
  step controller
    (lambda (method controller (move_to_named_location "deck_high" joint_speed)))
    "Step 3: Joint movement to deck_high position"
    auto_confirm info ;;
  (* Step 4 *)
  cfg <- subscript speeds "deck_low" ;;
  joint_speed <- subscript cfg "joint_speed" ;;
  info <- subscript speeds "deck_low" ;;
  step controller
    (lambda (method controller (move_to_named_location "deck_low" joint_speed)))
    "Step 4: Joint movement to deck_low position (approach plate)"
    auto_confirm info ;;
  (* Step 5 *)
  info <- subscript speeds "plate_pickup" ;;
  step controller
    (lambda (method controller close_gripper))
    "Step 5: Closing gripper to pick up well plate"
    auto_confirm info ;;
  (* Step 6 *)
  cfg <- subscript speeds "deck_high_return" ;;
  joint_speed <- subscript cfg "joint_speed" ;;
  info <- subscript speeds "deck_high_return" ;;
  step controller
    (lambda (method controller (move_to_named_location "deck_high" joint_speed)))
    "Step 6: Joint movement to deck_high position (with plate)"
    auto_confirm info ;;
  (* Step 7 *)
  cfg <- subscript speeds "final_home" ;;
  joint_speed <- subscript cfg "joint_speed" ;;
  info <- subscript speeds "final_home" ;;
  step controller
    (lambda (method controller (move_to_named_location "robot_home" joint_speed)))
    "Step 7: Joint movement back to robot home position (with plate)"
    auto_confirm info ;;
  print (Line (nl ++ "Plate Pickup Demo completed successfully!")) ;;
  print (Line "Well plate has been successfully picked up and moved to home position!") ;;
  print (Line (rule 60)) ;;
  return_ true.

(** Lines 160-176: the checks made before the first step. *)
Definition preflight (controller : XArmController) : Stmt bool unit :=
  let positions :=
    match dict_get "positions" (position_config controller) with
    | Some p => p
    | None => []
    end in
  for_each required_positions (fun pos_name =>
    if negb (existsb (String.eqb pos_name) positions) then
      print (PositionNotFound pos_name) ;;
      return_ false
    else pass) ;;
  enabled <- method controller (is_component_enabled "track") ;;
  if negb enabled then
    print (Line "Error: Linear track is not enabled") ;;
    return_ false
  else pass.

(** Lines 113-271. *)
Definition demo_plate_pickup (controller : XArmController)
    (auto_confirm : bool) (custom_speeds : option (dict config))
    : Stmt bool unit :=
  try_except
    (let speeds := effective_speeds custom_speeds in
     print_banner speeds ;;
     (if negb auto_confirm then
        wait_for_operator controller
          "Press Enter to start the demo (Ctrl+C to abort)..."
          "Demo aborted by user"
      else pass) ;;
     preflight controller ;;
     run_steps controller auto_confirm speeds)
    (fun e =>
       if is_KeyboardInterrupt e then
         Some (print (Line (nl ++ "Demo sequence interrupted by user")) ;;
               _ <- method controller stop_motion ;;
               return_ false)
       else if is_Exception e then
         Some (print (SequenceFailedWith e) ;;
               _ <- method controller stop_motion ;;
               return_ false)
       else None).

Definition set_controller_var {R} (c : XArmController) : Stmt R unit :=
  fun s => (Normal tt, {| trace := trace s; controller_var := Some c |}).

(** ['controller' in locals()], with the value when it is bound *)
Definition get_controller_var {R} : Stmt R (option XArmController) :=
  fun s => (Normal (controller_var s), s).

(** Lines 373-375 and 378-380. *)
Definition stop_if_controller {R} (notice : string) : Stmt R unit :=
  cv <- get_controller_var ;;
  match cv with
  | Some controller =>
      if truthy controller then
        print (Line notice) ;;
        _ <- method controller stop_motion ;;
        pass
      else pass
  | None => pass
  end.

(** Lines 349-369: what the [try] block does once [controller] is bound. *)
Definition initialize_and_run (controller : XArmController)
    (auto_confirm : bool) (custom_speeds : option (dict config))
    : Stmt unit unit :=
  ok <- method controller initialize ;;
  (if negb ok then
     print (Line "Failed to initialize controller") ;;
     return_ tt
   else pass) ;;
  print (Line "Controller initialized successfully") ;;
  enabled <- method controller (is_component_enabled "track") ;;
  (if negb enabled then
     print (Line "Warning: Linear track not enabled. Some movements may fail.")
   else pass) ;;
  gripper <- method controller has_gripper ;;
  (if negb gripper then
     print (Line "Warning: No gripper configured. Plate pickup will not work.")
   else pass) ;;
  success <- call_function false
               (demo_plate_pickup controller auto_confirm custom_speeds) ;;
  if success then
    print (Line (nl ++ "Demo completed successfully!"))
  else
    print (Line (nl ++ "Demo completed with some failures")).

(** Lines 336-369: the [try] block. *)
Definition connect_and_run (simulate auto_confirm : bool)
    (custom_speeds : option (dict config)) : Stmt unit unit :=
  controller <-
    (if simulate then construct None true true
     else construct (Some "real_hw") false true) ;;
  set_controller_var controller ;;
  initialize_and_run controller auto_confirm custom_speeds.

(** Lines 371-382: the [except] clauses. *)
Definition main_handlers (e : exn) : option (Stmt unit unit) :=
  if is_KeyboardInterrupt e then
    Some (print (Line (nl ++ "Demo interrupted by user")) ;;
          stop_if_controller "Stopping robot motion immediately...")
  else if is_Exception e then
    Some (print (DemoFailedWith e) ;;
          stop_if_controller "Stopping robot motion due to error..." ;;
          print (Traceback e))
  else None.

(** Lines 383-386: the [finally] clause. *)
Definition main_cleanup : Stmt unit unit :=
  cv <- get_controller_var ;;
  match cv with
  | Some controller =>
      _ <- method controller disconnect ;;
      print (Line "Controller disconnected")
  | None => pass
  end.

(** Lines 335-386. *)
Definition guarded_run (simulate auto_confirm : bool)
    (custom_speeds : option (dict config)) : Stmt unit unit :=
  try_finally
    (try_except (connect_and_run simulate auto_confirm custom_speeds)
       main_handlers)
    main_cleanup.

(** Lines 274-386, after [parser.parse_args()]. *)
Definition main (args : Namespace) : Stmt unit unit :=
  (if simulate args && real args then
     print (Line "Cannot specify both --simulate and --real") ;;
     sys_exit 1
   else pass) ;;
  (if negb (simulate args) && negb (real args) then
     print (Line "Must specify either --simulate or --real") ;;
     sys_exit 1
   else pass) ;;
  let simulate := simulate args in
  let auto_confirm := auto args in
  (if slow args && fast args then
     print (Line "Cannot specify both --slow and --fast") ;;
     sys_exit 1
   else pass) ;;
  let '(speed_multiplier, speed_description) := resolve_speed args in
  custom_speeds <-
    match build_custom_speeds speed_multiplier with
    | Some c => ret c
    | None => raise (PyException "TypeError")
    end ;;
  print (Line "Plate Pickup Demo") ;;
  print (Line (rule 50)) ;;
  print (ModeLine simulate) ;;
  print (ConfirmationLine auto_confirm) ;;
  print (SpeedLine speed_description) ;;
  print (Line (rule 50)) ;;
  guarded_run simulate auto_confirm custom_speeds.

(** Running the process: [main()] from a fresh state. *)
Definition run (args : Namespace) : completion unit unit * state :=
  main args initial_state.

End Script.

(** The exit status of the process for a completion of [main()]. *)
Definition exit_status (c : completion unit unit) : Z :=
  match c with
  | Normal _ | Returned _ => 0
  | Raised (SystemExit code) => code
  | Raised KeyboardInterrupt => 130
  | Raised (PyException _) => 1
  end.

(* ===================================================================== *)
(** * Observations on a run *)
(* ===================================================================== *)

(** The calls of a history, with their answers, in order. *)
Definition calls (t : list event) : list (call * reply) :=
  flat_map (fun ev => match ev with Called c r => [(c, r)] | _ => [] end) t.

(** How often a call of a given kind was made. *)
Definition count_calls (p : call -> bool) (t : list event) : nat :=
  List.length (filter (fun cr => p (fst cr)) (calls t)).

(** The motion primitives: arm, track and gripper. *)
Definition is_movement (c : call) : bool :=
  match c with
  | move_to_named_location _ _ | move_track_to_named_location _ _
  | open_gripper | close_gripper => true
  | _ => false
  end.

Definition is_stop_motion (c : call) : bool :=
  match c with stop_motion => true | _ => false end.

Definition is_disconnect (c : call) : bool :=
  match c with disconnect => true | _ => false end.

Definition is_input (c : call) : bool :=
  match c with input _ => true | _ => false end.

Definition is_constructor (c : call) : bool :=
  match c with XArmController_new _ _ _ => true | _ => false end.

(** The movement calls of a history, with their answers. *)
Definition movements (t : list event) : list (call * reply) :=
  filter (fun cr => is_movement (fst cr)) (calls t).

(** The state after further events. *)
Definition push (s : state) (ext : list event) : state :=
  {| trace := trace s ++ ext; controller_var := controller_var s |}.

(** The names the preflight reads from the controller (line 161). *)
Definition positions_of (controller : XArmController) : list string :=
  match dict_get "positions" (position_config controller) with
  | Some p => p
  | None => []
  end.

(** [name in positions] *)
Definition has_position (controller : XArmController) (name : string) : bool :=
  existsb (String.eqb name) (positions_of controller).

(** The table [main] hands to the demo, for a multiplier the comparison
    [m != 1.0] accepts: the loop of lines 321-326, run. *)
Definition scaled_speeds (m : float) : dict config :=
  Eval cbv in
    match fold_left (scale_step m) get_speed_config (Some []) with
    | Some t => t
    | None => []
    end.

(** An entry carries at most one of the two speeds. *)
Definition at_most_one_speed (cfg : config) : bool :=
  negb (dict_mem "joint_speed" cfg && dict_mem "track_speed" cfg).

(** An entry carries no speed at all. *)
Definition no_speed (cfg : config) : bool :=
  negb (dict_mem "joint_speed" cfg) && negb (dict_mem "track_speed" cfg).

(** The invariant of one entry of a speed table. *)
Definition entry_invariant (item : string * config) : bool :=
  at_most_one_speed (snd item) &&
  (if String.eqb (fst item) "plate_pickup" then no_speed (snd item) else true).

(** The usage errors of lines 287, 291 and 302. *)
Definition usage_errors : list string :=
  [ "Cannot specify both --simulate and --real";
    "Must specify either --simulate or --real";
    "Cannot specify both --slow and --fast" ].

(** The speed annotations [print_speed_info] writes. *)
Definition speed_info_lines (speed_info : option config) : list event :=
  match speed_info with
  | None => []
  | Some info =>
      if dict_truthy info then
        match dict_get "joint_speed" info with
        | Some v => [Printed (JointSpeedLine v)]
        | None => []
        end ++
        match dict_get "tcp_speed" info with
        | Some v => [Printed (TcpSpeedLine v)]
        | None => []
        end ++
        match dict_get "track_speed" info with
        | Some v => [Printed (TrackSpeedLine v)]
        | None => []
        end
      else []
  end.

(** What the runner prints before it asks for confirmation. *)
Definition runner_prelude (description : string) (speed_info : option config)
    : list event :=
  Printed (Line (nl ++ description)) :: speed_info_lines speed_info.

(** The prompt of the step runner (line 51). *)
Definition step_prompt : string := "Press Enter to continue (Ctrl+C to abort)...".

(** How every handler of the step runner and of the demo ends, once its
    notice is printed: [controller.stop_motion(); return False]. *)
Definition stop_and_fail (w : world) (s : state) : completion bool unit * state :=
  match respond w (trace s) stop_motion with
  | Returns b => (Returned false, push s [Called stop_motion (Returns b)])
  | Raises e => (Raised e, push s [Called stop_motion (Raises e)])
  end.

(** The kinds of call the properties count. *)
Definition is_open_gripper (c : call) : bool :=
  match c with open_gripper => true | _ => false end.

(** [only p m]: from any state, [m] appends events to the history, all of
    them accepted by [p], and leaves [main]'s variable alone. *)
Definition only {R A} (p : event -> bool) (m : Stmt R A) : Prop :=
  forall s, exists ext, snd (m s) = push s ext /\ forallb p ext = true.

(** Events that are not calls: output and pauses. *)
Definition is_printed (ev : event) : bool :=
  match ev with Called _ _ => false | _ => true end.

(** Not a call of kind [q]. *)
Definition not_call (q : call -> bool) (ev : event) : bool :=
  match ev with Called c _ => negb (q c) | _ => true end.

(** Neither a [disconnect()] nor a controller construction. *)
Definition keeps_connection : event -> bool :=
  not_call (fun c => is_disconnect c || is_constructor c).

(** A controller object came into being: the constructor returned. *)
Definition constructed (ev : event) : bool :=
  match ev with
  | Called (XArmController_new _ _ _) (Returns _) => true
  | _ => false
  end.

(** The flag checks of lines 286-303 all pass. *)
Definition flags_ok (args : Namespace) : bool :=
  negb (simulate args && real args) &&
  negb (negb (simulate args) && negb (real args)) &&
  negb (slow args && fast args).

(** What [main] prints before it enters the [try] statement. *)
Definition main_banner (args : Namespace) : list event :=
  [ Printed (Line "Plate Pickup Demo");
    Printed (Line (rule 50));
    Printed (ModeLine (simulate args));
    Printed (ConfirmationLine (auto args));
    Printed (SpeedLine (snd (resolve_speed args)));
    Printed (Line (rule 50)) ].


(** A call of [stop_motion()]. *)
Definition stop_called (ev : event) : bool :=
  match ev with Called stop_motion _ => true | _ => false end.

(** [stop_motion()] itself failed. *)
Definition stop_raised (ev : event) : bool :=
  match ev with Called stop_motion (Raises _) => true | _ => false end.




(** The statement lets its function go on: it completed, or returned [True]. *)
Definition goes_on {A} (c : completion bool A) : Prop :=
  match c with
  | Normal _ | Returned true => True
  | _ => False
  end.


(** The first required name the position table lacks (lines 168-171). *)
Definition first_missing (controller : XArmController) : option string :=
  find (fun name => negb (has_position controller name)) required_positions.

(** An exception at a prompt: Ctrl+C, or end of input. *)
Definition prompt_raised (ev : event) : bool :=
  match ev with Called (input _) (Raises _) => true | _ => false end.

(** The environment gives call [c] the same answer whatever came before. *)
Definition answers (w : world) (c : call) (r : reply) : Prop :=
  forall h, respond w h c = r.

(** The calls made on the controller (everything but [input]). *)
Definition robot_calls (t : list event) : list (call * reply) :=
  filter (fun cr => negb (is_input (fst cr))) (calls t).

(** The speed the plan reads for a step ([speeds[step][key]]). *)
Definition speed_at (speeds : dict config) (step_name key : string) : pyval :=
  match dict_get step_name speeds with
  | Some cfg =>
      match dict_get key cfg with
      | Some v => v
      | None => VStr ""
      end
  | None => VStr ""
  end.

(** What the controller sees of the plan: steps 1 to 4, then step 5 if
    step 4 succeeded, then steps 6 and 7 if step 5 succeeded. *)
Definition plan_calls (g b4 b5 : bool) (speeds : dict config)
    : list (call * reply) :=
  [ (move_to_named_location "robot_home" (speed_at speeds "robot_home" "joint_speed"),
     Returns true);
    (open_gripper, Returns g);
    (move_track_to_named_location "Local_1"
       (speed_at speeds "move_to_local_1" "track_speed"), Returns true);
    (move_to_named_location "deck_high" (speed_at speeds "deck_high" "joint_speed"),
     Returns true);
    (move_to_named_location "deck_low" (speed_at speeds "deck_low" "joint_speed"),
     Returns b4) ] ++
  (if b4 then
     (close_gripper, Returns b5) ::
     (if b5 then
        [ (move_to_named_location "deck_high"
             (speed_at speeds "deck_high_return" "joint_speed"), Returns true);
          (move_to_named_location "robot_home"
             (speed_at speeds "final_home" "joint_speed"), Returns true) ]
      else [])
   else []).

(** The table the demo works with for a command line. *)
Definition speeds_in_effect (args : Namespace) : dict config :=
  match build_custom_speeds (fst (resolve_speed args)) with
  | Some custom => effective_speeds custom
  | None => get_speed_config
  end.

(** The constructor call [main] makes for a command line. *)
Definition constructor_call (args : Namespace) : call :=
  if simulate args then XArmController_new None true true
  else XArmController_new (Some "real_hw") false true.

(** The summary line of lines 366-369. *)
Definition verdict (success : bool) : string :=
  if success then (nl ++ "Demo completed successfully!")%string
  else (nl ++ "Demo completed with some failures")%string.

(** How an entry [cfg] of the table in effect relates to the default entry
    [cfg0] of the same step under the multiplier [m]: the same keys in the
    same order; each speed is the default speed times [m]; the description
    is untouched; an entry without a speed is untouched altogether. *)
Definition scaled_entry (m : float) (cfg0 cfg : config) : Prop :=
  dict_keys cfg = dict_keys cfg0 /\
  (forall key v0,
     key = "joint_speed" \/ key = "track_speed" ->
     dict_get key cfg0 = Some v0 ->
     exists v f0,
       dict_get key cfg = Some v /\
       to_float v0 = Some f0 /\
       to_float v = Some (PrimFloat.mul f0 m)) /\
  dict_get "description" cfg = dict_get "description" cfg0 /\
  (no_speed cfg0 = true -> cfg = cfg0).

(* ===================================================================== *)
(** * Test doubles and command lines *)
(* ===================================================================== *)

(** A controller object whose table has every location of the plan. *)
Definition rig : XArmController :=
  {| position_config :=
       [("positions", ["robot_home"; "deck_high"; "deck_low"; "Local_1"])];
     truthy := true |}.

(** Every call returns [True]. *)
Definition succeeding_double : world :=
  {| respond := fun _ _ => Returns true; the_controller := rig |}.

(** The gripper reports [False], everything else [True]. *)
Definition weak_gripper_double : world :=
  {| respond := fun _ c =>
       match c with
       | open_gripper | close_gripper => Returns false
       | _ => Returns true
       end;
     the_controller := rig |}.

(** [open_gripper] reports [False], everything else [True]. *)
Definition open_fails_double : world :=
  {| respond := fun _ c =>
       match c with
       | open_gripper => Returns false
       | _ => Returns true
       end;
     the_controller := rig |}.

(** The constructor cannot reach the robot; everything else would work. *)
Definition unreachable_robot_double : world :=
  {| respond := fun _ c =>
       match c with
       | XArmController_new _ _ _ => Raises (PyException "ConnectionError")
       | _ => Returns true
       end;
     the_controller := rig |}.

Definition simulate_auto : Namespace :=
  {| simulate := true; real := false; auto := true;
     slow := false; fast := false; speed_multiplier := 1.0%float |}.

(** The operator cancels at the first per-step prompt and is otherwise
    cooperative; the controller does what it is told. *)
Definition cancelling_operator_double : world :=
  {| respond := fun _ c =>
       match c with
       | input prompt =>
           if String.eqb prompt step_prompt then Raises KeyboardInterrupt
           else Returns true
       | _ => Returns true
       end;
     the_controller := rig |}.


(** The table lacks deck_low. *)
Definition no_deck_low_rig : XArmController :=
  {| position_config := [("positions", ["robot_home"; "deck_high"; "Local_1"])];
     truthy := true |}.

Definition no_deck_low_double : world :=
  {| respond := fun _ _ => Returns true; the_controller := no_deck_low_rig |}.

(** The table lacks the track destination Local_1. *)
Definition no_local_1_rig : XArmController :=
  {| position_config := [("positions", ["robot_home"; "deck_high"; "deck_low"])];
     truthy := true |}.

Definition no_local_1_double : world :=
  {| respond := fun _ _ => Returns true; the_controller := no_local_1_rig |}.

(** The move to deck_low reports [False]; everything else works. *)
Definition deck_low_fails_double : world :=
  {| respond := fun _ c =>
       match c with
       | move_to_named_location name _ =>
           if String.eqb name "deck_low" then Returns false else Returns true
       | _ => Returns true
       end;
     the_controller := rig |}.

Definition simulate_auto_fast : Namespace :=
  {| simulate := true; real := false; auto := true;
     slow := false; fast := true; speed_multiplier := 1.0%float |}.

Definition both_modes : Namespace :=
  {| simulate := true; real := true; auto := false;
     slow := false; fast := false; speed_multiplier := 1.0%float |}.

(* ===================================================================== *)
(** * Further observations *)
(* ===================================================================== *)

(** [emits P m]: from any state, [m] only appends to the history, and what
    it appends satisfies [P]. *)
Definition emits {R A} (P : list event -> Prop) (m : Stmt R A) : Prop :=
  forall s, exists ext, trace (snd (m s)) = trace s ++ ext /\ P ext.

(** No call of kind [q] among the events. *)
Definition never (q : call -> bool) (ext : list event) : Prop :=
  forallb (not_call q) ext = true.

(** A call raised. *)
Definition raised (ev : event) : bool :=
  match ev with Called _ (Raises _) => true | _ => false end.

(** Neither a call that raised nor a stop. *)
Definition uneventful (ev : event) : bool :=
  negb (raised ev) && negb (stop_called ev).

(** An exception [e] is on its way up: nothing raised and nothing was
    stopped before it, and it came from the last call made, if it came from
    a call at all (a KeyError does not). *)
Definition fault_pending (e : exn) (ext : list event) : Prop :=
  exists pre fault,
    ext = pre ++ fault /\
    forallb uneventful pre = true /\
    (fault = [] \/
     exists c, fault = [Called c (Raises e)] /\ is_stop_motion c = false).

(** An exception was answered: after it came a notice and one
    [stop_motion()] that returned, and nothing else. *)
Definition stopped_after_fault (ext : list event) : Prop :=
  exists pre fault notice b,
    ext = pre ++ fault ++ [Printed notice; Called stop_motion (Returns b)] /\
    forallb uneventful pre = true /\
    (fault = [] \/
     exists c e, fault = [Called c (Raises e)] /\ is_stop_motion c = false).

(** What a movement action does: calls that return, until one raises. *)
Definition plain {R A} (m : Stmt R A) : Prop :=
  forall s, exists ext,
    snd (m s) = push s ext /\
    match fst (m s) with
    | Raised e => fault_pending e ext
    | _ => forallb uneventful ext = true
    end.

(** [fail_stop m]: while [m] lets its function go on, no call raised and the
    robot was not stopped; an exception leaves [m] unanswered, or [m]
    answers it with one [stop_motion()] and [return False] (provided
    [stop_motion()] itself returns). *)
Definition fail_stop {A} (m : Stmt bool A) : Prop :=
  forall s, exists ext,
    snd (m s) = push s ext /\
    (goes_on (fst (m s)) -> forallb uneventful ext = true) /\
    (existsb stop_raised ext = false ->
     match fst (m s) with
     | Normal _ | Returned true => True
     | Returned false =>
         forallb uneventful ext = true \/ stopped_after_fault ext
     | Raised e => fault_pending e ext
     end).

(** The statement never just completes: it returns or raises. *)
Definition always_leaves {R A} (m : Stmt R A) : Prop :=
  forall s, match fst (m s) with Normal _ => False | _ => True end.

(** A handler of the script answers an exception with a notice,
    [controller.stop_motion()] and [return False]. *)
Definition stops_and_fails (w : world) (controller : XArmController)
    (handler : exn -> option (Stmt bool unit)) : Prop :=
  forall e,
    handler e = None \/
    exists o,
      handler e =
      Some (print o ;; _ <- method w controller stop_motion ;; return_ false).

Definition is_SystemExit (e : exn) : bool :=
  match e with SystemExit _ => true | _ => false end.

(** The state in which the [try] block goes on once the constructor
    returned: the call is in the history and [controller] is bound. *)
Definition connected (w : world) (args : Namespace) (s : state) (bc : bool)
    : state :=
  {| trace := trace s ++ [Called (constructor_call args) (Returns bc)];
     controller_var := Some (the_controller w) |}.

(** The calls that set the arm, the track or the closing gripper in motion:
    the first call of every step's action. *)
Definition is_drive (c : call) : bool :=
  match c with
  | move_to_named_location _ _ | move_track_to_named_location _ _
  | close_gripper => true
  | _ => false
  end.

(** The operator answered the prompt of the step runner. *)
Definition acknowledged (ev : event) : bool :=
  match ev with
  | Called (input p) (Returns _) => String.eqb p step_prompt
  | _ => false
  end.

Definition acknowledgements (ext : list event) : nat :=
  List.length (filter acknowledged ext).

(** No more motions than acknowledgements. *)
Definition gated (ext : list event) : Prop :=
  count_calls is_drive ext <= acknowledgements ext /\
  count_calls is_open_gripper ext <= acknowledgements ext.

(** What one step's action may ask of the controller. *)
Definition one_action (ext : list event) : Prop :=
  count_calls is_drive ext <= 1 /\ count_calls is_open_gripper ext <= 1.

(** Neither the constructor nor [disconnect()]. *)
Definition in_between (cr : call * reply) : bool :=
  negb (is_disconnect (fst cr) || is_constructor (fst cr)).

(* ===================================================================== *)
(** * Further test doubles *)
(* ===================================================================== *)

(** The track move raises a controller fault; everything else works. *)
Definition faulty_track_double : world :=
  {| respond := fun _ c =>
       match c with
       | move_track_to_named_location _ _ => Raises (PyException "TrackError")
       | _ => Returns true
       end;
     the_controller := rig |}.

(** The move interrupted by Ctrl+C. *)
Definition interrupted_move_double : world :=
  {| respond := fun _ c =>
       match c with
       | move_to_named_location _ _ => Raises KeyboardInterrupt
       | _ => Returns true
       end;
     the_controller := rig |}.

(** [initialize()] reports [False]. *)
Definition dead_robot_double : world :=
  {| respond := fun _ c =>
       match c with
       | initialize => Returns false
       | _ => Returns true
       end;
     the_controller := rig |}.

(** [initialize()] raises a controller fault. *)
Definition failing_initialize_double : world :=
  {| respond := fun _ c =>
       match c with
       | initialize => Raises (PyException "InitError")
       | _ => Returns true
       end;
     the_controller := rig |}.


(** There is no gripper, and the operator is there to confirm. *)
Definition no_gripper_double : world :=
  {| respond := fun _ c =>
       match c with
       | has_gripper => Returns false
       | _ => Returns true
       end;
     the_controller := rig |}.

Definition simulate_manual : Namespace :=
  {| simulate := true; real := false; auto := false;
     slow := false; fast := false; speed_multiplier := 1.0%float |}.

Definition real_auto_reversed : Namespace :=
  {| simulate := false; real := true; auto := true;
     slow := false; fast := false; speed_multiplier := (-1)%float |}.

(** An override for step 1 that gives a description and no speed. *)
Definition speedless_home_override : dict config :=
  [("robot_home", [("description", VStr "Home, slowly")])].

(* ===================================================================== *)
(** * The speed table *)
(* ===================================================================== *)

Lemma resolve_speed_cases (args : Namespace) :
  let m := fst (resolve_speed args) in
  (slow args = true /\ m = 0.5%float) \/
  (slow args = false /\ fast args = true /\ m = 2.0%float) \/
  (slow args = false /\ fast args = false /\
   float_ne (speed_multiplier args) 1.0%float = true /\ m = speed_multiplier args) \/
  (slow args = false /\ fast args = false /\
   float_ne (speed_multiplier args) 1.0%float = false /\ m = 1.0%float).
Proof.
  unfold resolve_speed.
  destruct (slow args); [left; split; reflexivity|].
  destruct (fast args); [right; left; repeat split; reflexivity|].
  destruct (float_ne (speed_multiplier args) 1.0%float) eqn:E; cbn [fst].
  - right; right; left. repeat split; reflexivity.
  - right; right; right. repeat split; reflexivity.
Qed.

Lemma build_custom_speeds_scaled (m : float) :
  float_ne m 1.0%float = true ->
  build_custom_speeds m = Some (Some (scaled_speeds m)).
Proof. intros E. unfold build_custom_speeds. rewrite E. reflexivity. Qed.

Lemma build_custom_speeds_default (m : float) :
  float_ne m 1.0%float = false ->
  build_custom_speeds m = Some None.
Proof. intros E. unfold build_custom_speeds. rewrite E. reflexivity. Qed.

(** The multiplier loop never fails on the default table. *)
Lemma build_custom_speeds_total (m : float) :
  exists custom, build_custom_speeds m = Some custom.
Proof.
  destruct (float_ne m 1.0%float) eqn:E.
  - eexists. apply build_custom_speeds_scaled, E.
  - eexists. apply build_custom_speeds_default, E.
Qed.

Lemma build_custom_speeds_cases (m : float) (custom : option (dict config)) :
  build_custom_speeds m = Some custom ->
  custom = None \/ custom = Some (scaled_speeds m).
Proof.
  intros H. destruct (float_ne m 1.0%float) eqn:E.
  - rewrite (build_custom_speeds_scaled m E) in H. right. congruence.
  - rewrite (build_custom_speeds_default m E) in H. left. congruence.
Qed.

Lemma effective_speeds_scaled (m : float) :
  effective_speeds (Some (scaled_speeds m)) = scaled_speeds m.
Proof. reflexivity. Qed.

(** What the demo works with, for every command line: the defaults when the
    resolved multiplier is the literal 1.0, the rescaled table otherwise. *)
Lemma effective_speeds_of_args (args : Namespace) :
  let m := fst (resolve_speed args) in
  exists custom,
    build_custom_speeds m = Some custom /\
    ((m = 1.0%float /\ custom = None /\
      effective_speeds custom = get_speed_config) \/
     (float_ne m 1.0%float = true /\ custom = Some (scaled_speeds m) /\
      effective_speeds custom = scaled_speeds m)).
Proof.
  intros m. subst m.
  destruct (resolve_speed_cases args) as [[_ E]|[(_ & _ & E)|[(_ & _ & N & E)|(_ & _ & _ & E)]]];
    cbv zeta in E; rewrite E.
  - exists (Some (scaled_speeds 0.5%float)). split; [reflexivity|].
    right. repeat split; reflexivity.
  - exists (Some (scaled_speeds 2.0%float)). split; [reflexivity|].
    right. repeat split; reflexivity.
  - exists (Some (scaled_speeds (speed_multiplier args))).
    split; [apply build_custom_speeds_scaled, N|].
    right. repeat split; try reflexivity. exact N.
  - exists None. split; [reflexivity|]. left. repeat split; reflexivity.
Qed.

Lemma default_entries_invariant :
  forallb entry_invariant get_speed_config = true.
Proof. reflexivity. Qed.

Lemma scaled_entries_invariant (m : float) :
  forallb entry_invariant (scaled_speeds m) = true.
Proof. reflexivity. Qed.

(** C9: in the default table and in the table in effect for any command
    line (after the multiplier override, if any), every step's record holds
    at most one of joint_speed and track_speed, and the gripper-close step
    plate_pickup is present and holds neither. *)
Theorem speed_config_at_most_one_speed (args : Namespace) :
  (forall step cfg, In (step, cfg) get_speed_config ->
     at_most_one_speed cfg = true /\
     (step = "plate_pickup" -> no_speed cfg = true)) /\
  exists custom,
    build_custom_speeds (fst (resolve_speed args)) = Some custom /\
    (exists cfg, dict_get "plate_pickup" (effective_speeds custom) = Some cfg) /\
    forall step cfg, In (step, cfg) (effective_speeds custom) ->
      at_most_one_speed cfg = true /\
      (step = "plate_pickup" -> no_speed cfg = true).
Proof.
  assert (entry : forall t, forallb entry_invariant t = true ->
            forall step cfg, In (step, cfg) t ->
              at_most_one_speed cfg = true /\
              (step = "plate_pickup" -> no_speed cfg = true)).
  { intros t Ht step cfg Hin.
    rewrite forallb_forall in Ht. specialize (Ht _ Hin).
    unfold entry_invariant in Ht. cbn [fst snd] in Ht.
    apply andb_true_iff in Ht. destruct Ht as [H1 H2]. split; [exact H1|].
    intros ->. exact H2. }
  split; [apply entry, default_entries_invariant|].
  destruct (effective_speeds_of_args args) as (custom & Hb & Hc).
  exists custom. split; [exact Hb|].
  destruct Hc as [(_ & _ & ->)|(_ & _ & ->)].
  - split; [eexists; reflexivity|]. apply entry, default_entries_invariant.
  - split; [eexists; reflexivity|]. apply entry, scaled_entries_invariant.
Qed.

(* ===================================================================== *)
(** * Running statements *)
(* ===================================================================== *)

Lemma push_nil (s : state) : push s [] = s.
Proof. destruct s. unfold push. cbn. rewrite app_nil_r. reflexivity. Qed.

Lemma push_push (s : state) (a b : list event) :
  push (push s a) b = push s (a ++ b).
Proof. unfold push. cbn. rewrite app_assoc. reflexivity. Qed.

Lemma trace_push (s : state) (a : list event) : trace (push s a) = trace s ++ a.
Proof. reflexivity. Qed.

Lemma extern_eq (w : world) {R} (c : call) (s : state) :
  @extern w R c s =
  (match respond w (trace s) c with
   | Returns b => Normal b
   | Raises e => Raised e
   end, push s [Called c (respond w (trace s) c)]).
Proof. unfold extern, push. destruct (respond w (trace s) c); reflexivity. Qed.

Lemma extern_returns (w : world) {R} (c : call) (s : state) (b : bool) :
  respond w (trace s) c = Returns b ->
  @extern w R c s = (Normal b, push s [Called c (Returns b)]).
Proof. intros H. rewrite extern_eq, H. reflexivity. Qed.

Lemma extern_raises (w : world) {R} (c : call) (s : state) (e : exn) :
  respond w (trace s) c = Raises e ->
  @extern w R c s = (Raised e, push s [Called c (Raises e)]).
Proof. intros H. rewrite extern_eq, H. reflexivity. Qed.

Lemma emit_eq {R} (ev : event) (s : state) :
  @emit R ev s = (Normal tt, push s [ev]).
Proof. reflexivity. Qed.

Lemma calls_app (a b : list event) : calls (a ++ b) = calls a ++ calls b.
Proof. unfold calls. apply flat_map_app. Qed.

Lemma count_calls_app (p : call -> bool) (a b : list event) :
  count_calls p (a ++ b) = count_calls p a + count_calls p b.
Proof.
  unfold count_calls. rewrite calls_app, filter_app, length_app. reflexivity.
Qed.

(* ===================================================================== *)
(** * Command-line conflicts *)
(* ===================================================================== *)

(** C8: with both --simulate and --real, or both --slow and --fast, the
    program prints one usage error and leaves through sys.exit(1): the exit
    status is non-zero, and nothing else happened before, in particular no
    controller was constructed (no call left the script at all). *)
Theorem conflicting_flags_exit_before_controller (w : world) (args : Namespace) :
  simulate args && real args = true \/ slow args && fast args = true ->
  exists msg,
    In msg usage_errors /\
    run w args = (Raised (SystemExit 1),
                  {| trace := [Printed (Line msg)]; controller_var := None |}) /\
    exit_status (fst (run w args)) <> 0%Z /\
    calls (trace (snd (run w args))) = [] /\
    count_calls is_constructor (trace (snd (run w args))) = 0.
Proof.
  destruct args as [sim re au sl fa sm]. cbn [simulate real slow fast].
  intros [H|H]; apply andb_true_iff in H; destruct H as [-> ->].
  - exists "Cannot specify both --simulate and --real".
    split; [cbn; auto|].
    repeat split; try reflexivity. cbn. discriminate.
  - destruct sim, re.
    + exists "Cannot specify both --simulate and --real".
      split; [cbn; auto|].
      repeat split; try reflexivity. cbn. discriminate.
    + exists "Cannot specify both --slow and --fast".
      split; [cbn; auto|].
      repeat split; try reflexivity. cbn. discriminate.
    + exists "Cannot specify both --slow and --fast".
      split; [cbn; auto|].
      repeat split; try reflexivity. cbn. discriminate.
    + exists "Must specify either --simulate or --real".
      split; [cbn; auto|].
      repeat split; try reflexivity. cbn. discriminate.
Qed.

(* ===================================================================== *)
(** * The step runner *)
(* ===================================================================== *)

Ltac same_state :=
  unfold push; cbn [trace controller_var];
  repeat rewrite <- app_assoc; cbn [app];
  rewrite ?app_nil_r; reflexivity.

Lemma print_speed_info_eq {R} (speed_info : option config) (s : state) :
  @print_speed_info R speed_info s = (Normal tt, push s (speed_info_lines speed_info)).
Proof.
  destruct speed_info as [info|]; cbn [print_speed_info speed_info_lines];
    [|unfold pass, ret; rewrite push_nil; reflexivity].
  destruct (dict_truthy info);
    [|unfold pass, ret; rewrite push_nil; reflexivity].
  unfold dict_mem, subscript, bind, print, emit, pass, ret.
  destruct (dict_get "joint_speed" info), (dict_get "tcp_speed" info),
    (dict_get "track_speed" info); cbn; f_equal; destruct s; same_state.
Qed.

Lemma notice_stop_return_eq (w : world) (controller : XArmController)
    (o : output) (s : state) :
  (print o ;; _ <- method w controller stop_motion ;; return_ false) s =
  stop_and_fail w (push s [Printed o]).
Proof.
  unfold bind, print, method, return_, stop_and_fail. rewrite emit_eq, extern_eq.
  destruct (respond w (trace (push s [Printed o])) stop_motion); reflexivity.
Qed.

Lemma wait_for_operator_eq (w : world) (controller : XArmController)
    (prompt notice : string) (s : state) :
  wait_for_operator w controller prompt notice s =
  match respond w (trace s) (input prompt) with
  | Returns b => (Normal tt, push s [Called (input prompt) (Returns b)])
  | Raises e =>
      if is_KeyboardInterrupt e then
        stop_and_fail w (push s [Called (input prompt) (Raises e);
                                 Printed (Line (nl ++ notice))])
      else (Raised e, push s [Called (input prompt) (Raises e)])
  end.
Proof.
  unfold wait_for_operator, try_except.
  unfold bind at 1. rewrite extern_eq.
  destruct (respond w (trace s) (input prompt)) as [b|e]; [reflexivity|].
  destruct (is_KeyboardInterrupt e); [|reflexivity].
  rewrite notice_stop_return_eq.
  rewrite push_push. reflexivity.
Qed.

Lemma execute_movement_eq (w : world) (controller : XArmController)
    (movement_func : Stmt bool unit) (s : state) :
  execute_movement w controller movement_func s =
  match @call_function bool bool unit false movement_func s with
  | (Normal true, s1) =>
      (Returned true,
       push s1 [Printed (Line "Movement completed successfully"); Slept 1])
  | (Normal false, s1) =>
      (Returned false, push s1 [Printed (Line "Movement failed")])
  | (Returned r, s1) => (Returned r, s1)
  | (Raised e, s1) =>
      if is_KeyboardInterrupt e then
        stop_and_fail w
          (push s1 [Printed (Line (nl ++ "Movement interrupted - stopping robot immediately!"))])
      else (Raised e, s1)
  end.
Proof.
  unfold execute_movement, try_except.
  unfold bind at 1.
  destruct (call_function false movement_func s) as [[[|]|r|e] s1].
  - cbn. f_equal. same_state.
  - cbn. f_equal.
  - reflexivity.
  - destruct (is_KeyboardInterrupt e); [|reflexivity].
    apply notice_stop_return_eq.
Qed.

Lemma move_with_confirmation_eq (w : world) (controller : XArmController)
    (movement_func : Stmt bool unit) (description : string)
    (auto_confirm : bool) (speed_info : option config) (s : state) :
  move_with_confirmation w controller movement_func description auto_confirm
    speed_info s =
  let s0 := push s (runner_prelude description speed_info) in
  if auto_confirm then
    execute_movement w controller movement_func
      (push s0 [Printed (Line "Executing movement...")])
  else
    match wait_for_operator w controller step_prompt
            "Movement aborted by user" s0 with
    | (Normal _, s1) =>
        execute_movement w controller movement_func
          (push s1 [Printed (Line "Executing movement...")])
    | (Returned r, s1) => (Returned r, s1)
    | (Raised e, s1) => (Raised e, s1)
    end.
Proof.
  unfold move_with_confirmation.
  unfold bind at 1. unfold print at 1. rewrite emit_eq.
  unfold bind at 1. rewrite print_speed_info_eq, push_push.
  cbv zeta. change ([Printed (Line (nl ++ description))] ++ speed_info_lines speed_info)
    with (runner_prelude description speed_info).
  destruct auto_confirm; cbn [negb].
  - reflexivity.
  - unfold bind at 1. fold step_prompt.
    destruct (wait_for_operator w controller step_prompt "Movement aborted by user"
                (push s (runner_prelude description speed_info))) as [[[]|r|e] s1];
      reflexivity.
Qed.

(** C7: whenever the runner gets to run the action (auto-confirm, or the
    operator pressed Enter) and the action returns without raising, the
    runner reports what the action returned.  On [False] it only prints
    "Movement failed" and does not call stop_motion; on [True] it prints the
    confirmation, sleeps one second and reports success. *)
Theorem runner_reports_action_result
    (w : world) (controller : XArmController) (movement_func : Stmt bool unit)
    (description : string) (auto_confirm : bool) (speed_info : option config)
    (s s1 : state) (r b : bool) :
  let asked :=
    if auto_confirm then [] else [Called (input step_prompt) (Returns r)] in
  let result :=
    @call_function bool bool unit false
      (move_with_confirmation w controller movement_func description
         auto_confirm speed_info) s in
  (auto_confirm = false ->
   respond w (trace s ++ runner_prelude description speed_info)
     (input step_prompt) = Returns r) ->
  @call_function bool bool unit false movement_func
    (push s (runner_prelude description speed_info ++ asked ++
             [Printed (Line "Executing movement...")])) = (Normal b, s1) ->
  result =
    (Normal b,
     push s1 (if b
              then [Printed (Line "Movement completed successfully"); Slept 1]
              else [Printed (Line "Movement failed")])) /\
  count_calls is_stop_motion (trace (snd result)) =
  count_calls is_stop_motion (trace s1).
Proof.
  intros asked result Hask Hrun. subst result asked.
  assert (E : @call_function bool bool unit false
            (move_with_confirmation w controller movement_func description
               auto_confirm speed_info) s =
          (Normal b,
           push s1 (if b
                    then [Printed (Line "Movement completed successfully"); Slept 1]
                    else [Printed (Line "Movement failed")]))).
  { unfold call_function at 1. rewrite move_with_confirmation_eq. cbv zeta.
    destruct auto_confirm.
    - cbn [app] in Hrun. rewrite <- push_push in Hrun.
      rewrite execute_movement_eq, Hrun. destruct b; reflexivity.
    - rewrite wait_for_operator_eq. rewrite trace_push, (Hask eq_refl).
      rewrite !push_push. rewrite execute_movement_eq.
      rewrite Hrun.
      destruct b; reflexivity. }
  rewrite E. split; [reflexivity|].
  cbn [snd]. rewrite trace_push, count_calls_app.
  destruct b; cbn; lia.
Qed.

Lemma runner_reports_action_result_witness :
  fst (@call_function bool bool unit false
         (move_with_confirmation weak_gripper_double rig
            (lambda (method weak_gripper_double rig close_gripper))
            "Step 5: Closing gripper to pick up well plate" false None)
         initial_state) = Normal false.
Proof.
  rewrite (proj1 (runner_reports_action_result weak_gripper_double rig
            (lambda (method weak_gripper_double rig close_gripper))
            "Step 5: Closing gripper to pick up well plate" false None
            initial_state _ true false
            (fun _ => eq_refl) eq_refl)).
  reflexivity.
Defined.

(* ===================================================================== *)
(** * Step 1: home and open the gripper *)
(* ===================================================================== *)

Lemma step_eq (w : world) (controller : XArmController)
    (movement_func : Stmt bool unit) (description : string)
    (auto_confirm : bool) (speed_info : config) (s : state) :
  step w controller movement_func description auto_confirm speed_info s =
  match move_with_confirmation w controller movement_func description
          auto_confirm (Some speed_info) s with
  | (Normal _, s1) => (Returned false, s1)
  | (Returned true, s1) => (Normal tt, s1)
  | (Returned false, s1) => (Returned false, s1)
  | (Raised e, s1) => (Raised e, s1)
  end.
Proof.
  unfold step, bind, call_function.
  destruct (move_with_confirmation w controller movement_func description
              auto_confirm (Some speed_info) s) as [[[]|[|]|e] s1]; reflexivity.
Qed.

Lemma move_home_and_open_gripper_eq (w : world) (controller : XArmController)
    (joint_speed : pyval) (s : state) :
  let move := move_to_named_location "robot_home" joint_speed in
  let moved := respond w (trace s) move in
  @call_function bool bool unit false
    (move_home_and_open_gripper w controller joint_speed) s =
  match moved with
  | Returns true =>
      let opened := respond w (trace s ++ [Called move moved]) open_gripper in
      (match opened with Returns _ => Normal true | Raises e => Raised e end,
       push s [Called move moved; Called open_gripper opened])
  | Returns false => (Normal false, push s [Called move moved])
  | Raises e => (Raised e, push s [Called move moved])
  end.
Proof.
  cbv zeta.
  unfold call_function, move_home_and_open_gripper, method.
  unfold bind at 1. rewrite extern_eq.
  destruct (respond w (trace s) (move_to_named_location "robot_home" joint_speed))
    as [[|]|e]; try reflexivity.
  unfold bind at 1. unfold bind at 1. rewrite extern_eq. rewrite trace_push.
  destruct (respond w
              (trace s ++ [Called (move_to_named_location "robot_home" joint_speed)
                             (Returns true)]) open_gripper);
    cbn; f_equal; same_state.
Qed.

(** C10: in step 1's action the gripper is opened exactly when the move to
    robot_home returned [True], and what the action returns is what the move
    returned, whatever open_gripper answers.  So when the move succeeds and
    open_gripper reports [False], the runner still reports success for
    step 1 and the sequence goes on to step 2. *)
Theorem home_step_reports_the_move_result
    (w : world) (controller : XArmController) (joint_speed : pyval) (s : state) :
  let move := move_to_named_location "robot_home" joint_speed in
  let moved := respond w (trace s) move in
  let result :=
    @call_function bool bool unit false
      (move_home_and_open_gripper w controller joint_speed) s in
  (count_calls is_open_gripper (trace (snd result)) =
   count_calls is_open_gripper (trace s) +
   match moved with Returns true => 1 | _ => 0 end) /\
  (forall b opened,
     moved = Returns b ->
     respond w (trace s ++ [Called move moved]) open_gripper = Returns opened ->
     fst result = Normal b) /\
  (forall description speed_info opened,
     respond w (trace s ++ runner_prelude description (Some speed_info) ++
                [Printed (Line "Executing movement...")]) move = Returns true ->
     respond w (trace s ++ runner_prelude description (Some speed_info) ++
                [Printed (Line "Executing movement...");
                 Called move (Returns true)]) open_gripper = Returns opened ->
     fst (@call_function bool bool unit false
            (move_with_confirmation w controller
               (move_home_and_open_gripper w controller joint_speed)
               description true (Some speed_info)) s) = Normal true /\
     fst (step w controller
            (move_home_and_open_gripper w controller joint_speed)
            description true speed_info s) = Normal tt).
Proof.
  cbv zeta. split; [|split].
  - rewrite move_home_and_open_gripper_eq. cbv zeta.
    destruct (respond w (trace s) (move_to_named_location "robot_home" joint_speed))
      as [[|]|e]; cbn [snd]; rewrite trace_push, count_calls_app; cbn; lia.
  - intros b opened Hm Ho.
    rewrite move_home_and_open_gripper_eq. cbv zeta.
    rewrite Hm in *. destruct b; [|reflexivity].
    rewrite Ho. reflexivity.
  - intros description speed_info opened Hm Ho.
    assert (E : move_with_confirmation w controller
                  (move_home_and_open_gripper w controller joint_speed)
                  description true (Some speed_info) s =
                (Returned true,
                 push s (runner_prelude description (Some speed_info) ++
                         [Printed (Line "Executing movement...");
                          Called (move_to_named_location "robot_home" joint_speed)
                            (Returns true);
                          Called open_gripper (Returns opened);
                          Printed (Line "Movement completed successfully");
                          Slept 1]))).
    { rewrite move_with_confirmation_eq. cbv zeta.
      rewrite execute_movement_eq, move_home_and_open_gripper_eq. cbv zeta.
      rewrite ?push_push, ?trace_push, <- ?app_assoc. cbn [app].
      rewrite Hm. rewrite <- ?app_assoc. cbn [app]. rewrite Ho.
      rewrite ?push_push. f_equal. same_state. }
    split.
    + unfold call_function. rewrite E. reflexivity.
    + rewrite step_eq, E. reflexivity.
Qed.

Lemma home_step_reports_the_move_result_witness :
  fst (step open_fails_double rig
         (move_home_and_open_gripper open_fails_double rig (VInt 20))
         "Step 1: Moving robot joints to home position + opening gripper"
         true [("joint_speed", VInt 20)] initial_state) = Normal tt /\
  calls (trace (snd (step open_fails_double rig
         (move_home_and_open_gripper open_fails_double rig (VInt 20))
         "Step 1: Moving robot joints to home position + opening gripper"
         true [("joint_speed", VInt 20)] initial_state))) =
  [(move_to_named_location "robot_home" (VInt 20), Returns true);
   (open_gripper, Returns false)].
Proof.
  split.
  - exact (proj2 (proj2 (proj2 (home_step_reports_the_move_result
             open_fails_double rig (VInt 20) initial_state))
             "Step 1: Moving robot joints to home position + opening gripper"
             [("joint_speed", VInt 20)] false eq_refl eq_refl)).
  - reflexivity.
Defined.

(* ===================================================================== *)
(** * Statements that only produce events of one kind *)
(* ===================================================================== *)

Section Only.

Context {R : Type} (p : event -> bool).

Lemma only_ret {A} (a : A) : only p (@ret R A a).
Proof. intros s. exists []. rewrite push_nil. split; reflexivity. Qed.

Lemma only_return {A} (r : R) : only p (@return_ R A r).
Proof. intros s. exists []. rewrite push_nil. split; reflexivity. Qed.

Lemma only_raise {A} (e : exn) : only p (@raise R A e).
Proof. intros s. exists []. rewrite push_nil. split; reflexivity. Qed.

Lemma only_emit (ev : event) : p ev = true -> only p (@emit R ev).
Proof. intros H s. exists [ev]. cbn. rewrite H. split; reflexivity. Qed.

Lemma only_extern (w : world) (c : call) :
  (forall r, p (Called c r) = true) -> only p (@extern w R c).
Proof.
  intros H s. rewrite extern_eq. eexists. split; [reflexivity|].
  cbn. rewrite H. reflexivity.
Qed.

Lemma only_bind {A B} (m : Stmt R A) (k : A -> Stmt R B) :
  only p m -> (forall a, only p (k a)) -> only p (bind m k).
Proof.
  intros Hm Hk s. unfold bind.
  destruct (Hm s) as (e1 & E1 & P1).
  destruct (m s) as [[a|r|e] s1]; cbn [snd] in E1; subst s1.
  - destruct (Hk a (push s e1)) as (e2 & E2 & P2).
    exists (e1 ++ e2). rewrite E2, push_push, forallb_app, P1, P2.
    split; reflexivity.
  - exists e1. split; [reflexivity|exact P1].
  - exists e1. split; [reflexivity|exact P1].
Qed.

Lemma only_try_except {A} (body : Stmt R A) (handler : exn -> option (Stmt R A)) :
  only p body ->
  (forall e h, handler e = Some h -> only p h) ->
  only p (try_except body handler).
Proof.
  intros Hb Hh s. unfold try_except.
  destruct (Hb s) as (e1 & E1 & P1).
  destruct (body s) as [[a|r|e] s1]; cbn [snd] in E1; subst s1;
    try (exists e1; split; [reflexivity|exact P1]).
  destruct (handler e) as [h|] eqn:Eh.
  - destruct (Hh e h Eh (push s e1)) as (e2 & E2 & P2).
    exists (e1 ++ e2). rewrite E2, push_push, forallb_app, P1, P2.
    split; reflexivity.
  - exists e1. split; [reflexivity|exact P1].
Qed.

Lemma only_try_finally {A} (body : Stmt R A) (cleanup : Stmt R unit) :
  only p body -> only p cleanup -> only p (try_finally body cleanup).
Proof.
  intros Hb Hc s. unfold try_finally.
  destruct (Hb s) as (e1 & E1 & P1).
  destruct (body s) as [c s1]; cbn [snd] in E1; subst s1.
  destruct (Hc (push s e1)) as (e2 & E2 & P2).
  exists (e1 ++ e2). rewrite <- push_push, <- E2, forallb_app, P1, P2.
  split; [|reflexivity].
  destruct (cleanup (push s e1)) as [[[]|r|e] s2]; reflexivity.
Qed.

Lemma only_call_function {R' A} (dflt : R') (body : Stmt R' A) :
  only p body -> only p (@call_function R R' A dflt body).
Proof.
  intros Hb s. unfold call_function.
  destruct (Hb s) as (e1 & E1 & P1). exists e1. split; [|exact P1].
  destruct (body s) as [[a|r|e] s1]; exact E1.
Qed.

Lemma only_for_each {X} (xs : list X) (body : X -> Stmt R unit) :
  (forall x, only p (body x)) -> only p (for_each xs body).
Proof.
  intros Hb. induction xs as [|x xs IH]; cbn [for_each].
  - apply only_ret.
  - apply only_bind; [apply Hb|intros _; exact IH].
Qed.

Lemma only_subscript {V} (d : dict V) (k : string) : only p (@subscript R V d k).
Proof.
  unfold subscript. destruct (dict_get k d); [apply only_ret|apply only_raise].
Qed.

Lemma only_get_controller_var : only p (@get_controller_var R).
Proof. intros s. exists []. rewrite push_nil. split; reflexivity. Qed.

End Only.

(** One step of a syntax-directed proof of [only p m]. *)
Ltac only_step :=
  lazymatch goal with
  | |- only _ (bind _ _) => apply only_bind; [|intro]
  | |- only _ (ret _) => apply only_ret
  | |- only _ pass => apply only_ret
  | |- only _ (return_ _) => apply only_return
  | |- only _ (raise _) => apply only_raise
  | |- only _ (sys_exit _) => apply only_raise
  | |- only _ (print _) => apply only_emit; reflexivity
  | |- only _ (sleep _) => apply only_emit; reflexivity
  | |- only _ (emit _) => apply only_emit; reflexivity
  | |- only _ (method _ _ _) => apply only_extern; intro; reflexivity
  | |- only _ (extern _ _) => apply only_extern; intro; reflexivity
  | |- only _ (subscript _ _) => apply only_subscript
  | |- only _ (get_controller_var) => apply only_get_controller_var
  | |- only _ (call_function _ _) => apply only_call_function
  | |- only _ (for_each _ _) => apply only_for_each; intro
  | |- only _ (try_finally _ _) => apply only_try_finally
  | |- only _ (if ?b then _ else _) => destruct b
  | |- only _ (match ?x with _ => _ end) => destruct x
  | |- only _ (let '(_, _) := ?x in _) => destruct x
  end.

Lemma only_calls_nil (ext : list event) :
  forallb is_printed ext = true -> calls ext = [].
Proof.
  induction ext as [|[c r|o|n] ext IH]; cbn; intros H;
    try discriminate; auto.
Qed.

Lemma not_call_count (q : call -> bool) (ext : list event) :
  forallb (not_call q) ext = true -> count_calls q ext = 0.
Proof.
  unfold count_calls.
  induction ext as [|[c r|o|n] ext IH]; cbn; intros H; auto.
  apply andb_true_iff in H. destruct H as [H1 H2].
  apply negb_true_iff in H1. rewrite H1. auto.
Qed.

Ltac only_handler :=
  let e := fresh "e" in
  let h := fresh "h" in
  let E := fresh "E" in
  intros e h E;
  repeat match type of E with
         | (if ?b then _ else _) = Some _ => destruct b
         end;
  inversion E; subst; clear E.

Ltac only_auto :=
  repeat first
    [ only_step
    | lazymatch goal with
      | |- only _ (try_except _ _) => apply only_try_except; [|only_handler]
      end ].

Lemma only_demo_plate_pickup_keeps_connection (w : world)
    (controller : XArmController) (auto_confirm : bool)
    (custom_speeds : option (dict config)) :
  only keeps_connection
    (demo_plate_pickup w controller auto_confirm custom_speeds).
Proof.
  unfold demo_plate_pickup, print_banner, wait_for_operator, preflight,
    run_steps, step, move_with_confirmation, print_speed_info,
    wait_for_operator, execute_movement, move_home_and_open_gripper, lambda.
  only_auto.
Qed.

(* ===================================================================== *)
(** * Cleanup: disconnecting the controller *)
(* ===================================================================== *)

Lemma keeps_connection_no_disconnect (ext : list event) :
  forallb keeps_connection ext = true ->
  count_calls is_disconnect ext = 0 /\ existsb constructed ext = false.
Proof.
  induction ext as [|ev ext IH]; cbn [forallb existsb]; intros H.
  - split; reflexivity.
  - apply andb_true_iff in H. destruct H as [H1 H2].
    destruct (IH H2) as [IH1 IH2].
    change (ev :: ext) with ([ev] ++ ext). rewrite count_calls_app, IH1, IH2.
    destruct ev as [c r|o|n]; try (split; reflexivity).
    destruct c; cbn in H1; try discriminate; split; reflexivity.
Qed.

Lemma only_protected_part (w : world) (controller : XArmController)
    (auto_confirm : bool) (custom_speeds : option (dict config)) :
  only keeps_connection
    (try_except (initialize_and_run w controller auto_confirm custom_speeds)
       (main_handlers w)).
Proof.
  apply only_try_except.
  - unfold initialize_and_run. only_auto.
    apply only_demo_plate_pickup_keeps_connection.
  - unfold main_handlers, stop_if_controller. only_handler; only_auto.
Qed.

Lemma try_except_after {R A B} (m : Stmt R A) (k : A -> Stmt R B)
    (handler : exn -> option (Stmt R B)) (s s1 : state) (a : A) :
  m s = (Normal a, s1) ->
  try_except (bind m k) handler s = try_except (k a) handler s1.
Proof. intros H. unfold try_except, bind. rewrite H. reflexivity. Qed.

(** The [try] statement of [main], from a state where [controller] is not
    yet bound: [disconnect()] is called once if the constructor returned and
    not at all if it raised. *)
Lemma guarded_run_disconnects (w : world) (simulate auto_confirm : bool)
    (custom_speeds : option (dict config)) (s : state) :
  controller_var s = None ->
  exists ext,
    trace (snd (guarded_run w simulate auto_confirm custom_speeds s)) =
      trace s ++ ext /\
    count_calls is_disconnect ext = (if existsb constructed ext then 1 else 0).
Proof.
  intros Hvar.
  unfold guarded_run, try_finally.
  set (c0 := if simulate then XArmController_new None true true
             else XArmController_new (Some "real_hw") false true).
  assert (Ector : forall R,
            (if simulate then @construct w R None true true
             else @construct w R (Some "real_hw") false true) =
            (_ <- extern w c0 ;; ret (the_controller w))).
  { intros R. subst c0. destruct simulate; reflexivity. }
  destruct (respond w (trace s) c0) as [b|e] eqn:Hc0.
  - (* the constructor returned *)
    unfold connect_and_run.
    rewrite (try_except_after _ _ _ _ (push s [Called c0 (Returns b)])
               (the_controller w)).
    2:{ rewrite Ector. unfold bind. rewrite (extern_returns w c0 s b Hc0).
        reflexivity. }
    unfold bind at 1. unfold set_controller_var at 1. cbn [trace push].
    destruct (only_protected_part w (the_controller w) auto_confirm custom_speeds
                {| trace := trace s ++ [Called c0 (Returns b)];
                   controller_var := Some (the_controller w) |})
      as (e1 & E1 & P1).
    destruct (try_except _ _ _) as [c s1]. cbn [snd] in E1. subst s1.
    destruct (keeps_connection_no_disconnect e1 P1) as [D1 _].
    unfold main_cleanup, bind, get_controller_var, method.
    cbn [controller_var push]. rewrite extern_eq. cbn [trace].
    set (r := respond w _ disconnect). clearbody r.
    assert (Hc : forall tl, existsb constructed ([Called c0 (Returns b)] ++ tl) = true)
      by (intros tl; subst c0; destruct simulate; reflexivity).
    assert (Hd : count_calls is_disconnect [Called c0 (Returns b)] = 0)
      by (subst c0; destruct simulate; reflexivity).
    destruct r as [b'|e'].
    + exists ([Called c0 (Returns b)] ++ e1 ++ [Called disconnect (Returns b');
                                            Printed (Line "Controller disconnected")]).
      split; [cbn; rewrite <- !app_assoc; reflexivity|].
      rewrite Hc, !count_calls_app, D1, Hd. reflexivity.
    + exists ([Called c0 (Returns b)] ++ e1 ++ [Called disconnect (Raises e')]).
      split; [cbn; rewrite <- !app_assoc; reflexivity|].
      rewrite Hc, !count_calls_app, D1, Hd. reflexivity.
  - (* the constructor raised: no controller, nothing to disconnect *)
    unfold connect_and_run, try_except.
    rewrite Ector. unfold bind at 1. unfold bind at 1.
    rewrite (extern_raises w c0 s e Hc0).
    unfold main_handlers, main_cleanup, stop_if_controller.
    assert (N : existsb constructed [Called c0 (Raises e)] = false)
      by (subst c0; destruct simulate; reflexivity).
    assert (D : count_calls is_disconnect [Called c0 (Raises e)] = 0)
      by (subst c0; destruct simulate; reflexivity).
    destruct e as [|code|kind]; cbn; rewrite Hvar; cbn.
    + eexists. split; [rewrite <- app_assoc; reflexivity|].
      rewrite !count_calls_app, D, existsb_app, N. reflexivity.
    + eexists. split; [reflexivity|]. rewrite D, N. reflexivity.
    + eexists. split; [rewrite <- !app_assoc; reflexivity|].
      rewrite !count_calls_app, D, existsb_app, N. reflexivity.
Qed.

Lemma main_rejects (w : world) (args : Namespace) (s : state) :
  flags_ok args = false ->
  exists msg,
    In msg usage_errors /\
    main w args s = (Raised (SystemExit 1), push s [Printed (Line msg)]).
Proof.
  unfold flags_ok, main. destruct args as [sim re au sl fa sm].
  cbn [simulate real slow fast auto].
  destruct sim, re, sl, fa; cbn [andb negb]; intros H; try discriminate H;
    eexists; (split; [|reflexivity]); cbn; auto.
Qed.

Lemma main_accepts (w : world) (args : Namespace) (s : state) :
  flags_ok args = true ->
  exists custom,
    build_custom_speeds (fst (resolve_speed args)) = Some custom /\
    main w args s =
    guarded_run w (simulate args) (auto args) custom (push s (main_banner args)).
Proof.
  intros H.
  destruct (build_custom_speeds_total (fst (resolve_speed args))) as [custom Hb].
  exists custom. split; [exact Hb|].
  unfold main, main_banner.
  destruct (resolve_speed args) as [m d]. cbn [fst snd] in *.
  rewrite Hb.
  unfold flags_ok in H. destruct args as [sim re au sl fa sm].
  cbn [simulate real slow fast auto] in *.
  destruct sim, re, sl, fa; cbn [andb negb] in H; try discriminate H;
    cbn [andb negb]; unfold bind, pass, ret, print, emit;
    cbn [trace controller_var]; f_equal; same_state.
Qed.

(** C2, as the code has it: on every exit path of the top-level run the
    controller's disconnect() is invoked exactly once if a controller object
    was constructed (normal completion, failed initialization, sequence
    failure, operator interrupt, controller fault during initialization or
    during a step, even a fault of disconnect() itself), and not at all if
    no controller exists because the constructor raised or the flags were
    rejected. *)
Theorem disconnect_once_per_constructed_controller (w : world) (args : Namespace) :
  let t := trace (snd (run w args)) in
  count_calls is_disconnect t = (if existsb constructed t then 1 else 0).
Proof.
  cbv zeta. unfold run.
  destruct (flags_ok args) eqn:F.
  - destruct (main_accepts w args initial_state F) as (custom & _ & E).
    rewrite E.
    destruct (guarded_run_disconnects w (simulate args) (auto args) custom
                (push initial_state (main_banner args)) eq_refl)
      as (ext & Et & Hd).
    rewrite Et. cbn [trace push initial_state app].
    rewrite existsb_app, count_calls_app.
    change (existsb constructed (main_banner args)) with false.
    change (count_calls is_disconnect (main_banner args)) with 0.
    exact Hd.
  - destruct (main_rejects w args initial_state F) as (msg & _ & E).
    rewrite E. reflexivity.
Qed.

(** A fault raised while constructing the controller: the run ends without
    a single disconnect() call. *)
Lemma constructor_fault_no_disconnect :
  calls (trace (snd (run unreachable_robot_double simulate_auto))) =
    [(XArmController_new None true true, Raises (PyException "ConnectionError"))] /\
  fst (run unreachable_robot_double simulate_auto) = Normal tt /\
  count_calls is_disconnect
    (trace (snd (run unreachable_robot_double simulate_auto))) <> 1.
Proof. repeat split. cbn. discriminate. Qed.

(* ===================================================================== *)
(** * Operator cancellation at a prompt *)
(* ===================================================================== *)













Lemma push_inj (s : state) (a b : list event) : push s a = push s b -> a = b.
Proof.
  unfold push. intros H. injection H as H. exact (app_inv_head _ _ _ H).
Qed.





(* ===================================================================== *)
(** * Preflight *)
(* ===================================================================== *)

Lemma preflight_eq (w : world) (controller : XArmController) (s : state) :
  preflight w controller s =
  match first_missing controller with
  | Some name => (Returned false, push s [Printed (PositionNotFound name)])
  | None =>
      let asked := is_component_enabled "track" in
      let r := respond w (trace s) asked in
      match r with
      | Returns true => (Normal tt, push s [Called asked r])
      | Returns false =>
          (Returned false,
           push s [Called asked r;
                   Printed (Line "Error: Linear track is not enabled")])
      | Raises e => (Raised e, push s [Called asked r])
      end
  end.
Proof.
  unfold preflight, first_missing, required_positions, has_position,
    positions_of.
  set (positions := match dict_get "positions" (position_config controller) with
                    | Some p => p
                    | None => []
                    end).
  cbn [for_each find].
  destruct (existsb (String.eqb "robot_home") positions); [|reflexivity].
  destruct (existsb (String.eqb "deck_high") positions); [|reflexivity].
  destruct (existsb (String.eqb "deck_low") positions); [|reflexivity].
  cbn [negb]. cbv zeta. unfold bind, pass, ret, method. rewrite extern_eq.
  destruct (respond w (trace s) (is_component_enabled "track")) as [[|]|e];
    try reflexivity.
  cbn. f_equal. same_state.
Qed.

Lemma first_missing_none (controller : XArmController) :
  first_missing controller = None <->
  (has_position controller "robot_home" = true /\
   has_position controller "deck_high" = true /\
   has_position controller "deck_low" = true).
Proof.
  unfold first_missing, required_positions. cbn [find].
  destruct (has_position controller "robot_home"),
    (has_position controller "deck_high"),
    (has_position controller "deck_low"); cbn [negb];
    split; intros H; try discriminate H; try (repeat split; reflexivity);
    destruct H as (H1 & H2 & H3); discriminate.
Qed.

Lemma first_missing_some (controller : XArmController) (name : string) :
  first_missing controller = Some name ->
  In name required_positions /\ has_position controller name = false.
Proof.
  unfold first_missing. intros H. apply find_some in H.
  destruct H as [H1 H2]. split; [exact H1|]. apply negb_true_iff, H2.
Qed.

(** With a required name missing, whatever follows the preflight is not
    reached. *)
Lemma preflight_missing {B} (w : world) (controller : XArmController)
    (name : string) (k : unit -> Stmt bool B) (s : state) :
  first_missing controller = Some name ->
  bind (preflight w controller) k s =
  (Returned false, push s [Printed (PositionNotFound name)]).
Proof. intros H. unfold bind. rewrite preflight_eq, H. reflexivity. Qed.

Lemma printed_facts (ext : list event) :
  forallb is_printed ext = true ->
  (forall q, forallb (not_call q) ext = true) /\
  existsb prompt_raised ext = false.
Proof.
  induction ext as [|[c r|o|n] ext IH]; cbn; intros H;
    try discriminate; auto.
Qed.

Lemma only_print_banner {R} (speeds : dict config) :
  only is_printed (@print_banner R speeds).
Proof. unfold print_banner. only_auto. Qed.

(** The banner of the demo prints and completes for every table [main]
    can hand over. *)
Lemma print_banner_completes {R} (m : float) (custom : option (dict config))
    (s : state) :
  build_custom_speeds m = Some custom ->
  fst (@print_banner R (effective_speeds custom) s) = Normal tt.
Proof.
  intros H. destruct (build_custom_speeds_cases m custom H) as [->| ->];
    reflexivity.
Qed.

Ltac split_reply :=
  match goal with
  | |- context [match respond ?w ?h ?c with _ => _ end] =>
      destruct (respond w h c) as [?|[| |]]
  end.

Lemma demo_missing_position (w : world) (controller : XArmController)
    (auto_confirm : bool) (custom_speeds : option (dict config)) (s : state)
    (name : string) :
  first_missing controller = Some name ->
  exists c ext,
    demo_plate_pickup w controller auto_confirm custom_speeds s =
      (c, push s ext) /\
    forallb (not_call is_movement) ext = true /\
    (fst (@print_banner bool (effective_speeds custom_speeds) s) = Normal tt ->
     existsb prompt_raised ext = false ->
     c = Returned false /\
     forallb (not_call is_stop_motion) ext = true /\
     In (Printed (PositionNotFound name)) ext).
Proof.
  intros Hmiss.
  unfold demo_plate_pickup, try_except. cbv zeta.
  destruct (only_print_banner (R := bool) (effective_speeds custom_speeds) s)
    as (eb & Eb & Pb).
  destruct (printed_facts eb Pb) as [Nb Rb].
  unfold bind at 1.
  destruct (print_banner (effective_speeds custom_speeds) s) as [cb sb].
  cbn [snd] in Eb. subst sb.
  destruct cb as [[]|r|[| |]]; [unfold bind at 1; destruct auto_confirm| | | |];
    cbn [negb pass ret fst snd is_KeyboardInterrupt is_Exception].
  all: repeat first
         [ rewrite wait_for_operator_eq
         | rewrite notice_stop_return_eq
         | rewrite (preflight_missing w controller name) by exact Hmiss
         | progress unfold stop_and_fail
         | progress cbn [is_KeyboardInterrupt is_Exception fst snd]
         | split_reply ].
  all: rewrite ?push_push.
  all: eexists; eexists; (split; [reflexivity|]).
  all: rewrite ?forallb_app, ?existsb_app, ?Nb, ?Rb.
  all: split; [reflexivity|]; intros Hbanner Hprompt;
       try discriminate Hbanner; try discriminate Hprompt.
  all: split; [reflexivity|]; split; [reflexivity|].
  all: apply in_or_app; right; cbn; auto.
Qed.

Lemma some_missing (controller : XArmController) (name : string) :
  In name required_positions ->
  has_position controller name = false ->
  exists missing,
    first_missing controller = Some missing /\
    In missing required_positions /\
    has_position controller missing = false.
Proof.
  intros Hin Hno.
  destruct (first_missing controller) as [missing|] eqn:E.
  - exists missing. split; [reflexivity|]. apply first_missing_some, E.
  - apply first_missing_none in E. destruct E as (H1 & H2 & H3).
    cbn in Hin. destruct Hin as [<-|[<-|[<-|[]]]]; congruence.
Qed.

Lemma no_movement_facts (ext : list event) :
  forallb (not_call is_movement) ext = true ->
  movements ext = [] /\ count_calls is_movement ext = 0.
Proof.
  intros H. pose proof (not_call_count is_movement ext H) as C.
  split; [|exact C].
  unfold count_calls in C. unfold movements.
  destruct (filter _ (calls ext)); [reflexivity|discriminate C].
Qed.

Lemma only_demo_auto_no_prompt (w : world) (controller : XArmController)
    (custom_speeds : option (dict config)) :
  only (not_call is_input) (demo_plate_pickup w controller true custom_speeds).
Proof.
  unfold demo_plate_pickup, print_banner, preflight, run_steps, step,
    move_with_confirmation, print_speed_info, execute_movement,
    move_home_and_open_gripper, lambda.
  cbn [negb]. only_auto.
Qed.

Lemma no_input_no_prompt_raised (ext : list event) :
  forallb (not_call is_input) ext = true -> existsb prompt_raised ext = false.
Proof.
  induction ext as [|[c r|o|n] ext IH]; cbn; intros H; auto.
  apply andb_true_iff in H. destruct H as [H1 H2].
  destruct c; cbn in H1; try discriminate; auto.
Qed.

(** With Local_1 absent from the position table the preflight passes, the
    track move to Local_1 is issued and the demo returns [True]. *)
Lemma missing_local_1_is_not_detected :
  has_position no_local_1_rig "Local_1" = false /\
  fst (demo_plate_pickup no_local_1_double no_local_1_rig true None
         initial_state) = Returned true /\
  In (move_track_to_named_location "Local_1" (VInt 150), Returns true)
     (movements (trace (snd (demo_plate_pickup no_local_1_double no_local_1_rig
                               true None initial_state)))) /\
  List.length (movements (trace (snd (demo_plate_pickup no_local_1_double
                               no_local_1_rig true None initial_state)))) = 8.
Proof. vm_compute. repeat split. auto. Qed.

(** C1, as the code has it: before any step runs, the preflight looks up
    'robot_home', 'deck_high' and 'deck_low' in the controller's position
    table, and nothing else: the track destination 'Local_1' is not looked
    up.  If one of the three is absent the preflight reports the first
    missing one and returns [False] on the spot; the demo then issues no
    movement call, and returns [False] (when the start prompt, if any, was
    answered).  If all three are present the preflight goes on to ask
    whether the track is enabled. *)
Theorem preflight_checks_the_three_arm_locations
    (w : world) (controller : XArmController) (s : state) :
  (forall name,
     In name required_positions ->
     has_position controller name = false ->
     exists missing,
       In missing required_positions /\
       has_position controller missing = false /\
       preflight w controller s =
         (Returned false, push s [Printed (PositionNotFound missing)]) /\
       forall auto_confirm m custom_speeds,
         build_custom_speeds m = Some custom_speeds ->
         exists c ext,
           demo_plate_pickup w controller auto_confirm custom_speeds s =
             (c, push s ext) /\
           movements ext = [] /\
           (existsb prompt_raised ext = false -> c = Returned false)) /\
  (has_position controller "robot_home" = true ->
   has_position controller "deck_high" = true ->
   has_position controller "deck_low" = true ->
   let asked := is_component_enabled "track" in
   let r := respond w (trace s) asked in
   preflight w controller s =
   match r with
   | Returns true => (Normal tt, push s [Called asked r])
   | Returns false =>
       (Returned false,
        push s [Called asked r;
                Printed (Line "Error: Linear track is not enabled")])
   | Raises e => (Raised e, push s [Called asked r])
   end).
Proof.
  split.
  - intros name Hin Hno.
    destruct (some_missing controller name Hin Hno) as (missing & E & Hm & Hn).
    exists missing. split; [exact Hm|]. split; [exact Hn|]. split.
    + rewrite preflight_eq, E. reflexivity.
    + intros auto_confirm m custom_speeds Hb.
      destruct (demo_missing_position w controller auto_confirm custom_speeds
                  s missing E) as (c & ext & Ed & Hmov & Hpath).
      exists c, ext. split; [exact Ed|].
      split; [apply no_movement_facts, Hmov|].
      intros Hp.
      apply (Hpath (print_banner_completes m custom_speeds s Hb) Hp).
  - intros H1 H2 H3. cbv zeta. rewrite preflight_eq.
    rewrite (proj2 (first_missing_none controller) (conj H1 (conj H2 H3))).
    reflexivity.
Qed.

Lemma preflight_checks_the_three_arm_locations_witness :
  fst (preflight no_deck_low_double no_deck_low_rig initial_state) =
    Returned false /\
  preflight no_local_1_double no_local_1_rig initial_state =
    (Normal tt,
     push initial_state [Called (is_component_enabled "track") (Returns true)]).
Proof.
  split.
  - destruct (proj1 (preflight_checks_the_three_arm_locations
                       no_deck_low_double no_deck_low_rig initial_state)
                "deck_low" (or_intror (or_intror (or_introl eq_refl))) eq_refl)
      as (missing & _ & _ & E & _).
    rewrite E. reflexivity.
  - exact (proj2 (preflight_checks_the_three_arm_locations
                    no_local_1_double no_local_1_rig initial_state)
             eq_refl eq_refl eq_refl).
Defined.

(* ===================================================================== *)
(** * A missing location *)
(* ===================================================================== *)

(** C6: if 'robot_home', 'deck_high' or 'deck_low' is absent from the
    controller's position table, the demo issues no movement call at all;
    and on the path that reaches the location check (auto-confirm, or the
    operator answered the start prompt) it returns [False] after reporting
    the missing position, without a single stop_motion call. *)
Theorem missing_location_aborts_before_motion
    (w : world) (controller : XArmController) (auto_confirm : bool)
    (m : float) (custom_speeds : option (dict config)) (s : state)
    (name : string) :
  build_custom_speeds m = Some custom_speeds ->
  In name required_positions ->
  has_position controller name = false ->
  exists c ext,
    demo_plate_pickup w controller auto_confirm custom_speeds s =
      (c, push s ext) /\
    movements ext = [] /\
    count_calls is_movement ext = 0 /\
    (auto_confirm = true -> existsb prompt_raised ext = false) /\
    (existsb prompt_raised ext = false ->
     c = Returned false /\
     count_calls is_stop_motion ext = 0 /\
     exists missing,
       has_position controller missing = false /\
       In (Printed (PositionNotFound missing)) ext).
Proof.
  intros Hb Hin Hno.
  destruct (some_missing controller name Hin Hno) as (missing & E & Hm & Hn).
  destruct (demo_missing_position w controller auto_confirm custom_speeds
              s missing E) as (c & ext & Ed & Hmov & Hpath).
  exists c, ext. split; [exact Ed|].
  destruct (no_movement_facts ext Hmov) as [M1 M2].
  split; [exact M1|]. split; [exact M2|]. split.
  - intros ->.
    destruct (only_demo_auto_no_prompt w controller custom_speeds s)
      as (ext' & E' & P').
    rewrite Ed in E'. cbn [snd] in E'. apply push_inj in E'. subst ext'.
    apply no_input_no_prompt_raised, P'.
  - intros Hp.
    destruct (Hpath (print_banner_completes m custom_speeds s Hb) Hp)
      as (F & Hs & Hprinted).
    split; [exact F|]. split; [apply not_call_count, Hs|].
    exists missing. split; [exact Hn|exact Hprinted].
Qed.

Lemma missing_location_aborts_before_motion_witness :
  fst (demo_plate_pickup no_deck_low_double no_deck_low_rig true None
         initial_state) = Returned false /\
  calls (trace (snd (demo_plate_pickup no_deck_low_double no_deck_low_rig true
                       None initial_state))) = [].
Proof.
  destruct (missing_location_aborts_before_motion
              no_deck_low_double no_deck_low_rig true 1.0%float None
              initial_state "deck_low" eq_refl
              (or_intror (or_intror (or_introl eq_refl))) eq_refl)
    as (c & ext & E & _ & _ & Hauto & Hpath).
  split; [|vm_compute; reflexivity].
  rewrite E. exact (proj1 (Hpath (Hauto eq_refl))).
Defined.

(* ===================================================================== *)
(** * Walking the plan with a scripted controller *)
(* ===================================================================== *)

Lemma robot_calls_app (a b : list event) :
  robot_calls (a ++ b) = robot_calls a ++ robot_calls b.
Proof. unfold robot_calls. rewrite calls_app, filter_app. reflexivity. Qed.

Lemma robot_calls_printed (ext : list event) :
  forallb is_printed ext = true -> robot_calls ext = [].
Proof. intros H. unfold robot_calls. rewrite (only_calls_nil ext H). reflexivity. Qed.

Lemma speed_info_lines_printed (speed_info : option config) :
  forallb is_printed (speed_info_lines speed_info) = true.
Proof.
  destruct speed_info as [info|]; [|reflexivity]. cbn [speed_info_lines].
  destruct (dict_truthy info); [|reflexivity].
  destruct (dict_get "joint_speed" info), (dict_get "tcp_speed" info),
    (dict_get "track_speed" info); reflexivity.
Qed.

Lemma robot_calls_prelude (description : string) (speed_info : option config) :
  robot_calls (runner_prelude description speed_info) = [].
Proof.
  apply robot_calls_printed. cbn. apply speed_info_lines_printed.
Qed.

Lemma lambda_method (w : world) (controller : XArmController) (c : call)
    (b : bool) :
  answers w c (Returns b) ->
  forall s, @call_function bool bool unit false (lambda (method w controller c)) s =
            (Normal b, push s [Called c (Returns b)]).
Proof.
  intros H s. unfold call_function, lambda, method, bind.
  rewrite (extern_returns w c s b (H _)). reflexivity.
Qed.

Lemma home_action (w : world) (controller : XArmController) (v : pyval)
    (g : bool) :
  answers w (move_to_named_location "robot_home" v) (Returns true) ->
  answers w open_gripper (Returns g) ->
  forall s, @call_function bool bool unit false
              (move_home_and_open_gripper w controller v) s =
            (Normal true,
             push s [Called (move_to_named_location "robot_home" v) (Returns true);
                     Called open_gripper (Returns g)]).
Proof.
  intros Hm Hg s. rewrite move_home_and_open_gripper_eq. cbv zeta.
  rewrite !Hm, Hg. reflexivity.
Qed.

(** A step whose prompt (if any) is answered and whose action returns [b]:
    the sequence goes on exactly when [b] is [True], and the controller saw
    the action's calls and no others. *)
Lemma step_outcome (w : world) (controller : XArmController)
    (movement_func : Stmt bool unit) (description : string)
    (auto_confirm : bool) (speed_info : config) (s : state)
    (r b : bool) (ef : list event) :
  (auto_confirm = false -> forall prompt, answers w (input prompt) (Returns r)) ->
  (forall s0, @call_function bool bool unit false movement_func s0 =
              (Normal b, push s0 ef)) ->
  exists ext,
    step w controller movement_func description auto_confirm speed_info s =
      ((if b then Normal tt else Returned false), push s ext) /\
    robot_calls ext = robot_calls ef.
Proof.
  intros Hin Hf. rewrite step_eq, move_with_confirmation_eq. cbv zeta.
  destruct auto_confirm.
  - rewrite execute_movement_eq, Hf, !push_push.
    destruct b; (eexists; split; [reflexivity|]);
      rewrite !robot_calls_app, robot_calls_prelude; cbn [app];
      rewrite app_nil_r; reflexivity.
  - rewrite wait_for_operator_eq, (Hin eq_refl step_prompt).
    rewrite execute_movement_eq, Hf, !push_push.
    destruct b; (eexists; split; [reflexivity|]);
      rewrite !robot_calls_app, robot_calls_prelude; cbn [app];
      rewrite app_nil_r; reflexivity.
Qed.

Section ScriptedController.

Variables (w : world) (controller : XArmController) (auto_confirm : bool).
(** answers of the operator, of open_gripper, of the move to deck_low and
    of close_gripper *)
Variables (r g b4 b5 : bool).

Hypothesis operator_confirms :
  auto_confirm = false -> forall prompt, answers w (input prompt) (Returns r).
Hypothesis home_reached :
  forall v, answers w (move_to_named_location "robot_home" v) (Returns true).
Hypothesis gripper_opened : answers w open_gripper (Returns g).
Hypothesis track_moved :
  forall v, answers w (move_track_to_named_location "Local_1" v) (Returns true).
Hypothesis deck_high_reached :
  forall v, answers w (move_to_named_location "deck_high" v) (Returns true).
Hypothesis deck_low_answer :
  forall v, answers w (move_to_named_location "deck_low" v) (Returns b4).
Hypothesis gripper_answer :
  b4 = true -> answers w close_gripper (Returns b5).

Ltac action_fact f :=
  lazymatch f with
  | move_home_and_open_gripper _ _ ?v =>
      constr:(home_action w controller v g (home_reached v) gripper_opened)
  | lambda (method _ _ (move_track_to_named_location "Local_1" ?v)) =>
      constr:(lambda_method w controller _ true (track_moved v))
  | lambda (method _ _ (move_to_named_location "deck_high" ?v)) =>
      constr:(lambda_method w controller _ true (deck_high_reached v))
  | lambda (method _ _ (move_to_named_location "deck_low" ?v)) =>
      constr:(lambda_method w controller _ b4 (deck_low_answer v))
  | lambda (method _ _ (move_to_named_location "robot_home" ?v)) =>
      constr:(lambda_method w controller _ true (home_reached v))
  | lambda (method _ _ close_gripper) =>
      constr:(lambda_method w controller _ b5 (gripper_answer eq_refl))
  end.

Ltac run_step :=
  cbn -[step push]; unfold bind at 1;
  match goal with
  | |- context [step ?w' ?c ?f ?d ?a ?i ?s] =>
      let Hf := action_fact f in
      let e := fresh "e" in
      let E := fresh "E" in
      let C := fresh "C" in
      destruct (step_outcome w' c f d a i s r _ _ operator_confirms Hf)
        as (e & E & C);
      rewrite E; clear E
  end.

Lemma closing_lines (o1 o2 o3 : output) (s : state) :
  (print o1 ;; print o2 ;; print o3 ;; @return_ bool unit true) s =
  (Returned true, push s [Printed o1; Printed o2; Printed o3]).
Proof. cbn. f_equal. same_state. Qed.

Lemma run_steps_scripted (m : float) (speeds : dict config) (s : state) :
  speeds = get_speed_config \/ speeds = scaled_speeds m ->
  exists ext,
    run_steps w controller auto_confirm speeds s =
      (Returned (b4 && b5), push s ext) /\
    robot_calls ext = plan_calls g b4 b5 speeds.
Proof.
  intros [-> | ->]; unfold run_steps.
  all: do 4 run_step.
  all: destruct b4; cbn [andb].
  all: try run_step.
  all: try (destruct b5; [do 2 run_step|]).
  all: cbn -[push print step]; rewrite ?closing_lines, ?push_push.
  all: eexists; (split; [reflexivity|]).
  all: rewrite ?robot_calls_app.
  all: repeat match goal with H : robot_calls _ = _ |- _ => rewrite H; clear H end.
  all: reflexivity.
Qed.

Lemma print_banner_runs (m : float) (custom : option (dict config))
    (s : state) :
  build_custom_speeds m = Some custom ->
  exists eb,
    @print_banner bool (effective_speeds custom) s = (Normal tt, push s eb) /\
    forallb is_printed eb = true.
Proof.
  intros Hb.
  destruct (only_print_banner (R := bool) (effective_speeds custom) s)
    as (eb & E & P).
  pose proof (print_banner_completes (R := bool) m custom s Hb) as F.
  exists eb. split; [|exact P].
  destruct (print_banner (effective_speeds custom) s) as [c s1].
  cbn [fst snd] in *. subst. reflexivity.
Qed.

Hypothesis track_enabled :
  answers w (is_component_enabled "track") (Returns true).
Hypothesis positions_present : first_missing controller = None.

(** The demo under the scripted controller: it returns [True] exactly when
    steps 4 and 5 succeed, and the controller saw the track query and the
    plan's calls. *)
Lemma demo_scripted (m : float) (custom : option (dict config)) (s : state) :
  build_custom_speeds m = Some custom ->
  exists ext,
    demo_plate_pickup w controller auto_confirm custom s =
      (Returned (b4 && b5), push s ext) /\
    robot_calls ext =
      (is_component_enabled "track", Returns true) ::
      plan_calls g b4 b5 (effective_speeds custom).
Proof.
  intros Hb.
  unfold demo_plate_pickup, try_except. cbv zeta.
  destruct (print_banner_runs m custom s Hb) as (eb & Eb & Pb).
  unfold bind at 1. rewrite Eb.
  assert (Hwait : exists ew,
            (if negb auto_confirm
             then wait_for_operator w controller
                    "Press Enter to start the demo (Ctrl+C to abort)..."
                    "Demo aborted by user"
             else pass) (push s eb) = (Normal tt, push (push s eb) ew) /\
            robot_calls ew = []).
  { destruct auto_confirm; cbn [negb].
    - exists []. rewrite push_nil. split; reflexivity.
    - rewrite wait_for_operator_eq, (operator_confirms eq_refl _).
      eexists. split; reflexivity. }
  destruct Hwait as (ew & Ew & Cw).
  unfold bind at 1. rewrite Ew.
  unfold bind at 1. rewrite preflight_eq, positions_present. cbv zeta.
  rewrite track_enabled.
  assert (Hs : effective_speeds custom = get_speed_config \/
               effective_speeds custom = scaled_speeds m).
  { destruct (build_custom_speeds_cases m custom Hb) as [-> | ->];
      [left|right]; reflexivity. }
  destruct (run_steps_scripted m (effective_speeds custom)
              (push (push (push s eb) ew)
                 [Called (is_component_enabled "track") (Returns true)]) Hs)
    as (er & Er & Cr).
  rewrite Er, !push_push.
  eexists. split; [reflexivity|].
  rewrite !robot_calls_app, (robot_calls_printed eb Pb), Cw, Cr. reflexivity.
Qed.

End ScriptedController.

Ltac fold_push :=
  repeat match goal with
         | |- context [{| trace := trace ?s ++ ?a;
                          controller_var := controller_var ?s |}] =>
             change {| trace := trace s ++ a;
                       controller_var := controller_var s |}
               with (push s a)
         end.

Ltac returns_with H :=
  cbn -[extern push demo_plate_pickup call_function];
  unfold bind at 1;
  rewrite (extern_returns _ _ _ _ (H _)).

(** A whole run against a controller that connects, initializes, has its
    track enabled and all required positions, and answers the plan's calls
    as scripted. *)
Lemma run_scripted (w : world) (args : Namespace) (r g b4 b5 bc bg bd : bool) :
  flags_ok args = true ->
  (auto args = false -> forall prompt, answers w (input prompt) (Returns r)) ->
  (forall p sm ae, answers w (XArmController_new p sm ae) (Returns bc)) ->
  answers w initialize (Returns true) ->
  answers w (is_component_enabled "track") (Returns true) ->
  answers w has_gripper (Returns bg) ->
  answers w disconnect (Returns bd) ->
  first_missing (the_controller w) = None ->
  (forall v, answers w (move_to_named_location "robot_home" v) (Returns true)) ->
  answers w open_gripper (Returns g) ->
  (forall v, answers w (move_track_to_named_location "Local_1" v) (Returns true)) ->
  (forall v, answers w (move_to_named_location "deck_high" v) (Returns true)) ->
  (forall v, answers w (move_to_named_location "deck_low" v) (Returns b4)) ->
  (b4 = true -> answers w close_gripper (Returns b5)) ->
  exists s',
    run w args = (Normal tt, s') /\
    robot_calls (trace s') =
      [ (constructor_call args, Returns bc);
        (initialize, Returns true);
        (is_component_enabled "track", Returns true);
        (has_gripper, Returns bg);
        (is_component_enabled "track", Returns true) ] ++
      plan_calls g b4 b5 (speeds_in_effect args) ++
      [ (disconnect, Returns bd) ] /\
    In (Printed (Line (verdict (b4 && b5)))) (trace s').
Proof.
  intros F Hin Hctor Hinit Htrack Hgrip Hdisc Hpos H1 Hg H2 H3 H4 H5.
  unfold run.
  destruct (main_accepts w args initial_state F) as (custom & Hb & E).
  rewrite E. unfold speeds_in_effect. rewrite Hb.
  set (s0 := push initial_state (main_banner args)).
  assert (Hs0 : robot_calls (trace s0) = []) by reflexivity.
  clearbody s0. clear E.
  assert (Ebody : forall s1, exists ext,
            initialize_and_run w (the_controller w) (auto args) custom s1 =
              (Normal tt, push s1 ext) /\
            robot_calls ext =
              [ (initialize, Returns true);
                (is_component_enabled "track", Returns true);
                (has_gripper, Returns bg);
                (is_component_enabled "track", Returns true) ] ++
              plan_calls g b4 b5 (effective_speeds custom) /\
            In (Printed (Line (verdict (b4 && b5)))) ext).
  { intros s1. unfold initialize_and_run, method.
    returns_with Hinit. returns_with Htrack. returns_with Hgrip.
    destruct bg.
    all: cbn -[extern push demo_plate_pickup call_function].
    all: unfold bind at 1; unfold call_function at 1.
    all: match goal with
         | |- context [demo_plate_pickup ?w' ?c ?a ?cu ?s] =>
             destruct (demo_scripted w' c a r g b4 b5
                         Hin H1 Hg H2 H3 H4 H5 Htrack Hpos
                         (fst (resolve_speed args)) cu s Hb) as (ed & Ed & Cd)
         end.
    all: rewrite Ed.
    all: destruct (b4 && b5); cbn -[push plan_calls print].
    all: unfold print; rewrite emit_eq; fold_push; rewrite !push_push.
    all: eexists; (split; [reflexivity|]).
    all: rewrite ?robot_calls_app, Cd.
    all: split; [cbn -[plan_calls]; rewrite ?app_nil_r; reflexivity|].
    all: repeat (apply in_or_app; right); cbn; auto.
  }
  assert (Ector : (if simulate args then @construct w unit None true true
                   else @construct w unit (Some "real_hw") false true) s0 =
                  (Normal (the_controller w),
                   push s0 [Called (constructor_call args) (Returns bc)])).
  { unfold constructor_call, construct, bind.
    destruct (simulate args); rewrite (extern_returns w _ s0 bc (Hctor _ _ _ _));
      reflexivity. }
  unfold guarded_run, try_finally, try_except, connect_and_run.
  unfold bind at 1. rewrite Ector.
  unfold bind at 1. unfold set_controller_var at 1.
  destruct (Ebody {| trace := trace (push s0 [Called (constructor_call args)
                                                 (Returns bc)]);
                     controller_var := Some (the_controller w) |})
    as (eb & Eb & Cb & Ib).
  rewrite Eb.
  unfold main_cleanup, bind, get_controller_var, method.
  cbn [controller_var push].
  rewrite (extern_returns w disconnect _ bd (Hdisc _)).
  cbn [print emit trace controller_var push].
  eexists. split; [reflexivity|].
  cbn [trace]. rewrite !robot_calls_app, Hs0, Cb.
  assert (Hci : is_input (constructor_call args) = false)
    by (unfold constructor_call; destruct (simulate args); reflexivity).
  split.
  { cbn -[plan_calls constructor_call]. rewrite Hci.
    cbn -[plan_calls constructor_call].
    rewrite ?app_nil_r. reflexivity. }
  apply in_or_app. left. apply in_or_app. left. apply in_or_app. right.
  exact Ib.
Qed.

Lemma filter_robot_calls (q : call -> bool) (t : list event) :
  (forall c, q c = true -> is_input c = false) ->
  filter (fun cr => q (fst cr)) (calls t) =
  filter (fun cr => q (fst cr)) (robot_calls t).
Proof.
  intros Hq. unfold robot_calls.
  induction (calls t) as [|[c r] l IH]; [reflexivity|].
  cbn [filter fst]. destruct (q c) eqn:Q.
  - rewrite (Hq c Q). cbn [negb filter fst]. rewrite Q, IH. reflexivity.
  - destruct (negb (is_input c)); cbn [filter fst]; rewrite ?Q; exact IH.
Qed.

Lemma movements_robot_calls (t : list event) :
  movements t = filter (fun cr => is_movement (fst cr)) (robot_calls t).
Proof.
  unfold movements. apply filter_robot_calls.
  intros c. destruct c; cbn; intros H; try discriminate; reflexivity.
Qed.

Lemma count_robot_calls (q : call -> bool) (t : list event) :
  (forall c, q c = true -> is_input c = false) ->
  count_calls q t = List.length (filter (fun cr => q (fst cr)) (robot_calls t)).
Proof. intros Hq. unfold count_calls. rewrite (filter_robot_calls q t Hq). reflexivity. Qed.

(* ===================================================================== *)
(** * A failure in the middle of the plan *)
(* ===================================================================== *)

(** C3: against a controller that connects and initializes, has the track
    enabled and the required positions, succeeds on steps 1 to 3 and reports
    [False] for the move to deck_low (with an operator who confirms every
    prompt, if prompts are on): the movement calls are exactly those of
    steps 1 to 4, each once, in order, the first three successful (with the
    gripper opened after the home move); steps 5, 6 and 7 issue nothing;
    stop_motion is not called; the run prints its failure summary; and
    disconnect() is called exactly once. *)
Theorem failure_at_step_4_stops_the_plan
    (w : world) (args : Namespace) (r g bc bg bd : bool) :
  flags_ok args = true ->
  (auto args = false -> forall prompt, answers w (input prompt) (Returns r)) ->
  (forall p sm ae, answers w (XArmController_new p sm ae) (Returns bc)) ->
  answers w initialize (Returns true) ->
  answers w (is_component_enabled "track") (Returns true) ->
  answers w has_gripper (Returns bg) ->
  answers w disconnect (Returns bd) ->
  first_missing (the_controller w) = None ->
  (forall v, answers w (move_to_named_location "robot_home" v) (Returns true)) ->
  answers w open_gripper (Returns g) ->
  (forall v, answers w (move_track_to_named_location "Local_1" v) (Returns true)) ->
  (forall v, answers w (move_to_named_location "deck_high" v) (Returns true)) ->
  (forall v, answers w (move_to_named_location "deck_low" v) (Returns false)) ->
  let speeds := speeds_in_effect args in
  let t := trace (snd (run w args)) in
  fst (run w args) = Normal tt /\
  movements t =
    [ (move_to_named_location "robot_home"
         (speed_at speeds "robot_home" "joint_speed"), Returns true);
      (open_gripper, Returns g);
      (move_track_to_named_location "Local_1"
         (speed_at speeds "move_to_local_1" "track_speed"), Returns true);
      (move_to_named_location "deck_high"
         (speed_at speeds "deck_high" "joint_speed"), Returns true);
      (move_to_named_location "deck_low"
         (speed_at speeds "deck_low" "joint_speed"), Returns false) ] /\
  count_calls is_stop_motion t = 0 /\
  count_calls is_disconnect t = 1 /\
  In (Printed (Line (nl ++ "Demo completed with some failures"))) t.
Proof.
  intros F Hin Hctor Hinit Htrack Hgrip Hdisc Hpos H1 Hg H2 H3 H4.
  cbv zeta.
  destruct (run_scripted w args r g false false bc bg bd
              F Hin Hctor Hinit Htrack Hgrip Hdisc Hpos H1 Hg H2 H3 H4)
    as (s' & E & C & P); [discriminate|].
  rewrite E. cbn [fst snd]. split; [reflexivity|].
  rewrite movements_robot_calls.
  rewrite (count_robot_calls is_stop_motion)
    by (intros []; cbn; intros; try discriminate; reflexivity).
  rewrite (count_robot_calls is_disconnect)
    by (intros []; cbn; intros; try discriminate; reflexivity).
  rewrite C. unfold constructor_call.
  repeat split; try (destruct (simulate args); reflexivity).
  exact P.
Qed.

Lemma failure_at_step_4_stops_the_plan_witness :
  fst (run deck_low_fails_double simulate_auto) = Normal tt /\
  movements (trace (snd (run deck_low_fails_double simulate_auto))) =
    [ (move_to_named_location "robot_home" (VInt 20), Returns true);
      (open_gripper, Returns true);
      (move_track_to_named_location "Local_1" (VInt 150), Returns true);
      (move_to_named_location "deck_high" (VInt 15), Returns true);
      (move_to_named_location "deck_low" (VInt 8), Returns false) ] /\
  count_calls is_disconnect
    (trace (snd (run deck_low_fails_double simulate_auto))) = 1.
Proof.
  destruct (failure_at_step_4_stops_the_plan
              deck_low_fails_double simulate_auto true true true true true
              eq_refl (fun H => match Bool.diff_true_false H with end)
              (fun _ _ _ _ => eq_refl) (fun _ => eq_refl) (fun _ => eq_refl)
              (fun _ => eq_refl) (fun _ => eq_refl) eq_refl
              (fun _ _ => eq_refl) (fun _ => eq_refl) (fun _ _ => eq_refl)
              (fun _ _ => eq_refl) (fun _ _ => eq_refl))
    as (H1 & H2 & _ & H3 & _).
  split; [exact H1|]. split; [exact H2|exact H3].
Defined.

(* ===================================================================== *)
(** * The multiplier *)
(* ===================================================================== *)

Lemma dict_get_In {V} (k : string) (v : V) (d : dict V) :
  dict_get k d = Some v -> In (k, v) d.
Proof.
  induction d as [|[k' v'] d IH]; cbn [dict_get]; [discriminate|].
  destruct (String.eqb k k') eqn:E.
  - intros H. injection H as ->. apply String.eqb_eq in E. subst k'.
    left. reflexivity.
  - intros H. right. apply IH, H.
Qed.

Ltac scaled_entry_tac :=
  unfold scaled_entry;
  split; [reflexivity|];
  split;
  [ intros key v0 [-> | ->] Hv0; cbn in Hv0; try discriminate Hv0;
    injection Hv0 as <-; eexists; eexists;
    (split; [reflexivity|]); split; reflexivity
  | split; [reflexivity|];
    cbn; intros; try discriminate; reflexivity ].

Lemma scaled_speeds_entries (m : float) (step_name : string) (cfg0 : config) :
  dict_get step_name get_speed_config = Some cfg0 ->
  exists cfg,
    dict_get step_name (scaled_speeds m) = Some cfg /\ scaled_entry m cfg0 cfg.
Proof.
  intros H. apply dict_get_In in H. cbn in H.
  repeat (destruct H as [H|H]; [injection H as <- <-|]); try destruct H.
  all: eexists; (split; [reflexivity|]); scaled_entry_tac.
Qed.

Lemma default_speeds_entries (step_name : string) (cfg0 : config) :
  dict_get step_name get_speed_config = Some cfg0 ->
  scaled_entry 1.0%float cfg0 cfg0.
Proof.
  intros H. apply dict_get_In in H. cbn in H.
  repeat (destruct H as [H|H]; [injection H as <- <-|]); try destruct H.
  all: scaled_entry_tac.
Qed.

(** C4: the multiplier in effect is 0.5 with --slow, else 2.0 with --fast,
    else the --speed-multiplier float (1.0 when that float equals 1.0).
    Every joint_speed and track_speed of the default table appears in the
    table in effect multiplied by exactly that multiplier (Python's
    int-times-float product); descriptions, and the gripper-close step,
    which has no speed, are unchanged.  In particular, with --auto --fast
    against a controller whose every call returns [True] and whose table has
    the required positions, the seven steps run in order at speeds 40,
    track 300, 30, 16, none, 20, 30, and the run reports overall success. *)
Theorem multiplier_scales_every_speed (args : Namespace) :
  let m := fst (resolve_speed args) in
  (slow args = true -> m = 0.5%float) /\
  (slow args = false -> fast args = true -> m = 2.0%float) /\
  (slow args = false -> fast args = false ->
   float_ne (speed_multiplier args) 1.0%float = true ->
   m = speed_multiplier args) /\
  (slow args = false -> fast args = false ->
   float_ne (speed_multiplier args) 1.0%float = false ->
   m = 1.0%float) /\
  (forall step_name cfg0,
     dict_get step_name get_speed_config = Some cfg0 ->
     exists cfg,
       dict_get step_name (speeds_in_effect args) = Some cfg /\
       scaled_entry m cfg0 cfg) /\
  (forall w,
     flags_ok args = true ->
     auto args = true -> fast args = true -> slow args = false ->
     (forall c, answers w c (Returns true)) ->
     first_missing (the_controller w) = None ->
     fst (run w args) = Normal tt /\
     movements (trace (snd (run w args))) =
       [ (move_to_named_location "robot_home" (VFloat 40), Returns true);
         (open_gripper, Returns true);
         (move_track_to_named_location "Local_1" (VFloat 300), Returns true);
         (move_to_named_location "deck_high" (VFloat 30), Returns true);
         (move_to_named_location "deck_low" (VFloat 16), Returns true);
         (close_gripper, Returns true);
         (move_to_named_location "deck_high" (VFloat 20), Returns true);
         (move_to_named_location "robot_home" (VFloat 30), Returns true) ] /\
     In (Printed (Line (nl ++ "Demo completed successfully!")))
        (trace (snd (run w args)))).
Proof.
  cbv zeta.
  split; [|split; [|split; [|split; [|split]]]].
  - unfold resolve_speed. intros ->. reflexivity.
  - unfold resolve_speed. intros -> ->. reflexivity.
  - unfold resolve_speed. intros -> -> ->. reflexivity.
  - unfold resolve_speed. intros -> -> ->. reflexivity.
  - intros step_name cfg0 H0.
    destruct (effective_speeds_of_args args) as (custom & Hb & Hc).
    unfold speeds_in_effect. cbv zeta in Hb, Hc. rewrite Hb.
    destruct Hc as [(-> & _ & ->)|(_ & _ & ->)].
    + exists cfg0. split; [exact H0|].
      apply (default_speeds_entries step_name), H0.
    + apply scaled_speeds_entries, H0.
  - intros w F Hauto Hfast Hslow Hall Hpos.
    destruct (run_scripted w args true true true true true true true F
                (fun _ prompt => Hall _)
                (fun _ _ _ => Hall _) (Hall _) (Hall _) (Hall _) (Hall _) Hpos
                (fun _ => Hall _) (Hall _) (fun _ => Hall _) (fun _ => Hall _)
                (fun _ => Hall _) (fun _ => Hall _))
      as (s' & E & C & P).
    rewrite E. cbn [fst snd]. split; [reflexivity|]. split; [|exact P].
    rewrite movements_robot_calls, C.
    destruct args as [sim re au sl fa sm]. cbn [fast slow] in Hfast, Hslow.
    subst fa sl. unfold constructor_call. cbn [simulate].
    destruct sim; vm_compute; reflexivity.
Qed.

Lemma multiplier_scales_every_speed_witness :
  (exists cfg,
     dict_get "deck_low" (speeds_in_effect simulate_auto_fast) = Some cfg /\
     dict_get "joint_speed" cfg = Some (VFloat 16)) /\
  fst (run succeeding_double simulate_auto_fast) = Normal tt /\
  List.length (movements (trace (snd (run succeeding_double simulate_auto_fast)))) = 8.
Proof.
  pose proof (multiplier_scales_every_speed simulate_auto_fast)
    as (_ & _ & _ & _ & Htable & Hrun).
  split.
  - destruct (Htable "deck_low"
                [("joint_speed", VInt 8);
                 ("description", VStr "Slow descent to plate pickup level")]
                eq_refl) as (cfg & Hcfg & _).
    exists cfg. split; [exact Hcfg|].
    vm_compute in Hcfg. injection Hcfg as <-. reflexivity.
  - destruct (Hrun succeeding_double eq_refl eq_refl eq_refl eq_refl
                (fun _ _ => eq_refl) eq_refl) as (H1 & H2 & _).
    split; [exact H1|]. rewrite H2. reflexivity.
Defined.

(* ===================================================================== *)
(** * Two more instances *)
(* ===================================================================== *)

Lemma conflicting_flags_exit_before_controller_witness :
  fst (run succeeding_double both_modes) = Raised (SystemExit 1) /\
  calls (trace (snd (run succeeding_double both_modes))) = [].
Proof.
  destruct (conflicting_flags_exit_before_controller succeeding_double
              both_modes (or_introl eq_refl)) as (msg & _ & E & _ & Hc & _).
  split; [rewrite E; reflexivity|exact Hc].
Defined.

Lemma speed_config_at_most_one_speed_witness :
  at_most_one_speed
    [("track_speed", VFloat 300);
     ("description", VStr "Linear track movement to Local_1 position")] = true.
Proof.
  destruct (speed_config_at_most_one_speed simulate_auto_fast)
    as (_ & custom & Hb & _ & Hall).
  vm_compute in Hb. injection Hb as <-.
  exact (proj1 (Hall "move_to_local_1" _ (or_intror (or_introl eq_refl)))).
Defined.

(* ===================================================================== *)
(** * Statements whose events satisfy a compositional property *)
(* ===================================================================== *)

Section Emits.

Context {R : Type} (P : list event -> Prop).
Hypothesis P_nil : P [].
Hypothesis P_app : forall a b, P a -> P b -> P (a ++ b).

Lemma emits_ret {A} (a : A) : emits P (@ret R A a).
Proof. intros s. exists []. rewrite app_nil_r. split; [reflexivity|exact P_nil]. Qed.

Lemma emits_return {A} (r : R) : emits P (@return_ R A r).
Proof. intros s. exists []. rewrite app_nil_r. split; [reflexivity|exact P_nil]. Qed.

Lemma emits_raise {A} (e : exn) : emits P (@raise R A e).
Proof. intros s. exists []. rewrite app_nil_r. split; [reflexivity|exact P_nil]. Qed.

Lemma emits_emit (ev : event) : P [ev] -> emits P (@emit R ev).
Proof. intros H s. exists [ev]. split; [reflexivity|exact H]. Qed.

Lemma emits_extern (w : world) (c : call) :
  (forall r, P [Called c r]) -> emits P (@extern w R c).
Proof.
  intros H s. rewrite extern_eq. eexists. split; [reflexivity|apply H].
Qed.

Lemma emits_set_controller_var (c : XArmController) :
  emits P (@set_controller_var R c).
Proof. intros s. exists []. cbn. rewrite app_nil_r. split; [reflexivity|exact P_nil]. Qed.

Lemma emits_get_controller_var : emits P (@get_controller_var R).
Proof. intros s. exists []. cbn. rewrite app_nil_r. split; [reflexivity|exact P_nil]. Qed.

Lemma emits_bind {A B} (m : Stmt R A) (k : A -> Stmt R B) :
  emits P m -> (forall a, emits P (k a)) -> emits P (bind m k).
Proof.
  intros Hm Hk s. unfold bind.
  destruct (Hm s) as (e1 & E1 & P1).
  destruct (m s) as [[a|r|e] s1]; cbn [snd] in E1.
  - destruct (Hk a s1) as (e2 & E2 & P2).
    exists (e1 ++ e2). rewrite E2, E1, app_assoc.
    split; [reflexivity|apply P_app; assumption].
  - exists e1. split; assumption.
  - exists e1. split; assumption.
Qed.

Lemma emits_try_except {A} (body : Stmt R A) (handler : exn -> option (Stmt R A)) :
  emits P body ->
  (forall e h, handler e = Some h -> emits P h) ->
  emits P (try_except body handler).
Proof.
  intros Hb Hh s. unfold try_except.
  destruct (Hb s) as (e1 & E1 & P1).
  destruct (body s) as [[a|r|e] s1]; cbn [snd] in E1;
    try (exists e1; split; assumption).
  destruct (handler e) as [h|] eqn:Eh.
  - destruct (Hh e h Eh s1) as (e2 & E2 & P2).
    exists (e1 ++ e2). rewrite E2, E1, app_assoc.
    split; [reflexivity|apply P_app; assumption].
  - exists e1. split; assumption.
Qed.

Lemma emits_try_finally {A} (body : Stmt R A) (cleanup : Stmt R unit) :
  emits P body -> emits P cleanup -> emits P (try_finally body cleanup).
Proof.
  intros Hb Hc s. unfold try_finally.
  destruct (Hb s) as (e1 & E1 & P1).
  destruct (body s) as [c s1]; cbn [snd] in E1.
  destruct (Hc s1) as (e2 & E2 & P2).
  exists (e1 ++ e2). split; [|apply P_app; assumption].
  rewrite app_assoc, <- E1, <- E2.
  destruct (cleanup s1) as [[[]|r|e] s2]; reflexivity.
Qed.

Lemma emits_call_function {R' A} (dflt : R') (body : Stmt R' A) :
  emits P body -> emits P (@call_function R R' A dflt body).
Proof.
  intros Hb s. unfold call_function.
  destruct (Hb s) as (e1 & E1 & P1). exists e1. split; [|exact P1].
  destruct (body s) as [[a|r|e] s1]; exact E1.
Qed.

Lemma emits_for_each {X} (xs : list X) (body : X -> Stmt R unit) :
  (forall x, emits P (body x)) -> emits P (for_each xs body).
Proof.
  intros Hb. induction xs as [|x xs IH]; cbn [for_each].
  - apply emits_ret.
  - apply emits_bind; [apply Hb|intros _; exact IH].
Qed.

Lemma emits_subscript {V} (d : dict V) (k : string) : emits P (@subscript R V d k).
Proof.
  unfold subscript. destruct (dict_get k d); [apply emits_ret|apply emits_raise].
Qed.

End Emits.

Ltac emits_handler :=
  let e := fresh "e" in
  let h := fresh "h" in
  let E := fresh "E" in
  intros e h E;
  repeat match type of E with
         | (if ?b then _ else _) = Some _ => destruct b
         end;
  inversion E; subst; clear E.

(** A syntax-directed proof of [emits P m]; [Hnil] and [Happ] close [P]
    under concatenation and [leaf] proves [P] of a single event. *)
Ltac emits_auto Hnil Happ leaf :=
  repeat first
    [ lazymatch goal with
      | |- emits _ (bind _ _) => apply (emits_bind _ Happ); [|intro]
      | |- emits _ (ret _) => apply (emits_ret _ Hnil)
      | |- emits _ pass => apply (emits_ret _ Hnil)
      | |- emits _ (return_ _) => apply (emits_return _ Hnil)
      | |- emits _ (raise _) => apply (emits_raise _ Hnil)
      | |- emits _ (sys_exit _) => apply (emits_raise _ Hnil)
      | |- emits _ (print _) => apply emits_emit; leaf
      | |- emits _ (sleep _) => apply emits_emit; leaf
      | |- emits _ (emit _) => apply emits_emit; leaf
      | |- emits _ (method _ _ _) => apply emits_extern; intro; leaf
      | |- emits _ (extern _ _) => apply emits_extern; intro; leaf
      | |- emits _ (subscript _ _) => apply (emits_subscript _ Hnil)
      | |- emits _ get_controller_var => apply (emits_get_controller_var _ Hnil)
      | |- emits _ (set_controller_var _) => apply (emits_set_controller_var _ Hnil)
      | |- emits _ (call_function _ _) => apply emits_call_function
      | |- emits _ (for_each _ _) => apply (emits_for_each _ Hnil Happ); intro
      | |- emits _ (try_finally _ _) => apply (emits_try_finally _ Happ)
      | |- emits _ (try_except _ _) =>
          apply (emits_try_except _ Happ); [|emits_handler]
      | |- emits _ (if ?b then _ else _) => destruct b
      | |- emits _ (match ?x with _ => _ end) => destruct x
      | |- emits _ (let '(_, _) := ?x in _) => destruct x
      end ].

Lemma never_nil (q : call -> bool) : never q [].
Proof. reflexivity. Qed.

Lemma never_app (q : call -> bool) (a b : list event) :
  never q a -> never q b -> never q (a ++ b).
Proof. unfold never. intros Ha Hb. rewrite forallb_app, Ha, Hb. reflexivity. Qed.

Ltac unfold_script :=
  unfold main, guarded_run, connect_and_run, initialize_and_run,
    main_handlers, main_cleanup, stop_if_controller, construct,
    demo_plate_pickup, print_banner, preflight, run_steps, step,
    move_with_confirmation, print_speed_info, wait_for_operator,
    execute_movement, move_home_and_open_gripper, lambda.

(** X1: with --auto the script never calls [input]: an unattended run cannot
    block on the terminal, whatever the controller does. *)
Theorem auto_confirm_never_prompts (w : world) (args : Namespace) :
  auto args = true ->
  count_calls is_input (trace (snd (run w args))) = 0.
Proof.
  intros Hauto.
  assert (H : emits (never is_input) (main w args)).
  { unfold_script. rewrite Hauto. cbn [negb].
    emits_auto (never_nil is_input) (never_app is_input) ltac:(reflexivity). }
  destruct (H initial_state) as (ext & E & N).
  unfold run. rewrite E. cbn [trace initial_state app].
  apply not_call_count, N.
Qed.

Lemma auto_confirm_never_prompts_witness :
  count_calls is_input (trace (snd (run cancelling_operator_double simulate_auto))) = 0.
Proof.
  exact (auto_confirm_never_prompts cancelling_operator_double simulate_auto
           eq_refl).
Defined.

(* ===================================================================== *)
(** * Faults: every exception stops the robot *)
(* ===================================================================== *)

Lemma fault_pending_nil (e : exn) : fault_pending e [].
Proof. exists [], []. repeat split. left. reflexivity. Qed.

Lemma fault_pending_app (e : exn) (a b : list event) :
  forallb uneventful a = true -> fault_pending e b -> fault_pending e (a ++ b).
Proof.
  intros Ha (pre & fault & -> & Hpre & Hf).
  exists (a ++ pre), fault. rewrite app_assoc, forallb_app, Ha, Hpre.
  repeat split. exact Hf.
Qed.

Lemma stopped_after_fault_app (a b : list event) :
  forallb uneventful a = true -> stopped_after_fault b ->
  stopped_after_fault (a ++ b).
Proof.
  intros Ha (pre & fault & notice & r & -> & Hpre & Hf).
  exists (a ++ pre), fault, notice, r. rewrite app_assoc, forallb_app, Ha, Hpre.
  repeat split. exact Hf.
Qed.

Section Plain.

Context {R : Type}.

Lemma plain_ret {A} (a : A) : plain (@ret R A a).
Proof. intros s. exists []. rewrite push_nil. split; reflexivity. Qed.

Lemma plain_return {A} (r : R) : plain (@return_ R A r).
Proof. intros s. exists []. rewrite push_nil. split; reflexivity. Qed.

Lemma plain_extern (w : world) (c : call) :
  is_stop_motion c = false -> plain (@extern w R c).
Proof.
  intros Hc s. rewrite extern_eq. eexists. split; [reflexivity|].
  cbn [fst]. destruct (respond w (trace s) c) as [b|e].
  - cbn. destruct c; try discriminate Hc; reflexivity.
  - exists [], [Called c (Raises e)]. repeat split. right.
    exists c. split; [reflexivity|exact Hc].
Qed.

Lemma plain_bind {A B} (m : Stmt R A) (k : A -> Stmt R B) :
  plain m -> (forall a, plain (k a)) -> plain (bind m k).
Proof.
  intros Hm Hk s. unfold bind.
  destruct (Hm s) as (e1 & E1 & P1).
  destruct (m s) as [[a|r|e] s1]; cbn [fst snd] in *; subst s1.
  - destruct (Hk a (push s e1)) as (e2 & E2 & P2).
    exists (e1 ++ e2). rewrite E2, push_push. split; [reflexivity|].
    destruct (fst (k a (push s e1))) as [a'|r'|e'].
    + rewrite forallb_app, P1, P2. reflexivity.
    + rewrite forallb_app, P1, P2. reflexivity.
    + apply fault_pending_app; assumption.
  - exists e1. split; [reflexivity|exact P1].
  - exists e1. split; [reflexivity|exact P1].
Qed.

End Plain.

Lemma plain_lambda (w : world) (controller : XArmController) (c : call) :
  is_stop_motion c = false -> plain (lambda (method w controller c)).
Proof.
  intros Hc. unfold lambda, method.
  apply plain_bind; [apply plain_extern, Hc|intros b; apply plain_return].
Qed.

Lemma plain_move_home_and_open_gripper (w : world)
    (controller : XArmController) (joint_speed : pyval) :
  plain (move_home_and_open_gripper w controller joint_speed).
Proof.
  unfold move_home_and_open_gripper, method.
  apply plain_bind; [apply plain_extern; reflexivity|intros b].
  apply plain_bind; [|intros _; apply plain_return].
  destruct b; [|apply plain_ret].
  apply plain_bind; [apply plain_extern; reflexivity|intros _; apply plain_ret].
Qed.

Section FailStop.

Context {A : Type}.

Lemma fail_stop_ret (a : A) : fail_stop (@ret bool A a).
Proof.
  intros s. exists []. rewrite push_nil. repeat split.
Qed.

Lemma fail_stop_return (b : bool) : fail_stop (@return_ bool A b).
Proof.
  intros s. exists []. rewrite push_nil. split; [reflexivity|].
  split; [reflexivity|]. intros _. cbn. destruct b; [exact I|left; reflexivity].
Qed.

Lemma fail_stop_raise (e : exn) : fail_stop (@raise bool A e).
Proof.
  intros s. exists []. rewrite push_nil. split; [reflexivity|].
  split; [intros []|]. intros _. apply fault_pending_nil.
Qed.

End FailStop.

Lemma fail_stop_emit (ev : event) :
  is_printed ev = true -> fail_stop (@emit bool ev).
Proof.
  intros H s. exists [ev]. split; [reflexivity|].
  assert (U : forallb uneventful [ev] = true)
    by (destruct ev; try discriminate H; reflexivity).
  split; [intros _; exact U|]. intros _. exact I.
Qed.

Lemma fail_stop_extern (w : world) (c : call) :
  is_stop_motion c = false -> fail_stop (@extern w bool c).
Proof.
  intros Hc s. rewrite extern_eq. eexists. split; [reflexivity|].
  cbn [fst]. destruct (respond w (trace s) c) as [b|e].
  - assert (U : forallb uneventful [Called c (Returns b)] = true)
      by (destruct c; try discriminate Hc; reflexivity).
    split; [intros _; exact U|]. intros _. exact I.
  - split; [intros []|]. intros _.
    exists [], [Called c (Raises e)]. repeat split. right.
    exists c. split; [reflexivity|exact Hc].
Qed.

Lemma fail_stop_subscript {V} (d : dict V) (k : string) :
  fail_stop (@subscript bool V d k).
Proof.
  unfold subscript. destruct (dict_get k d);
    [apply fail_stop_ret|apply fail_stop_raise].
Qed.

Lemma fail_stop_bind {A B} (m : Stmt bool A) (k : A -> Stmt bool B) :
  fail_stop m -> (forall a, fail_stop (k a)) -> fail_stop (bind m k).
Proof.
  intros Hm Hk s. destruct (Hm s) as (e1 & E1 & G1 & F1). unfold bind.
  destruct (m s) as [[a|r|e] s1]; cbn [fst snd] in *; subst s1.
  - destruct (Hk a (push s e1)) as (e2 & E2 & G2 & F2).
    pose proof (G1 I) as U1.
    exists (e1 ++ e2). rewrite E2, push_push. split; [reflexivity|]. split.
    + intros G. rewrite forallb_app, U1, (G2 G). reflexivity.
    + intros Hs. rewrite existsb_app in Hs.
      apply orb_false_iff in Hs. destruct Hs as [_ Hs]. specialize (F2 Hs).
      destruct (fst (k a (push s e1))) as [a'|[|]|e']; try exact I.
      * destruct F2 as [U2|S2].
        -- left. rewrite forallb_app, U1, U2. reflexivity.
        -- right. apply stopped_after_fault_app; assumption.
      * apply fault_pending_app; assumption.
  - exists e1. split; [reflexivity|]. split; [exact G1|exact F1].
  - exists e1. split; [reflexivity|]. split; [intros []|exact F1].
Qed.

Lemma fail_stop_for_each {X} (xs : list X) (body : X -> Stmt bool unit) :
  (forall x, fail_stop (body x)) -> fail_stop (for_each xs body).
Proof.
  intros Hb. induction xs as [|x xs IH]; cbn [for_each].
  - apply fail_stop_ret.
  - apply fail_stop_bind; [apply Hb|intros _; exact IH].
Qed.

Lemma stop_and_fail_answers (w : world) (s : state) (e : exn) (e1 : list event)
    (o : output) :
  (existsb stop_raised e1 = false -> fault_pending e e1) ->
  exists ext,
    snd (stop_and_fail w (push (push s e1) [Printed o])) = push s ext /\
    (goes_on (fst (stop_and_fail w (push (push s e1) [Printed o]))) ->
     forallb uneventful ext = true) /\
    (existsb stop_raised ext = false ->
     match fst (stop_and_fail w (push (push s e1) [Printed o])) with
     | Normal _ | Returned true => True
     | Returned false =>
         forallb uneventful ext = true \/ stopped_after_fault ext
     | Raised e' => fault_pending e' ext
     end).
Proof.
  intros F1. unfold stop_and_fail.
  destruct (respond w _ stop_motion) as [b|e2]; rewrite !push_push;
    (eexists; split; [reflexivity|]); cbn [fst]; (split; [intros []|]).
  - intros Hs. rewrite existsb_app in Hs.
    apply orb_false_iff in Hs. destruct Hs as [Hs _].
    destruct (F1 Hs) as (pre & fault & -> & Hpre & Hf).
    right. exists pre, fault, o, b. rewrite <- app_assoc. repeat split;
      [exact Hpre|].
    destruct Hf as [->|(c & -> & Hc)]; [left; reflexivity|].
    right. exists c, e. split; [reflexivity|exact Hc].
  - intros Hs. rewrite existsb_app in Hs. cbn in Hs.
    rewrite orb_true_r in Hs. discriminate Hs.
Qed.

Lemma fail_stop_try_except (w : world) (controller : XArmController)
    (body : Stmt bool unit) (handler : exn -> option (Stmt bool unit)) :
  fail_stop body ->
  stops_and_fails w controller handler ->
  fail_stop (try_except body handler).
Proof.
  intros Hb Hh s. unfold try_except.
  destruct (Hb s) as (e1 & E1 & G1 & F1).
  destruct (body s) as [[a|r|e] s1]; cbn [fst snd] in *; subst s1;
    try (exists e1; split; [reflexivity|]; split; assumption).
  destruct (Hh e) as [-> | (o & ->)].
  - exists e1. split; [reflexivity|]. split; assumption.
  - cbv beta iota. rewrite notice_stop_return_eq.
    apply (stop_and_fail_answers w s e e1 o F1).
Qed.

Lemma fail_stop_execute_movement (w : world) (controller : XArmController)
    (movement_func : Stmt bool unit) :
  plain movement_func ->
  fail_stop (execute_movement w controller movement_func).
Proof.
  intros Hf s. rewrite execute_movement_eq. unfold call_function.
  destruct (Hf s) as (ef & E & Pf).
  destruct (movement_func s) as [[[]|[|]|e] s1]; cbn [fst snd] in *; subst s1.
  - eexists. rewrite push_push. split; [reflexivity|].
    split; [intros []|]. intros _. left. rewrite forallb_app, Pf. reflexivity.
  - eexists. rewrite push_push. split; [reflexivity|].
    assert (U : forallb uneventful
                  (ef ++ [Printed (Line "Movement completed successfully");
                          Slept 1]) = true)
      by (rewrite forallb_app, Pf; reflexivity).
    split; [intros _; exact U|]. intros _. exact I.
  - eexists. rewrite push_push. split; [reflexivity|].
    split; [intros []|]. intros _. left. rewrite forallb_app, Pf. reflexivity.
  - destruct (is_KeyboardInterrupt e).
    + apply (stop_and_fail_answers w s e ef _ (fun _ => Pf)).
    + exists ef. split; [reflexivity|]. split; [intros []|].
      intros _. exact Pf.
Qed.

Ltac stops_and_fails_tac :=
  let e := fresh "e" in
  intros e;
  repeat match goal with
         | |- context [if ?b then _ else _] => destruct b
         end;
  first [ left; reflexivity | right; eexists; reflexivity ].

Lemma fail_stop_wait_for_operator (w : world) (controller : XArmController)
    (prompt notice : string) :
  fail_stop (wait_for_operator w controller prompt notice).
Proof.
  unfold wait_for_operator.
  apply (fail_stop_try_except w controller); [|stops_and_fails_tac].
  apply fail_stop_bind; [apply fail_stop_extern; reflexivity|].
  intros _. apply fail_stop_ret.
Qed.

(** One step of a syntax-directed proof of [fail_stop m]. *)
Ltac fail_stop_tac :=
  lazymatch goal with
  | |- fail_stop (bind _ _) => apply fail_stop_bind; [|intro]
  | |- fail_stop (ret _) => apply fail_stop_ret
  | |- fail_stop pass => apply fail_stop_ret
  | |- fail_stop (return_ _) => apply fail_stop_return
  | |- fail_stop (raise _) => apply fail_stop_raise
  | |- fail_stop (print _) => apply fail_stop_emit; reflexivity
  | |- fail_stop (sleep _) => apply fail_stop_emit; reflexivity
  | |- fail_stop (subscript _ _) => apply fail_stop_subscript
  | |- fail_stop (method _ _ _) => apply fail_stop_extern; reflexivity
  | |- fail_stop (extern _ _) => apply fail_stop_extern; reflexivity
  | |- fail_stop (for_each _ _) => apply fail_stop_for_each; intro
  | |- fail_stop (wait_for_operator _ _ _ _) =>
      apply fail_stop_wait_for_operator
  | |- fail_stop (if ?b then _ else _) => destruct b
  | |- fail_stop (match ?x with _ => _ end) => destruct x
  | |- fail_stop (let '(_, _) := ?x in _) => destruct x
  end.

Lemma fail_stop_move_with_confirmation (w : world)
    (controller : XArmController) (movement_func : Stmt bool unit)
    (description : string) (auto_confirm : bool) (speed_info : option config) :
  plain movement_func ->
  fail_stop (move_with_confirmation w controller movement_func description
               auto_confirm speed_info).
Proof.
  intros Hf. unfold move_with_confirmation, print_speed_info.
  repeat fail_stop_tac.
  all: apply fail_stop_execute_movement, Hf.
Qed.

Lemma fail_stop_step (w : world) (controller : XArmController)
    (movement_func : Stmt bool unit) (description : string)
    (auto_confirm : bool) (speed_info : config) :
  plain movement_func ->
  fail_stop (step w controller movement_func description auto_confirm
               speed_info).
Proof.
  intros Hf s. rewrite step_eq.
  destruct (fail_stop_move_with_confirmation w controller movement_func
              description auto_confirm (Some speed_info) Hf s)
    as (ext & E & G & F).
  exists ext.
  destruct (move_with_confirmation _ _ _ _ _ _ s) as [[[]|[|]|e] s1];
    cbn [fst snd] in *; subst s1; (split; [reflexivity|]).
  - split; [intros []|]. intros _. left. exact (G I).
  - split; [intros _; exact (G I)|]. intros _. exact I.
  - split; [intros []|]. exact F.
  - split; [intros []|]. exact F.
Qed.

(** Lines 126-262: what the [try] of the demo encloses. *)
Lemma fail_stop_demo_body (w : world) (controller : XArmController)
    (auto_confirm : bool) (speeds : dict config) :
  fail_stop
    (print_banner speeds ;;
     (if negb auto_confirm then
        wait_for_operator w controller
          "Press Enter to start the demo (Ctrl+C to abort)..."
          "Demo aborted by user"
      else pass) ;;
     preflight w controller ;;
     run_steps w controller auto_confirm speeds).
Proof.
  unfold print_banner, preflight, run_steps.
  repeat first
    [ lazymatch goal with
      | |- fail_stop (step _ _ (move_home_and_open_gripper _ _ _) _ _ _) =>
          apply fail_stop_step, plain_move_home_and_open_gripper
      | |- fail_stop (step _ _ (lambda _) _ _ _) =>
          apply fail_stop_step, plain_lambda; reflexivity
      end
    | fail_stop_tac ].
Qed.

Lemma demo_handlers_stop_and_fail (w : world) (controller : XArmController) :
  stops_and_fails w controller
    (fun e =>
       if is_KeyboardInterrupt e then
         Some (print (Line (nl ++ "Demo sequence interrupted by user")) ;;
               _ <- method w controller stop_motion ;;
               return_ false)
       else if is_Exception e then
         Some (print (SequenceFailedWith e) ;;
               _ <- method w controller stop_motion ;;
               return_ false)
       else None).
Proof.
  intros e. destruct e as [|code|kind]; cbn [is_KeyboardInterrupt is_Exception].
  - right. eexists. reflexivity.
  - left. reflexivity.
  - right. eexists. reflexivity.
Qed.

Lemma fail_stop_demo_plate_pickup (w : world) (controller : XArmController)
    (auto_confirm : bool) (custom_speeds : option (dict config)) :
  fail_stop (demo_plate_pickup w controller auto_confirm custom_speeds).
Proof.
  unfold demo_plate_pickup.
  apply (fail_stop_try_except w controller).
  - apply fail_stop_demo_body.
  - apply demo_handlers_stop_and_fail.
Qed.

Lemma always_leaves_bind {R A B} (m : Stmt R A) (k : A -> Stmt R B) :
  (forall a, always_leaves (k a)) -> always_leaves (bind m k).
Proof.
  intros Hk s. unfold bind. destruct (m s) as [[a|r|e] s1]; cbn [fst];
    [apply Hk|exact I|exact I].
Qed.

Lemma always_leaves_return {R A} (r : R) : always_leaves (@return_ R A r).
Proof. intros s. exact I. Qed.

Lemma always_leaves_try_except {R A} (body : Stmt R A)
    (handler : exn -> option (Stmt R A)) :
  always_leaves body ->
  (forall e h, handler e = Some h -> always_leaves h) ->
  always_leaves (try_except body handler).
Proof.
  intros Hb Hh s. unfold try_except. specialize (Hb s).
  destruct (body s) as [[a|r|e] s1]; cbn [fst] in *; try exact I; try exact Hb.
  destruct (handler e) as [h|] eqn:E; [apply (Hh e h E)|exact I].
Qed.

(** The demo never falls off its end: it returns or raises. *)
Lemma demo_plate_pickup_always_leaves (w : world) (controller : XArmController)
    (auto_confirm : bool) (custom_speeds : option (dict config)) :
  always_leaves (demo_plate_pickup w controller auto_confirm custom_speeds).
Proof.
  unfold demo_plate_pickup. apply always_leaves_try_except.
  - cbv zeta. unfold run_steps.
    repeat (apply always_leaves_bind; intro). apply always_leaves_return.
  - emits_handler; repeat (apply always_leaves_bind; intro);
      apply always_leaves_return.
Qed.

(** What escapes a [try] whose handlers stop the robot: an exception no
    handler is for, or whatever a failing [stop_motion()] raised. *)
Lemma try_except_escapes (w : world) (controller : XArmController)
    (body : Stmt bool unit) (handler : exn -> option (Stmt bool unit))
    (s : state) (ext : list event) (e : exn) :
  fail_stop body ->
  stops_and_fails w controller handler ->
  snd (try_except body handler s) = push s ext ->
  fst (try_except body handler s) = Raised e ->
  handler e = None \/ existsb stop_raised ext = true.
Proof.
  intros Hb Hh. unfold try_except.
  destruct (Hb s) as (e1 & E1 & _).
  destruct (body s) as [[a|r|e0] s1]; cbn [fst snd] in *; subst s1;
    try discriminate.
  destruct (Hh e0) as [Hn | (o & Ho)].
  - rewrite Hn. cbn [fst snd]. intros _ H. injection H as <-. left. exact Hn.
  - rewrite Ho. cbv beta iota. rewrite notice_stop_return_eq.
    unfold stop_and_fail.
    destruct (respond w _ stop_motion) as [b|e2]; cbn [fst snd];
      [discriminate|].
    rewrite !push_push. intros Hs _. apply push_inj in Hs. subst ext.
    right. rewrite !existsb_app. cbn. rewrite !orb_true_r. reflexivity.
Qed.

(** What can escape the demo: SystemExit, or whatever a failing
    [stop_motion()] raised inside a handler. *)
Lemma demo_plate_pickup_escapes (w : world) (controller : XArmController)
    (auto_confirm : bool) (custom_speeds : option (dict config))
    (s : state) (ext : list event) (e : exn) :
  snd (demo_plate_pickup w controller auto_confirm custom_speeds s) =
    push s ext ->
  fst (demo_plate_pickup w controller auto_confirm custom_speeds s) =
    Raised e ->
  is_SystemExit e = true \/ existsb stop_raised ext = true.
Proof.
  intros Hs He.
  destruct (try_except_escapes w controller _ _ s ext e
              (fail_stop_demo_body w controller auto_confirm
                 (effective_speeds custom_speeds))
              (demo_handlers_stop_and_fail w controller) Hs He) as [Hn|Hx];
    [left|right; exact Hx].
  destruct e as [|code|kind]; cbn in Hn; try discriminate Hn. reflexivity.
Qed.

Lemma uneventful_facts (ext : list event) :
  forallb uneventful ext = true ->
  existsb raised ext = false /\
  count_calls is_stop_motion ext = 0 /\
  (forall c e, ~ In (Called c (Raises e)) ext).
Proof.
  induction ext as [|ev ext IH]; cbn [forallb existsb]; intros H.
  - repeat split. intros c e [].
  - apply andb_true_iff in H. destruct H as [H1 H2].
    destruct (IH H2) as (R & S & N).
    unfold uneventful in H1. apply andb_true_iff in H1.
    destruct H1 as [Hr Hs]. apply negb_true_iff in Hr, Hs.
    rewrite Hr, R. split; [reflexivity|]. split.
    + change (ev :: ext) with ([ev] ++ ext). rewrite count_calls_app, S.
      destruct ev as [c r|o|n]; try reflexivity.
      destruct c; try reflexivity. discriminate Hs.
    + intros c e [->|Hin]; [discriminate Hr|exact (N c e Hin)].
Qed.

(** X2: fail-stop.  Whatever call raises KeyboardInterrupt or an Exception
    during the demo (a prompt, the track query, a move, the gripper), and
    provided stop_motion() itself returns: the failing call is followed by
    one notice and one stop_motion() call and by nothing else, no call
    raised and nothing was stopped before it, stop_motion() was called
    exactly once, and the demo returns [False]. *)
Theorem fault_stops_the_robot_once
    (w : world) (controller : XArmController) (auto_confirm : bool)
    (custom_speeds : option (dict config)) (s : state) (ext : list event)
    (c : call) (e : exn) :
  snd (demo_plate_pickup w controller auto_confirm custom_speeds s) =
    push s ext ->
  In (Called c (Raises e)) ext ->
  is_SystemExit e = false ->
  existsb stop_raised ext = false ->
  fst (demo_plate_pickup w controller auto_confirm custom_speeds s) =
    Returned false /\
  count_calls is_stop_motion ext = 1 /\
  exists pre notice b,
    ext = pre ++ [Called c (Raises e); Printed notice;
                  Called stop_motion (Returns b)] /\
    forallb uneventful pre = true.
Proof.
  intros Hs Hin He Hx.
  destruct (fail_stop_demo_plate_pickup w controller auto_confirm custom_speeds s)
    as (ext' & E & G & F).
  rewrite Hs in E. apply push_inj in E. subst ext'. specialize (F Hx).
  pose proof (demo_plate_pickup_always_leaves w controller auto_confirm
                custom_speeds s) as L.
  pose proof (demo_plate_pickup_escapes w controller auto_confirm
                custom_speeds s ext) as X.
  destruct (fst (demo_plate_pickup w controller auto_confirm custom_speeds s))
    as [a|[|]|e'].
  - destruct L.
  - destruct (uneventful_facts ext (G I)) as (_ & _ & N).
    destruct (N c e Hin).
  - destruct F as [U|(pre & fault & notice & b & -> & Hpre & Hf)].
    + destruct (uneventful_facts ext U) as (_ & _ & N). destruct (N c e Hin).
    + destruct (uneventful_facts pre Hpre) as (_ & Sp & Np).
      apply in_app_or in Hin. destruct Hin as [Hin|Hin]; [destruct (Np c e Hin)|].
      apply in_app_or in Hin. destruct Hin as [Hin|Hin].
      * destruct Hf as [->|(c0 & e0 & -> & Hc0)]; [destruct Hin|].
        destruct Hin as [Heq|[]]. injection Heq as -> ->.
        split; [reflexivity|]. split.
        -- rewrite !count_calls_app, Sp. unfold count_calls. cbn.
           rewrite Hc0. reflexivity.
        -- exists pre, notice, b. split; [reflexivity|exact Hpre].
      * destruct Hin as [Heq|[Heq|[]]]; discriminate Heq.
  - destruct (X e' Hs eq_refl) as [Hse|Hsr]; [|congruence].
    destruct F as (pre & fault & -> & Hpre & Hf).
    destruct (uneventful_facts pre Hpre) as (_ & _ & Np).
    apply in_app_or in Hin. destruct Hin as [Hin|Hin]; [destruct (Np c e Hin)|].
    destruct Hf as [->|(c0 & -> & Hc0)]; [destruct Hin|].
    destruct Hin as [Heq|[]]. injection Heq as _ ->. congruence.
Qed.

Lemma fault_stops_the_robot_once_witness :
  fst (demo_plate_pickup faulty_track_double rig true None initial_state) =
    Returned false /\
  calls (trace (snd (demo_plate_pickup faulty_track_double rig true None
                       initial_state))) =
    [ (is_component_enabled "track", Returns true);
      (move_to_named_location "robot_home" (VInt 20), Returns true);
      (open_gripper, Returns true);
      (move_track_to_named_location "Local_1" (VInt 150),
       Raises (PyException "TrackError"));
      (stop_motion, Returns true) ].
Proof.
  split; [|vm_compute; reflexivity].
  refine (proj1 (fault_stops_the_robot_once faulty_track_double rig true None
                   initial_state
                   (trace (snd (demo_plate_pickup faulty_track_double rig true
                                  None initial_state)))
                   (move_track_to_named_location "Local_1" (VInt 150))
                   (PyException "TrackError") eq_refl _ eq_refl eq_refl)).
  vm_compute. auto 40.
Defined.

(** X3: KeyboardInterrupt and Exceptions never escape the demo: as long as
    stop_motion() itself returns, the demo returns a boolean, or lets a
    SystemExit through. *)
Theorem demo_turns_exceptions_into_false
    (w : world) (controller : XArmController) (auto_confirm : bool)
    (custom_speeds : option (dict config)) (s : state) (ext : list event) :
  snd (demo_plate_pickup w controller auto_confirm custom_speeds s) =
    push s ext ->
  existsb stop_raised ext = false ->
  (exists b,
     fst (demo_plate_pickup w controller auto_confirm custom_speeds s) =
       Returned b) \/
  (exists code,
     fst (demo_plate_pickup w controller auto_confirm custom_speeds s) =
       Raised (SystemExit code)).
Proof.
  intros Hs Hx.
  pose proof (demo_plate_pickup_always_leaves w controller auto_confirm
                custom_speeds s) as L.
  pose proof (demo_plate_pickup_escapes w controller auto_confirm
                custom_speeds s ext) as X.
  destruct (fst (demo_plate_pickup w controller auto_confirm custom_speeds s))
    as [a|b|e].
  - destruct L.
  - left. exists b. reflexivity.
  - destruct (X e Hs eq_refl) as [Hse|Hsr]; [|congruence].
    destruct e as [|code|kind]; try discriminate Hse.
    right. exists code. reflexivity.
Qed.

Lemma demo_turns_exceptions_into_false_witness :
  exists b,
    fst (demo_plate_pickup faulty_track_double rig true None initial_state) =
      Returned b.
Proof.
  destruct (demo_turns_exceptions_into_false faulty_track_double rig true None
              initial_state
              (trace (snd (demo_plate_pickup faulty_track_double rig true None
                             initial_state)))
              eq_refl eq_refl) as [H|[code H]].
  - exact H.
  - vm_compute in H. discriminate H.
Defined.

(** X4: the demo returns [True] only if no call raised and stop_motion()
    was never called. *)
Theorem success_means_nothing_raised
    (w : world) (controller : XArmController) (auto_confirm : bool)
    (custom_speeds : option (dict config)) (s : state) (ext : list event) :
  snd (demo_plate_pickup w controller auto_confirm custom_speeds s) =
    push s ext ->
  fst (demo_plate_pickup w controller auto_confirm custom_speeds s) =
    Returned true ->
  existsb raised ext = false /\ count_calls is_stop_motion ext = 0.
Proof.
  intros Hs Hr.
  destruct (fail_stop_demo_plate_pickup w controller auto_confirm custom_speeds s)
    as (ext' & E & G & _).
  rewrite Hs in E. apply push_inj in E. subst ext'.
  rewrite Hr in G. destruct (uneventful_facts ext (G I)) as (R & S & _).
  split; assumption.
Qed.

Lemma success_means_nothing_raised_witness :
  count_calls is_stop_motion
    (trace (snd (demo_plate_pickup succeeding_double rig false None
                   initial_state))) = 0.
Proof.
  exact (proj2 (success_means_nothing_raised succeeding_double rig false None
                  initial_state
                  (trace (snd (demo_plate_pickup succeeding_double rig false
                                 None initial_state)))
                  eq_refl eq_refl)).
Defined.

(** X5: stop_motion() ends the demo.  Provided stop_motion() itself returns,
    the demo calls it at most once, and when it does, that call is the last
    event of the demo, which returns [False]: no movement, prompt or query
    follows a stop. *)
Theorem stop_motion_is_the_last_thing
    (w : world) (controller : XArmController) (auto_confirm : bool)
    (custom_speeds : option (dict config)) (s : state) (ext : list event) :
  snd (demo_plate_pickup w controller auto_confirm custom_speeds s) =
    push s ext ->
  existsb stop_raised ext = false ->
  count_calls is_stop_motion ext = 0 \/
  (fst (demo_plate_pickup w controller auto_confirm custom_speeds s) =
     Returned false /\
   exists pre b,
     ext = pre ++ [Called stop_motion (Returns b)] /\
     count_calls is_stop_motion pre = 0).
Proof.
  intros Hs Hx.
  destruct (fail_stop_demo_plate_pickup w controller auto_confirm custom_speeds s)
    as (ext' & E & G & F).
  rewrite Hs in E. apply push_inj in E. subst ext'. specialize (F Hx).
  destruct (fst (demo_plate_pickup w controller auto_confirm custom_speeds s))
    as [a|[|]|e'].
  - left. apply (uneventful_facts ext (G I)).
  - left. apply (uneventful_facts ext (G I)).
  - destruct F as [U|(pre & fault & notice & b & -> & Hpre & Hf)].
    + left. apply (uneventful_facts ext U).
    + right. split; [reflexivity|].
      exists (pre ++ fault ++ [Printed notice]), b.
      split; [rewrite <- !app_assoc; reflexivity|].
      destruct (uneventful_facts pre Hpre) as (_ & Sp & _).
      rewrite !count_calls_app, Sp.
      destruct Hf as [->|(c0 & e0 & -> & Hc0)]; [reflexivity|].
      unfold count_calls. cbn. rewrite Hc0. reflexivity.
  - left. destruct F as (pre & fault & -> & Hpre & Hf).
    destruct (uneventful_facts pre Hpre) as (_ & Sp & _).
    rewrite count_calls_app, Sp.
    destruct Hf as [->|(c0 & -> & Hc0)]; [reflexivity|].
    unfold count_calls. cbn. rewrite Hc0. reflexivity.
Qed.

Lemma stop_motion_is_the_last_thing_witness :
  exists pre b,
    trace (snd (demo_plate_pickup faulty_track_double rig true None
                  initial_state)) =
      pre ++ [Called stop_motion (Returns b)] /\
    count_calls is_stop_motion pre = 0.
Proof.
  destruct (stop_motion_is_the_last_thing faulty_track_double rig true None
              initial_state
              (trace (snd (demo_plate_pickup faulty_track_double rig true None
                             initial_state)))
              eq_refl eq_refl) as [H|[_ H]].
  - vm_compute in H. discriminate H.
  - exact H.
Defined.

(* ===================================================================== *)
(** * Exceptions of the movement action *)
(* ===================================================================== *)

(** X6: an exception raised by the movement action, once the runner runs
    it.  A KeyboardInterrupt is answered on the spot: the runner prints its
    notice, calls stop_motion() once and, provided that call returns,
    returns [False].  Any other
    exception leaves the runner as it came: the runner adds no event, in
    particular no stop_motion() call. *)
Theorem runner_answers_only_an_interrupt
    (w : world) (controller : XArmController) (movement_func : Stmt bool unit)
    (description : string) (auto_confirm : bool) (speed_info : option config)
    (s s1 : state) (r : bool) (e : exn) :
  let asked :=
    if auto_confirm then [] else [Called (input step_prompt) (Returns r)] in
  let notice :=
    Printed (Line (nl ++ "Movement interrupted - stopping robot immediately!")) in
  let result :=
    @call_function bool bool unit false
      (move_with_confirmation w controller movement_func description
         auto_confirm speed_info) s in
  (auto_confirm = false ->
   respond w (trace s ++ runner_prelude description speed_info)
     (input step_prompt) = Returns r) ->
  @call_function bool bool unit false movement_func
    (push s (runner_prelude description speed_info ++ asked ++
             [Printed (Line "Executing movement...")])) = (Raised e, s1) ->
  (is_KeyboardInterrupt e = true ->
   forall b,
     respond w (trace s1 ++ [notice]) stop_motion = Returns b ->
     result = (Normal false, push s1 [notice; Called stop_motion (Returns b)])) /\
  (is_KeyboardInterrupt e = false -> result = (Raised e, s1)).
Proof.
  intros asked notice result Hask Hrun. subst result asked notice.
  assert (E : move_with_confirmation w controller movement_func description
                auto_confirm speed_info s =
              if is_KeyboardInterrupt e then
                stop_and_fail w
                  (push s1 [Printed (Line (nl ++ "Movement interrupted - stopping robot immediately!"))])
              else (Raised e, s1)).
  { rewrite move_with_confirmation_eq. cbv zeta.
    destruct auto_confirm.
    - cbn [app] in Hrun. rewrite <- push_push in Hrun.
      rewrite execute_movement_eq, Hrun. reflexivity.
    - rewrite wait_for_operator_eq. rewrite trace_push, (Hask eq_refl).
      rewrite !push_push. rewrite execute_movement_eq.
      rewrite Hrun. reflexivity. }
  unfold call_function. rewrite E. split.
  - intros -> b Hb. unfold stop_and_fail. rewrite trace_push, Hb.
    rewrite push_push. reflexivity.
  - intros ->. reflexivity.
Qed.

Lemma runner_answers_only_an_interrupt_witness :
  fst (@call_function bool bool unit false
         (move_with_confirmation interrupted_move_double rig
            (lambda (method interrupted_move_double rig
                       (move_to_named_location "deck_low" (VInt 8))))
            "Step 4: Joint movement to deck_low position (approach plate)"
            true None)
         initial_state) = Normal false /\
  fst (@call_function bool bool unit false
         (move_with_confirmation faulty_track_double rig
            (lambda (method faulty_track_double rig
                       (move_track_to_named_location "Local_1" (VInt 150))))
            "Step 2: Moving linear track to Local_1 position" true None)
         initial_state) = Raised (PyException "TrackError").
Proof.
  split.
  - rewrite (proj1 (runner_answers_only_an_interrupt interrupted_move_double rig
              (lambda (method interrupted_move_double rig
                         (move_to_named_location "deck_low" (VInt 8))))
              "Step 4: Joint movement to deck_low position (approach plate)"
              true None initial_state _ true KeyboardInterrupt
              (fun H => match Bool.diff_true_false H with end) eq_refl)
              eq_refl true eq_refl).
    reflexivity.
  - rewrite (proj2 (runner_answers_only_an_interrupt faulty_track_double rig
              (lambda (method faulty_track_double rig
                         (move_track_to_named_location "Local_1" (VInt 150))))
              "Step 2: Moving linear track to Local_1 position"
              true None initial_state _ true (PyException "TrackError")
              (fun H => match Bool.diff_true_false H with end) eq_refl)
              eq_refl).
    reflexivity.
Defined.

(* ===================================================================== *)
(** * The top-level run around the demo *)
(* ===================================================================== *)

Lemma guarded_run_connected (w : world) (args : Namespace)
    (custom : option (dict config)) (s : state) (bc : bool) :
  respond w (trace s) (constructor_call args) = Returns bc ->
  guarded_run w (simulate args) (auto args) custom s =
  try_finally
    (try_except
       (initialize_and_run w (the_controller w) (auto args) custom)
       (main_handlers w))
    (main_cleanup w) (connected w args s bc).
Proof.
  intros Hc. unfold guarded_run, try_finally, connect_and_run.
  rewrite (try_except_after _ _ _ _ (push s [Called (constructor_call args)
                                              (Returns bc)])
             (the_controller w)).
  2:{ unfold constructor_call in *. unfold construct, bind.
      destruct (simulate args); rewrite (extern_returns w _ s bc Hc);
        reflexivity. }
  unfold try_except. unfold bind at 1. unfold set_controller_var at 1.
  reflexivity.
Qed.

Lemma main_cleanup_eq (w : world) (s : state) (c : XArmController) :
  controller_var s = Some c ->
  main_cleanup w s =
  match respond w (trace s) disconnect with
  | Returns b =>
      (Normal tt,
       push s [Called disconnect (Returns b);
               Printed (Line "Controller disconnected")])
  | Raises e => (Raised e, push s [Called disconnect (Raises e)])
  end.
Proof.
  intros Hv. unfold main_cleanup, bind, get_controller_var, method.
  rewrite Hv, extern_eq.
  destruct (respond w (trace s) disconnect); [|reflexivity].
  unfold print. rewrite emit_eq, push_push. reflexivity.
Qed.

Lemma constructor_answers (w : world) (args : Namespace) (r : reply) :
  (forall p sm ae, answers w (XArmController_new p sm ae) r) ->
  answers w (constructor_call args) r.
Proof. intros H. unfold constructor_call. destruct (simulate args); apply H. Qed.

(** X7: when initialize() returns [False] (the constructor and disconnect()
    returning), main prints "Failed to initialize controller" and returns:
    the demo is not started, nothing is asked of the operator or of the
    robot, stop_motion() is not called, the controller is disconnected, and
    the process exits with status 0. *)
Theorem failed_initialization_skips_the_demo
    (w : world) (args : Namespace) (bc bd : bool) :
  flags_ok args = true ->
  (forall p sm ae, answers w (XArmController_new p sm ae) (Returns bc)) ->
  answers w initialize (Returns false) ->
  answers w disconnect (Returns bd) ->
  fst (run w args) = Returned tt /\
  exit_status (fst (run w args)) = 0%Z /\
  calls (trace (snd (run w args))) =
    [ (constructor_call args, Returns bc);
      (initialize, Returns false);
      (disconnect, Returns bd) ] /\
  In (Printed (Line "Failed to initialize controller"))
     (trace (snd (run w args))).
Proof.
  intros F Hctor Hinit Hdisc.
  assert (E : run w args =
              (Returned tt,
               push (connected w args (push initial_state (main_banner args)) bc)
                 [Called initialize (Returns false);
                  Printed (Line "Failed to initialize controller");
                  Called disconnect (Returns bd);
                  Printed (Line "Controller disconnected")])).
  { unfold run.
    destruct (main_accepts w args initial_state F) as (custom & _ & ->).
    rewrite (guarded_run_connected w args custom _ bc
               (constructor_answers w args _ Hctor _)).
    unfold try_finally, try_except, initialize_and_run, method.
    unfold bind at 1. rewrite (extern_returns w initialize _ false (Hinit _)).
    cbn [negb]. unfold bind at 1. unfold bind at 1. unfold print at 1.
    rewrite emit_eq. unfold return_ at 1.
    rewrite main_cleanup_eq with (c := the_controller w) by reflexivity.
    rewrite (Hdisc _).
    rewrite !push_push. reflexivity. }
  rewrite E. cbn [fst snd]. split; [reflexivity|]. split; [reflexivity|].
  split.
  - cbn [trace push connected initial_state app]. rewrite !calls_app.
    unfold constructor_call. destruct (simulate args); reflexivity.
  - cbn [trace push]. apply in_or_app. right. cbn. auto.
Qed.

Lemma failed_initialization_skips_the_demo_witness :
  calls (trace (snd (run dead_robot_double simulate_auto))) =
    [ (XArmController_new None true true, Returns true);
      (initialize, Returns false);
      (disconnect, Returns true) ].
Proof.
  exact (proj1 (proj2 (proj2 (failed_initialization_skips_the_demo
           dead_robot_double simulate_auto true true eq_refl
           (fun _ _ _ _ => eq_refl) (fun _ => eq_refl) (fun _ => eq_refl))))).
Defined.

Lemma stop_if_controller_eq (w : world) (notice : string) (s : state)
    (c : XArmController) :
  controller_var s = Some c ->
  @stop_if_controller w unit notice s =
  if truthy c then
    match respond w (trace s ++ [Printed (Line notice)]) stop_motion with
    | Returns b =>
        (Normal tt, push s [Printed (Line notice); Called stop_motion (Returns b)])
    | Raises e =>
        (Raised e, push s [Printed (Line notice); Called stop_motion (Raises e)])
    end
  else (Normal tt, s).
Proof.
  intros Hv. unfold stop_if_controller, bind, get_controller_var, method.
  rewrite Hv. destruct (truthy c); [|reflexivity].
  unfold print. rewrite emit_eq, extern_eq, trace_push.
  destruct (respond w _ stop_motion); rewrite push_push; reflexivity.
Qed.

(** X8: a KeyboardInterrupt or an Exception raised by initialize() is caught
    by main: stop_motion() is called once if the controller object is
    truthy (and not at all otherwise), the controller is disconnected, the
    demo is never started and, provided stop_motion() and disconnect()
    return, the exception does not reach the caller: the run completes
    normally. *)
Theorem fault_during_initialize_is_swallowed
    (w : world) (args : Namespace) (bc bs bd : bool) (e : exn) :
  flags_ok args = true ->
  (forall p sm ae, answers w (XArmController_new p sm ae) (Returns bc)) ->
  answers w initialize (Raises e) ->
  is_SystemExit e = false ->
  answers w stop_motion (Returns bs) ->
  answers w disconnect (Returns bd) ->
  fst (run w args) = Normal tt /\
  calls (trace (snd (run w args))) =
    [ (constructor_call args, Returns bc); (initialize, Raises e) ] ++
    (if truthy (the_controller w) then [(stop_motion, Returns bs)] else []) ++
    [ (disconnect, Returns bd) ].
Proof.
  intros F Hctor Hinit He Hstop Hdisc.
  assert (E : exists s',
            run w args = (Normal tt, s') /\
            calls (trace s') =
              [ (constructor_call args, Returns bc); (initialize, Raises e) ] ++
              (if truthy (the_controller w) then [(stop_motion, Returns bs)]
               else []) ++
              [ (disconnect, Returns bd) ]).
  2:{ destruct E as (s' & -> & C). split; [reflexivity|exact C]. }
  unfold run.
  destruct (main_accepts w args initial_state F) as (custom & _ & ->).
  rewrite (guarded_run_connected w args custom _ bc
             (constructor_answers w args _ Hctor _)).
  set (s1 := connected w args (push initial_state (main_banner args)) bc).
  assert (C1 : calls (trace s1) = [(constructor_call args, Returns bc)]).
  { subst s1. cbn [trace push connected initial_state app].
    rewrite calls_app. unfold constructor_call.
    destruct (simulate args); reflexivity. }
  assert (V1 : controller_var s1 = Some (the_controller w)) by reflexivity.
  clearbody s1.
  unfold try_finally, try_except, initialize_and_run, method.
  unfold bind at 1. rewrite (extern_raises w initialize _ e (Hinit _)).
  unfold main_handlers.
  destruct e as [|code|kind]; try discriminate He;
    cbn [is_KeyboardInterrupt is_Exception].
  - unfold bind at 1. unfold print at 1. rewrite emit_eq.
    rewrite stop_if_controller_eq with (c := the_controller w) by exact V1.
    destruct (truthy (the_controller w)).
    + rewrite (Hstop _).
      rewrite main_cleanup_eq with (c := the_controller w) by exact V1.
      rewrite (Hdisc _). rewrite !push_push.
      eexists. split; [reflexivity|].
      rewrite trace_push, calls_app, C1. reflexivity.
    + rewrite main_cleanup_eq with (c := the_controller w) by exact V1.
      rewrite (Hdisc _). rewrite !push_push.
      eexists. split; [reflexivity|].
      rewrite trace_push, calls_app, C1. reflexivity.
  - unfold bind at 1. unfold print at 1. rewrite emit_eq.
    unfold bind at 1.
    rewrite stop_if_controller_eq with (c := the_controller w) by exact V1.
    destruct (truthy (the_controller w)).
    + rewrite (Hstop _). unfold print at 1. rewrite emit_eq.
      rewrite main_cleanup_eq with (c := the_controller w) by exact V1.
      rewrite (Hdisc _). rewrite !push_push.
      eexists. split; [reflexivity|].
      rewrite trace_push, calls_app, C1. reflexivity.
    + unfold print at 1. rewrite emit_eq.
      rewrite main_cleanup_eq with (c := the_controller w) by exact V1.
      rewrite (Hdisc _). rewrite !push_push.
      eexists. split; [reflexivity|].
      rewrite trace_push, calls_app, C1. reflexivity.
Qed.

Lemma fault_during_initialize_is_swallowed_witness :
  calls (trace (snd (run failing_initialize_double simulate_auto))) =
    [ (XArmController_new None true true, Returns true);
      (initialize, Raises (PyException "InitError"));
      (stop_motion, Returns true);
      (disconnect, Returns true) ].
Proof.
  exact (proj2 (fault_during_initialize_is_swallowed
           failing_initialize_double simulate_auto true true true
           (PyException "InitError") eq_refl
           (fun _ _ _ _ => eq_refl) (fun _ => eq_refl) eq_refl
           (fun _ => eq_refl) (fun _ => eq_refl))).
Defined.

(** A run whose controller connects and initializes, around a demo whose
    outcome is known: what the controller sees and what is printed. *)
Lemma run_around_demo (w : world) (args : Namespace) (bc bt bg bd b : bool)
    (seen : option (dict config) -> list (call * reply)) :
  flags_ok args = true ->
  (forall p sm ae, answers w (XArmController_new p sm ae) (Returns bc)) ->
  answers w initialize (Returns true) ->
  answers w (is_component_enabled "track") (Returns bt) ->
  answers w has_gripper (Returns bg) ->
  answers w disconnect (Returns bd) ->
  (forall custom s,
     build_custom_speeds (fst (resolve_speed args)) = Some custom ->
     exists ed,
       demo_plate_pickup w (the_controller w) (auto args) custom s =
         (Returned b, push s ed) /\
       robot_calls ed = seen custom) ->
  exists custom s',
    build_custom_speeds (fst (resolve_speed args)) = Some custom /\
    run w args = (Normal tt, s') /\
    robot_calls (trace s') =
      [ (constructor_call args, Returns bc);
        (initialize, Returns true);
        (is_component_enabled "track", Returns bt);
        (has_gripper, Returns bg) ] ++
      seen custom ++ [ (disconnect, Returns bd) ] /\
    In (Printed (Line (verdict b))) (trace s') /\
    (bt = false ->
     In (Printed (Line "Warning: Linear track not enabled. Some movements may fail."))
        (trace s')) /\
    (bg = false ->
     In (Printed (Line "Warning: No gripper configured. Plate pickup will not work."))
        (trace s')).
Proof.
  intros F Hctor Hinit Htrack Hgrip Hdisc Hdemo.
  unfold run.
  destruct (main_accepts w args initial_state F) as (custom & Hb & ->).
  exists custom.
  rewrite (guarded_run_connected w args custom _ bc
             (constructor_answers w args _ Hctor _)).
  set (s1 := connected w args (push initial_state (main_banner args)) bc).
  assert (C1 : robot_calls (trace s1) = [(constructor_call args, Returns bc)]).
  { subst s1. cbn [trace push connected initial_state app].
    rewrite robot_calls_app. unfold constructor_call.
    destruct (simulate args); reflexivity. }
  assert (V1 : controller_var s1 = Some (the_controller w)) by reflexivity.
  clearbody s1.
  assert (Ebody : exists ext,
            initialize_and_run w (the_controller w) (auto args) custom s1 =
              (Normal tt, push s1 ext) /\
            robot_calls ext =
              [ (initialize, Returns true);
                (is_component_enabled "track", Returns bt);
                (has_gripper, Returns bg) ] ++ seen custom /\
            In (Printed (Line (verdict b))) ext /\
            (bt = false ->
             In (Printed (Line "Warning: Linear track not enabled. Some movements may fail."))
                ext) /\
            (bg = false ->
             In (Printed (Line "Warning: No gripper configured. Plate pickup will not work."))
                ext)).
  { unfold initialize_and_run, method.
    returns_with Hinit. returns_with Htrack.
    destruct bt.
    all: returns_with Hgrip.
    all: destruct bg.
    all: cbn -[extern push demo_plate_pickup call_function].
    all: unfold bind at 1; unfold call_function at 1.
    all: match goal with
         | |- context [demo_plate_pickup ?w' ?c ?a ?cu ?s] =>
             destruct (Hdemo cu s Hb) as (ed & Ed & Cd)
         end.
    all: rewrite Ed.
    all: destruct b; cbn -[push print].
    all: unfold print; rewrite emit_eq; fold_push; rewrite !push_push.
    all: eexists; (split; [reflexivity|]).
    all: rewrite ?robot_calls_app, Cd.
    all: split; [cbn; rewrite ?app_nil_r; reflexivity|].
    all: split; [repeat (apply in_or_app; right); cbn; auto|].
    all: split; intros Hf; try discriminate Hf.
    all: cbn; auto 10. }
  destruct Ebody as (ext & Eb & Cb & Iv & It & Ig).
  unfold try_finally, try_except. rewrite Eb.
  rewrite main_cleanup_eq with (c := the_controller w) by exact V1.
  rewrite (Hdisc _), push_push.
  eexists. split; [exact Hb|]. split; [reflexivity|].
  rewrite trace_push. split.
  { rewrite !robot_calls_app, C1, Cb. cbn. rewrite <- ?app_assoc. reflexivity. }
  split; [apply in_or_app; right; apply in_or_app; left; exact Iv|].
  split; intros Hf.
  - apply in_or_app; right; apply in_or_app; left; exact (It Hf).
  - apply in_or_app; right; apply in_or_app; left; exact (Ig Hf).
Qed.




(** X10: the gripper check of main is advisory.  When has_gripper() returns
    [False] and everything else succeeds, main prints its warning and the
    whole plan still runs, close_gripper() included, and the run reports
    success. *)
Theorem missing_gripper_only_warns
    (w : world) (args : Namespace) (r g bc bd : bool) :
  flags_ok args = true ->
  (auto args = false -> forall prompt, answers w (input prompt) (Returns r)) ->
  (forall p sm ae, answers w (XArmController_new p sm ae) (Returns bc)) ->
  answers w initialize (Returns true) ->
  answers w (is_component_enabled "track") (Returns true) ->
  answers w has_gripper (Returns false) ->
  answers w disconnect (Returns bd) ->
  first_missing (the_controller w) = None ->
  (forall v, answers w (move_to_named_location "robot_home" v) (Returns true)) ->
  answers w open_gripper (Returns g) ->
  (forall v, answers w (move_track_to_named_location "Local_1" v) (Returns true)) ->
  (forall v, answers w (move_to_named_location "deck_high" v) (Returns true)) ->
  (forall v, answers w (move_to_named_location "deck_low" v) (Returns true)) ->
  answers w close_gripper (Returns true) ->
  let t := trace (snd (run w args)) in
  fst (run w args) = Normal tt /\
  In (Printed (Line "Warning: No gripper configured. Plate pickup will not work.")) t /\
  movements t = plan_calls g true true (speeds_in_effect args) /\
  In (close_gripper, Returns true) (movements t) /\
  In (Printed (Line (nl ++ "Demo completed successfully!"))) t.
Proof.
  intros F Hin Hctor Hinit Htrack Hgrip Hdisc Hpos H1 Hg H2 H3 H4 H5.
  cbv zeta.
  destruct (run_around_demo w args bc true false bd true
              (fun custom =>
                 (is_component_enabled "track", Returns true) ::
                 plan_calls g true true (effective_speeds custom))
              F Hctor Hinit Htrack Hgrip Hdisc)
    as (custom & s' & Hb & E & C & Iv & _ & Ig).
  { intros custom s Hb.
    exact (demo_scripted w (the_controller w) (auto args) r g true true
             Hin H1 Hg H2 H3 H4 (fun _ => H5) Htrack Hpos _ custom s Hb). }
  rewrite E. cbn [fst snd]. unfold speeds_in_effect. rewrite Hb.
  split; [reflexivity|]. split; [exact (Ig eq_refl)|].
  assert (M : movements (trace s') =
              plan_calls g true true (effective_speeds custom)).
  { rewrite movements_robot_calls, C. unfold constructor_call.
    destruct (simulate args); reflexivity. }
  rewrite M. split; [reflexivity|]. split; [|exact Iv].
  unfold plan_calls. apply in_or_app. right. left. reflexivity.
Qed.

Lemma missing_gripper_only_warns_witness :
  movements (trace (snd (run no_gripper_double simulate_manual))) =
    plan_calls true true true (speeds_in_effect simulate_manual).
Proof.
  exact (proj1 (proj2 (proj2 (missing_gripper_only_warns no_gripper_double
           simulate_manual true true true true eq_refl
           (fun _ _ _ => eq_refl) (fun _ _ _ _ => eq_refl)
           (fun _ => eq_refl) (fun _ => eq_refl) (fun _ => eq_refl)
           (fun _ => eq_refl) eq_refl
           (fun _ _ => eq_refl) (fun _ => eq_refl) (fun _ _ => eq_refl)
           (fun _ _ => eq_refl) (fun _ _ => eq_refl) (fun _ => eq_refl))))).
Defined.

(** X11: no multiplier is rejected or clamped.  With neither --slow nor --fast
    and any --speed-multiplier float [m] other than 1.0 (zero, negative,
    infinite and nan included), a run in which every call succeeds (in
    manual as in automatic mode) issues the seven steps' moves at the
    default speeds times [m]. *)
Theorem any_multiplier_reaches_the_controller
    (w : world) (args : Namespace) :
  flags_ok args = true ->
  slow args = false -> fast args = false ->
  float_ne (speed_multiplier args) 1.0%float = true ->
  (forall c, answers w c (Returns true)) ->
  first_missing (the_controller w) = None ->
  let m := speed_multiplier args in
  fst (run w args) = Normal tt /\
  movements (trace (snd (run w args))) =
    [ (move_to_named_location "robot_home" (VFloat (PrimFloat.mul 20 m)),
       Returns true);
      (open_gripper, Returns true);
      (move_track_to_named_location "Local_1" (VFloat (PrimFloat.mul 150 m)),
       Returns true);
      (move_to_named_location "deck_high" (VFloat (PrimFloat.mul 15 m)),
       Returns true);
      (move_to_named_location "deck_low" (VFloat (PrimFloat.mul 8 m)),
       Returns true);
      (close_gripper, Returns true);
      (move_to_named_location "deck_high" (VFloat (PrimFloat.mul 10 m)),
       Returns true);
      (move_to_named_location "robot_home" (VFloat (PrimFloat.mul 15 m)),
       Returns true) ].
Proof.
  intros F Hslow Hfast Hm Hall Hpos. cbv zeta.
  destruct (run_scripted w args true true true true true true true F
              (fun _ prompt => Hall _)
              (fun _ _ _ => Hall _) (Hall _) (Hall _) (Hall _) (Hall _) Hpos
              (fun _ => Hall _) (Hall _) (fun _ => Hall _) (fun _ => Hall _)
              (fun _ => Hall _) (fun _ => Hall _))
    as (s' & E & C & _).
  rewrite E. cbn [fst snd]. split; [reflexivity|].
  rewrite movements_robot_calls, C.
  assert (S : speeds_in_effect args = scaled_speeds (speed_multiplier args)).
  { unfold speeds_in_effect, resolve_speed. rewrite Hslow, Hfast, Hm.
    cbn [fst]. rewrite (build_custom_speeds_scaled _ Hm). reflexivity. }
  rewrite S. unfold constructor_call.
  destruct (simulate args); reflexivity.
Qed.

Lemma any_multiplier_reaches_the_controller_witness :
  movements (trace (snd (run succeeding_double real_auto_reversed))) =
    [ (move_to_named_location "robot_home" (VFloat (-20)), Returns true);
      (open_gripper, Returns true);
      (move_track_to_named_location "Local_1" (VFloat (-150)), Returns true);
      (move_to_named_location "deck_high" (VFloat (-15)), Returns true);
      (move_to_named_location "deck_low" (VFloat (-8)), Returns true);
      (close_gripper, Returns true);
      (move_to_named_location "deck_high" (VFloat (-10)), Returns true);
      (move_to_named_location "robot_home" (VFloat (-15)), Returns true) ].
Proof.
  exact (proj2 (any_multiplier_reaches_the_controller succeeding_double
                  real_auto_reversed eq_refl eq_refl eq_refl eq_refl
                  (fun _ _ => eq_refl) eq_refl)).
Defined.

(* ===================================================================== *)
(** * Explicit overrides of the speed table *)
(* ===================================================================== *)

Lemma dict_get_set {V} (k k' : string) (v : V) (d : dict V) :
  dict_get k (dict_set k' v d) =
  if String.eqb k k' then Some v else dict_get k d.
Proof.
  induction d as [|[k0 v0] d IH]; cbn [dict_set dict_get].
  - reflexivity.
  - destruct (String.eqb k' k0) eqn:E0; cbn [dict_get].
    + apply String.eqb_eq in E0. subst k0.
      destruct (String.eqb k k'); reflexivity.
    + rewrite IH. destruct (String.eqb k k') eqn:E1; [|reflexivity].
      apply String.eqb_eq in E1. subst k'.
      rewrite E0. reflexivity.
Qed.

Lemma dict_get_absent {V} (k : string) (d : dict V) :
  ~ In k (dict_keys d) -> dict_get k d = None.
Proof.
  induction d as [|[k0 v0] d IH]; cbn [dict_keys map fst dict_get In];
    intros H; [reflexivity|].
  destruct (String.eqb k k0) eqn:E.
  - apply String.eqb_eq in E. subst k0. destruct H. left. reflexivity.
  - apply IH. intros Hin. apply H. right. exact Hin.
Qed.

(** [d.update(d')] for a [d'] with distinct keys: the entries of [d'] win,
    the other entries of [d] stay. *)
Lemma dict_update_lookup {V} (k : string) (d d' : dict V) :
  NoDup (dict_keys d') ->
  dict_get k (dict_update d d') =
  match dict_get k d' with
  | Some v => Some v
  | None => dict_get k d
  end.
Proof.
  unfold dict_update. revert d.
  induction d' as [|[k0 v0] d' IH]; intros d Hnd; cbn [fold_left dict_get].
  - reflexivity.
  - cbn [dict_keys map fst] in Hnd. inversion Hnd as [|? ? Hnotin Hnd']; subst.
    cbn [fst snd]. rewrite (IH _ Hnd'), dict_get_set.
    destruct (String.eqb k k0) eqn:E; [|reflexivity].
    apply String.eqb_eq in E. subst k0.
    rewrite (dict_get_absent k d' Hnotin). reflexivity.
Qed.

(** X12: explicit overrides are shallow.  For a [custom_speeds] dict (distinct
    keys), the record the demo uses for a step is the override's record for
    that step, whole, when there is one, and the default record otherwise:
    records are replaced, not merged key by key.  Without overrides ([None]
    or an empty dict) the defaults are used. *)
Theorem overrides_replace_whole_records
    (custom : dict config) (step_name : string) :
  NoDup (dict_keys custom) ->
  dict_get step_name (effective_speeds (Some custom)) =
    match dict_get step_name custom with
    | Some cfg => Some cfg
    | None => dict_get step_name get_speed_config
    end /\
  effective_speeds None = get_speed_config /\
  effective_speeds (Some []) = get_speed_config.
Proof.
  intros Hnd. split; [|split; reflexivity].
  unfold effective_speeds. destruct custom as [|item custom']; [reflexivity|].
  cbn [dict_truthy]. apply dict_update_lookup, Hnd.
Qed.

Lemma overrides_replace_whole_records_witness :
  dict_get "robot_home" (effective_speeds (Some speedless_home_override)) =
    Some [("description", VStr "Home, slowly")] /\
  dict_get "deck_low" (effective_speeds (Some speedless_home_override)) =
    dict_get "deck_low" get_speed_config.
Proof.
  assert (Hnd : NoDup (dict_keys speedless_home_override)).
  { repeat constructor. intros []. }
  split.
  - exact (proj1 (overrides_replace_whole_records speedless_home_override
                    "robot_home" Hnd)).
  - exact (proj1 (overrides_replace_whole_records speedless_home_override
                    "deck_low" Hnd)).
Defined.

Lemma run_steps_without_home_speed (w : world) (controller : XArmController)
    (auto_confirm : bool) (speeds : dict config) (cfg : config) (s : state) :
  dict_get "robot_home" speeds = Some cfg ->
  dict_get "joint_speed" cfg = None ->
  run_steps w controller auto_confirm speeds s =
  (Raised (PyException "KeyError"), s).
Proof.
  intros H1 H2. unfold run_steps. unfold bind at 1. unfold subscript at 1.
  rewrite H1. cbn [ret]. unfold bind at 1. unfold subscript at 1.
  rewrite H2. reflexivity.
Qed.

Lemma bind_never_true {A B} (m : Stmt bool A) (k : A -> Stmt bool B) :
  (forall s, fst (m s) <> Returned true) ->
  (forall a s, fst (k a s) <> Returned true) ->
  forall s, fst (bind m k s) <> Returned true.
Proof.
  intros Hm Hk s. unfold bind. specialize (Hm s).
  destruct (m s) as [[a|r|e] s1]; cbn [fst] in *;
    [apply Hk|congruence|discriminate].
Qed.

Lemma print_banner_never_true (speeds : dict config) (s : state) :
  fst (@print_banner bool speeds s) <> Returned true.
Proof.
  revert s. unfold print_banner.
  repeat (apply bind_never_true; [|intros ?]);
    try (intros ?; cbn; discriminate).
  induction speeds as [|[st c0] l IH];
    cbn [for_each]; [intros ?; cbn; discriminate|].
  apply bind_never_true; [|intros _; exact IH].
  intros s1. unfold subscript, bind, dict_mem.
  destruct (dict_get "joint_speed" c0); [cbn; discriminate|].
  destruct (dict_get "track_speed" c0); [cbn; discriminate|].
  destruct (dict_get "description" c0); cbn; discriminate.
Qed.

(** X13: a missing key.  If the override for 'robot_home' has no 'joint_speed'
    (the record replaces the default one, see above), the lookup before
    step 1 raises KeyError: in no environment does the demo issue a movement
    call, and it never returns [True]. *)
Theorem override_without_speed_fails_before_motion
    (w : world) (controller : XArmController) (auto_confirm : bool)
    (custom : dict config) (cfg : config) (s : state) :
  NoDup (dict_keys custom) ->
  dict_get "robot_home" custom = Some cfg ->
  dict_get "joint_speed" cfg = None ->
  count_calls is_movement
    (trace (snd (demo_plate_pickup w controller auto_confirm (Some custom) s))) =
  count_calls is_movement (trace s) /\
  fst (demo_plate_pickup w controller auto_confirm (Some custom) s) <>
    Returned true.
Proof.
  intros Hnd Hcfg Hspeed.
  assert (Hhome : dict_get "robot_home" (effective_speeds (Some custom)) = Some cfg).
  { unfold effective_speeds. destruct custom as [|item custom'];
      [discriminate Hcfg|].
    cbn [dict_truthy]. rewrite (dict_update_lookup _ _ _ Hnd), Hcfg.
    reflexivity. }
  split.
  - assert (H : only (not_call is_movement)
                  (demo_plate_pickup w controller auto_confirm (Some custom))).
    { unfold demo_plate_pickup. apply only_try_except; [|only_handler; only_auto].
      cbv zeta. apply only_bind; [unfold print_banner; only_auto|intros _].
      apply only_bind; [unfold wait_for_operator; only_auto|intros _].
      apply only_bind; [unfold preflight; only_auto|intros _].
      intros s0. exists [].
      rewrite (run_steps_without_home_speed w controller auto_confirm _ cfg s0
                 Hhome Hspeed), push_nil.
      split; reflexivity. }
    destruct (H s) as (ext & E & N). rewrite E, trace_push, count_calls_app.
    rewrite (not_call_count is_movement ext N). lia.
  - unfold demo_plate_pickup, try_except. cbv zeta.
    assert (Hb : forall s0,
               fst ((print_banner (effective_speeds (Some custom)) ;;
                     (if negb auto_confirm then
                        wait_for_operator w controller
                          "Press Enter to start the demo (Ctrl+C to abort)..."
                          "Demo aborted by user"
                      else pass) ;;
                     preflight w controller ;;
                     run_steps w controller auto_confirm
                       (effective_speeds (Some custom))) s0) <> Returned true).
    { apply bind_never_true;
        [|intros _; apply bind_never_true;
            [|intros _; apply bind_never_true; [|intros _]]].
      - apply print_banner_never_true.
      - intros s0. destruct auto_confirm; cbn [negb]; [cbn; discriminate|].
        rewrite wait_for_operator_eq. unfold stop_and_fail.
        repeat split_reply; cbn; discriminate.
      - intros s0. rewrite preflight_eq.
        destruct (first_missing controller); [cbn; discriminate|].
        cbv zeta. destruct (respond w _ _) as [[|]|e]; cbn; discriminate.
      - intros s0.
        rewrite (run_steps_without_home_speed w controller auto_confirm _ cfg
                   s0 Hhome Hspeed). cbn. discriminate. }
    specialize (Hb s).
    destruct (bind (print_banner (effective_speeds (Some custom))) _ s)
      as [[a|r|e] s1]; cbn [fst] in *; try discriminate; try exact Hb.
    destruct e as [|code|kind]; cbn [is_KeyboardInterrupt is_Exception];
      rewrite ?notice_stop_return_eq; unfold stop_and_fail;
      repeat split_reply; cbn; discriminate.
Qed.

Lemma override_without_speed_fails_before_motion_witness :
  fst (demo_plate_pickup succeeding_double rig true
         (Some speedless_home_override) initial_state) <> Returned true.
Proof.
  assert (Hnd : NoDup (dict_keys speedless_home_override)).
  { repeat constructor. intros []. }
  exact (proj2 (override_without_speed_fails_before_motion succeeding_double
                  rig true speedless_home_override
                  [("description", VStr "Home, slowly")] initial_state
                  Hnd eq_refl eq_refl)).
Defined.

(* ===================================================================== *)
(** * Manual mode: no motion without the operator's consent *)
(* ===================================================================== *)

Lemma acknowledgements_app (a b : list event) :
  acknowledgements (a ++ b) = acknowledgements a + acknowledgements b.
Proof. unfold acknowledgements. rewrite filter_app, length_app. reflexivity. Qed.

Lemma gated_nil : gated [].
Proof. split; cbn; lia. Qed.

Lemma gated_app (a b : list event) : gated a -> gated b -> gated (a ++ b).
Proof.
  unfold gated. rewrite !count_calls_app, acknowledgements_app. lia.
Qed.

Lemma count_calls_prelude (p : call -> bool) (description : string)
    (speed_info : option config) :
  count_calls p (runner_prelude description speed_info) = 0.
Proof.
  unfold count_calls. rewrite only_calls_nil; [reflexivity|].
  cbn. apply speed_info_lines_printed.
Qed.

Lemma acknowledgements_answer (b : bool) :
  acknowledgements [Called (input step_prompt) (Returns b)] = 1.
Proof. reflexivity. Qed.

Ltac gated_tac :=
  eexists;
  (split; [cbn [snd]; rewrite ?trace_push, <- ?app_assoc; reflexivity|]);
  unfold gated, one_action in *;
  rewrite ?count_calls_app, ?acknowledgements_app, ?count_calls_prelude,
    ?acknowledgements_answer;
  repeat match goal with
         | |- context [count_calls ?p (?ev :: ?l)] =>
             change (count_calls p (ev :: l)) with 0
         end;
  lia.

(** A step in manual mode: its action runs once, after the operator
    answered the prompt. *)
Lemma gated_step (w : world) (controller : XArmController)
    (movement_func : Stmt bool unit) (description : string)
    (speed_info : config) :
  (forall s, exists ef,
      snd (@call_function bool bool unit false movement_func s) = push s ef /\
      one_action ef) ->
  emits gated (step w controller movement_func description false speed_info).
Proof.
  intros Hf s. rewrite step_eq, move_with_confirmation_eq. cbv zeta.
  rewrite wait_for_operator_eq.
  destruct (respond w _ (input step_prompt)) as [b|e].
  - rewrite execute_movement_eq.
    match goal with
    | |- context [call_function false movement_func ?s2] =>
        destruct (Hf s2) as (ef & E & Q);
        destruct (call_function false movement_func s2) as [[[|]|[|]|e] s1]
    end; cbn [snd] in E; subst s1.
    + gated_tac.
    + gated_tac.
    + gated_tac.
    + gated_tac.
    + destruct (is_KeyboardInterrupt e); [|gated_tac].
      unfold stop_and_fail. destruct (respond w _ stop_motion); gated_tac.
  - destruct (is_KeyboardInterrupt e); [|gated_tac].
    unfold stop_and_fail. destruct (respond w _ stop_motion); gated_tac.
Qed.

Ltac one_action_tac :=
  let s := fresh "s" in
  intros s;
  first
    [ let E := fresh "E" in
      match goal with
      | |- context [move_home_and_open_gripper ?w ?c ?v] =>
          pose proof (move_home_and_open_gripper_eq w c v s) as E
      end;
      cbv zeta in E; rewrite E;
      destruct (respond _ (trace s) _) as [[|]|?]
    | unfold call_function, lambda, method, bind; rewrite extern_eq;
      destruct (respond _ (trace s) _) as [[|]|?] ];
  eexists; (split; [reflexivity|]); split; cbn; lia.

(** X14: in manual mode nothing moves without the operator's consent.  In
    every environment, the calls that start a step's motion
    (move_to_named_location, move_track_to_named_location, close_gripper)
    are no more than the answers the operator gave to the step prompt, and
    so are the open_gripper calls: a step whose prompt was not answered
    (never reached, or cancelled) moved nothing. *)
Theorem manual_mode_moves_only_after_consent (w : world) (args : Namespace) :
  auto args = false ->
  let t := trace (snd (run w args)) in
  count_calls is_drive t <= acknowledgements t /\
  count_calls is_open_gripper t <= acknowledgements t.
Proof.
  intros Hauto.
  assert (H : emits gated (main w args)).
  { unfold main, guarded_run, connect_and_run, initialize_and_run,
      main_handlers, main_cleanup, stop_if_controller, construct,
      demo_plate_pickup, print_banner, preflight, run_steps,
      wait_for_operator.
    rewrite Hauto. cbn [negb].
    emits_auto gated_nil gated_app ltac:(split; cbn; lia).
    all: apply gated_step; one_action_tac. }
  destruct (H initial_state) as (ext & E & G).
  cbv zeta. unfold run. rewrite E. exact G.
Qed.

Lemma manual_mode_moves_only_after_consent_witness :
  let t := trace (snd (run cancelling_operator_double simulate_manual)) in
  count_calls is_drive t <= acknowledgements t /\
  count_calls is_open_gripper t <= acknowledgements t.
Proof.
  exact (manual_mode_moves_only_after_consent cancelling_operator_double
           simulate_manual eq_refl).
Defined.

(* ===================================================================== *)
(** * The controller's life: from its construction to its disconnect *)
(* ===================================================================== *)

Lemma calls_keep_connection (ext : list event) :
  forallb keeps_connection ext = true ->
  forallb in_between (calls ext) = true.
Proof.
  induction ext as [|ev ext IH]; intros H; [reflexivity|].
  cbn [forallb] in H. apply andb_true_iff in H. destruct H as [H1 H2].
  change (ev :: ext) with ([ev] ++ ext).
  rewrite calls_app, forallb_app, (IH H2), andb_true_r.
  destruct ev as [c r|o|n]; [|reflexivity|reflexivity].
  cbn. rewrite andb_true_r. exact H1.
Qed.

Lemma calls_main_banner (args : Namespace) : calls (main_banner args) = [].
Proof. reflexivity. Qed.

(** X15: a constructor that raises ends the run quietly.  No other call is
    made (no stop_motion() and no disconnect() on a controller that does
    not exist); a KeyboardInterrupt or an Exception is reported and
    swallowed, so [main] returns normally, and only a SystemExit goes on
    to the caller. *)
Theorem constructor_fault_ends_the_run_quietly
    (w : world) (args : Namespace) (e : exn) :
  flags_ok args = true ->
  respond w (main_banner args) (constructor_call args) = Raises e ->
  calls (trace (snd (run w args))) = [(constructor_call args, Raises e)] /\
  fst (run w args) = (if is_SystemExit e then Raised e else Normal tt).
Proof.
  intros Hf Hc.
  destruct (main_accepts w args initial_state Hf) as (custom & _ & E).
  unfold run. rewrite E. clear E.
  assert (G : exists ext,
             guarded_run w (simulate args) (auto args) custom
               (push initial_state (main_banner args)) =
             (if is_SystemExit e then Raised e else Normal tt,
              push (push initial_state (main_banner args))
                (Called (constructor_call args) (Raises e) :: ext)) /\
             calls ext = []).
  { unfold guarded_run, try_finally, connect_and_run, try_except.
    assert (Ector : forall R,
              (if simulate args then @construct w R None true true
               else @construct w R (Some "real_hw") false true) =
              (_ <- extern w (constructor_call args) ;; ret (the_controller w))).
    { intros R. unfold constructor_call. destruct (simulate args); reflexivity. }
    rewrite Ector. unfold bind at 1. unfold bind at 1.
    rewrite (extern_raises w (constructor_call args)
               (push initial_state (main_banner args)) e Hc).
    unfold main_handlers, main_cleanup, stop_if_controller.
    set (c0 := constructor_call args) in *. clearbody c0.
    destruct e as [|code|kind]; cbn; eexists; (split; [reflexivity|]);
      reflexivity. }
  destruct G as (ext & -> & N). cbn [fst snd]. split; [|reflexivity].
  rewrite !trace_push, !calls_app, calls_main_banner.
  change (Called (constructor_call args) (Raises e) :: ext)
    with ([Called (constructor_call args) (Raises e)] ++ ext).
  rewrite calls_app, N. reflexivity.
Qed.

Lemma constructor_fault_ends_the_run_quietly_witness :
  calls (trace (snd (run unreachable_robot_double simulate_auto))) =
    [(constructor_call simulate_auto, Raises (PyException "ConnectionError"))] /\
  fst (run unreachable_robot_double simulate_auto) = Normal tt.
Proof.
  exact (constructor_fault_ends_the_run_quietly unreachable_robot_double
           simulate_auto (PyException "ConnectionError") eq_refl eq_refl).
Defined.

(** X16: the controller is used only between its construction and its
    disconnect.  Whenever the constructor returns, the calls of the run are
    the constructor, then calls that are neither a construction nor a
    disconnect, then [disconnect()], which is the last call of the run on
    every path (failed initialization, failed or cancelled step, fault). *)
Theorem controller_used_between_construction_and_disconnect
    (w : world) (args : Namespace) (bc : bool) :
  flags_ok args = true ->
  respond w (main_banner args) (constructor_call args) = Returns bc ->
  exists mid r,
    calls (trace (snd (run w args))) =
      (constructor_call args, Returns bc) :: mid ++ [(disconnect, r)] /\
    forallb in_between mid = true.
Proof.
  intros Hf Hc.
  destruct (main_accepts w args initial_state Hf) as (custom & _ & E).
  unfold run. rewrite E. clear E.
  rewrite (guarded_run_connected w args custom
             (push initial_state (main_banner args)) bc Hc).
  unfold try_finally.
  destruct (only_protected_part w (the_controller w) (auto args) custom
              (connected w args (push initial_state (main_banner args)) bc))
    as (e1 & E1 & P1).
  destruct (try_except _ _ _) as [c s1]. cbn [snd] in E1. subst s1.
  rewrite (main_cleanup_eq w _ (the_controller w)) by reflexivity.
  set (c0 := constructor_call args) in *.
  exists (calls e1).
  destruct (respond w _ disconnect) as [b|e].
  - exists (Returns b). split; [|apply calls_keep_connection, P1].
    cbn [snd trace push connected initial_state app].
    rewrite !calls_app, calls_main_banner. reflexivity.
  - exists (Raises e). split; [|apply calls_keep_connection, P1].
    cbn [snd trace push connected initial_state app].
    rewrite !calls_app, calls_main_banner. reflexivity.
Qed.

Lemma controller_used_between_construction_and_disconnect_witness :
  exists mid r,
    calls (trace (snd (run succeeding_double simulate_auto))) =
      (constructor_call simulate_auto, Returns true) :: mid ++ [(disconnect, r)] /\
    forallb in_between mid = true.
Proof.
  exact (controller_used_between_construction_and_disconnect succeeding_double
           simulate_auto true eq_refl eq_refl).
Defined.
